(** * Trust Score Engine of the MARK backend

    A shallow embedding of [src/services/TrustScoreService.ts] together
    with the parts of [config], [utils/logger.ts] and the Prisma schema
    it relies on, followed by the properties of the engine.

    Conventions of the embedding
    - JavaScript numbers that hold integers (scores, points, months) are
      [Z]; no score computation of the engine leaves the integers.
    - A nullable column is an [option]; JavaScript truthiness is the
      [Truthy] class below.
    - The relational store is a record of tables: tables addressed by
      primary key are [gmap string _], tables that are only filtered are
      lists in insertion order.
    - An [async] method is a computation in the monad [M]: it threads the
      store and either returns or throws.  A write that happened before a
      [throw] stays in the store (there is no transaction in the source).
    - The store collaborator is reliable: the only failures are the ones
      the schema or the code raise (missing row, foreign key, a value
      outside the range of a 32-bit INTEGER column, [throw]).
    - The User table is present as far as the foreign keys to it matter:
      the owner of a row is a User row, and [SystemLog.userId], when
      given, must be one. *)

From stdpp Require Import base option list gmap strings pretty sorting.
From Stdlib Require Import ZArith Lia.

Local Open Scope string_scope.
Local Open Scope Z_scope.

(** ** Configuration ([config.trustScore]) *)

Module config.
Module trustScore.
Definition baseScore : Z := 50.
Definition maxScore : Z := 100.
Definition minScore : Z := 0.

Module crypto.
Definition identityVerified : Z := 20.
Definition liquidityLock6Months : Z := 15.
Definition liquidityLock12Months : Z := 20.
Definition vesting12Months : Z := 10.
Definition vesting24Months : Z := 15.
Definition profileComplete : Z := 10.
Definition externalAudit : Z := 10.
Definition whitepaperSocials : Z := 5.
Definition contractVerified : Z := 5.
End crypto.

Module business.
Definition kybBasic : Z := 10.
Definition kybStandard : Z := 15.
Definition kybEnhanced : Z := 20.
Definition financialDocs : Z := 15.
Definition einRegistration : Z := 10.
Definition profileComplete : Z := 10.
Definition externalAccountingReview : Z := 10.
Definition onTimeReports : Z := 2.
End business.

Module penalties.
Definition missedReport : Z := -15.
Definition communityReport : Z := -15.
Definition contractFlag : Z := -10.
Definition kybExpired : Z := -25.
Definition largeTeamSale : Z := -20.
End penalties.
End trustScore.
End config.

(** ** JavaScript truthiness *)

Class Truthy (A : Type) := truthy : A → bool.

Global Instance truthy_bool : Truthy bool := λ b, b.
Global Instance truthy_string : Truthy string :=
  λ s, match s with EmptyString => false | String _ _ => true end.
Global Instance truthy_number : Truthy Z := λ n, negb (n =? 0).
(** [null] and [undefined] are falsy; otherwise the value decides. *)
Global Instance truthy_option `{Truthy A} : Truthy (option A) :=
  λ o, match o with Some a => truthy a | None => false end.

(** ** Enumerations of the schema *)

Inductive TrustScoreTier := EXCELLENT | GOOD | NEUTRAL | CAUTION | HIGH_RISK.

Inductive TrustScoreEventType :=
  | IDENTITY_VERIFIED | LIQUIDITY_LOCKED | VESTING_CONFIGURED
  | PROFILE_COMPLETED | AUDIT_SUBMITTED | DOCS_UPLOADED | KYB_VERIFIED
  | MANUAL_ADJUSTMENT | PENALTY_APPLIED | BONUS_APPLIED.

Inductive KYBLevel := KYB_NONE | KYB_BASIC | KYB_STANDARD | KYB_ENHANCED.

Inductive IdentityStatus :=
  | NOT_STARTED | PENDING | IN_REVIEW | VERIFIED | REJECTED | EXPIRED.

(** The literal type ['project' | 'business']. *)
Inductive EntityType := ET_project | ET_business.

Global Instance TrustScoreTier_eq_dec : EqDecision TrustScoreTier.
Proof. solve_decision. Defined.
Global Instance KYBLevel_eq_dec : EqDecision KYBLevel.
Proof. solve_decision. Defined.
Global Instance IdentityStatus_eq_dec : EqDecision IdentityStatus.
Proof. solve_decision. Defined.
Global Instance EntityType_eq_dec : EqDecision EntityType.
Proof. solve_decision. Defined.

(** ** Score tiers *)

Definition getTier (score : Z) : TrustScoreTier :=
  if 85 <=? score then EXCELLENT
  else if 70 <=? score then GOOD
  else if 50 <=? score then NEUTRAL
  else if 30 <=? score then CAUTION
  else HIGH_RISK.

Definition getTierDescription (tier : TrustScoreTier) : string :=
  match tier with
  | EXCELLENT => "Highly Trusted - This entity has demonstrated exceptional trustworthiness"
  | GOOD => "Trusted - This entity meets high standards of verification and transparency"
  | NEUTRAL => "Standard - This entity meets basic requirements"
  | CAUTION => "Exercise Caution - Some trust factors are missing or concerning"
  | HIGH_RISK => "High Risk - Significant trust factors are missing or concerning"
  end.

(** ** Rows of the store

    Only the columns the engine reads or writes are kept.  The primary
    key [id] of a row is the key of its table. *)

Module CryptoProject.
Record t := mk {
  userId : string;
  name : string;
  description : option string;
  category : option string;
  whitepaper : option string;
  twitter : option string;
  discord : option string;
  telegram : option string;
  totalSupply : option string;
  (* DOUBLE PRECISION column; the engine only tests it against null *)
  teamAllocationPercent : option Z;
  teamVestingMonths : option Z;
  liquidityLockMonths : option Z;
  auditProvider : option string;
  auditReportUrl : option string;
  contractVerified : bool;
  trustScore : Z;
  trustScoreUpdatedAt : option Z;
}.

(** [data: { trustScore, trustScoreUpdatedAt }] of [update]. *)
Definition setScore (score : Z) (at_ : Z) (p : t) : t :=
  mk (userId p) (name p) (description p) (category p) (whitepaper p)
     (twitter p) (discord p) (telegram p) (totalSupply p)
     (teamAllocationPercent p) (teamVestingMonths p) (liquidityLockMonths p)
     (auditProvider p) (auditReportUrl p) (contractVerified p)
     score (Some at_).
End CryptoProject.

Module Business.
Record t := mk {
  userId : string;
  legalName : string;
  entityType : option string;
  jurisdiction : option string;
  ein : option string;
  registrationNumber : option string;
  businessEmail : option string;
  website : option string;
  description : option string;
  industry : option string;
  kybLevel : KYBLevel;
  trustScore : Z;
  trustScoreUpdatedAt : option Z;
}.

Definition setScore (score : Z) (at_ : Z) (b : t) : t :=
  mk (userId b) (legalName b) (entityType b) (jurisdiction b) (ein b)
     (registrationNumber b) (businessEmail b) (website b) (description b)
     (industry b) (kybLevel b) score (Some at_).
End Business.

Record PrivateIdentityVerification := {
  status : IdentityStatus;
}.

Record ProjectDocument := {
  pd_projectId : string;
  pd_type : string;
}.

Record BusinessDocument := {
  bd_businessId : string;
  bd_type : string;
  bd_isVerified : bool;
}.

Record Founder := {
  f_businessId : string;
  f_kycVerified : bool;
}.

Record TrustScoreEvent := {
  projectId : option string;
  businessId : option string;
  eventType : TrustScoreEventType;
  points : Z;
  reason : string;
  triggeredBy : option string;
  metadata : option (list (string * bool));
  createdAt : Z;
}.

Inductive LogLevel := INFO | WARN | ERROR | SECURITY | AUDIT.

(** ** Rule tables *)

Record EvaluationContext := {
  identity : option PrivateIdentityVerification;
  documentsCount : Z;
  hasFinancialDocs : option bool;
  hasAuditDocs : option bool;
  founderCount : option Z;
  founderKycCount : option Z;
}.

(** A rule table is applied to one entity kind only; the cast
    [entity as CryptoProject] of the source is the type index [E]. *)
Record ScoreRule (E : Type) := {
  rule_name : string;
  maxPoints : Z;
  rule_description : string;
  evaluate : E → EvaluationContext → Z;
}.
Arguments rule_name {E} _.
Arguments maxPoints {E} _.
Arguments rule_description {E} _.
Arguments evaluate {E} _ _ _.

(** [requiredFields.filter(Boolean).length / requiredFields.length]
    followed by [Math.floor(completeness * max)].  The source computes
    in floating point; for the table sizes 5 and 7 and [max = 10] the
    double result equals the integer quotient below for every count. *)
Definition completenessPoints (requiredFields : list bool) (max : Z) : Z :=
  (Z.of_nat (length (filter (λ b, b = true) requiredFields)) * max)
    `div` Z.of_nat (length requiredFields).

(** [x && x >= k] on a nullable integer column. *)
Definition atLeast (x : option Z) (k : Z) : bool :=
  truthy x && match x with Some n => k <=? n | None => false end.

Definition identityIsVerified (context : EvaluationContext) : bool :=
  match identity context with
  | Some i => bool_decide (status i = VERIFIED)
  | None => false
  end.

Definition identityVerificationRule : ScoreRule CryptoProject.t :=
  {| rule_name := "Identity Verification";
     maxPoints := config.trustScore.crypto.identityVerified;
     rule_description := "Team lead has completed private identity verification";
     evaluate := λ entity context,
       if identityIsVerified context
       then config.trustScore.crypto.identityVerified else 0 |}.

Definition liquidityLock6Rule : ScoreRule CryptoProject.t :=
  {| rule_name := "Liquidity Lock (6+ months)";
     maxPoints := config.trustScore.crypto.liquidityLock6Months;
     rule_description := "Initial liquidity is locked for at least 6 months";
     evaluate := λ project _,
       if atLeast (CryptoProject.liquidityLockMonths project) 6
       then config.trustScore.crypto.liquidityLock6Months else 0 |}.

Definition liquidityLock12Rule : ScoreRule CryptoProject.t :=
  {| rule_name := "Liquidity Lock (12+ months)";
     maxPoints := config.trustScore.crypto.liquidityLock12Months
                  - config.trustScore.crypto.liquidityLock6Months;
     rule_description := "Initial liquidity is locked for at least 12 months (additional bonus)";
     evaluate := λ project _,
       if atLeast (CryptoProject.liquidityLockMonths project) 12
       then config.trustScore.crypto.liquidityLock12Months
            - config.trustScore.crypto.liquidityLock6Months
       else 0 |}.

Definition teamVesting12Rule : ScoreRule CryptoProject.t :=
  {| rule_name := "Team Vesting (12+ months)";
     maxPoints := config.trustScore.crypto.vesting12Months;
     rule_description := "Team tokens have at least 12 months vesting";
     evaluate := λ project _,
       if atLeast (CryptoProject.teamVestingMonths project) 12
       then config.trustScore.crypto.vesting12Months else 0 |}.

Definition teamVesting24Rule : ScoreRule CryptoProject.t :=
  {| rule_name := "Team Vesting (24+ months)";
     maxPoints := config.trustScore.crypto.vesting24Months
                  - config.trustScore.crypto.vesting12Months;
     rule_description := "Team tokens have at least 24 months vesting (additional bonus)";
     evaluate := λ project _,
       if atLeast (CryptoProject.teamVestingMonths project) 24
       then config.trustScore.crypto.vesting24Months
            - config.trustScore.crypto.vesting12Months
       else 0 |}.

Definition projectProfileRule : ScoreRule CryptoProject.t :=
  {| rule_name := "Complete Profile";
     maxPoints := config.trustScore.crypto.profileComplete;
     rule_description := "Project has a complete profile with all essential information";
     evaluate := λ project _,
       let requiredFields := [
         truthy (CryptoProject.name project);
         truthy (CryptoProject.description project);
         truthy (CryptoProject.category project);
         truthy (CryptoProject.totalSupply project);
         bool_decide (CryptoProject.teamAllocationPercent project ≠ None) ] in
       completenessPoints requiredFields config.trustScore.crypto.profileComplete |}.

Definition externalAuditRule : ScoreRule CryptoProject.t :=
  {| rule_name := "External Audit";
     maxPoints := config.trustScore.crypto.externalAudit;
     rule_description := "Smart contract has been audited by a third-party";
     evaluate := λ project _,
       if truthy (CryptoProject.auditProvider project)
          && truthy (CryptoProject.auditReportUrl project)
       then config.trustScore.crypto.externalAudit else 0 |}.

Definition whitepaperSocialsRule : ScoreRule CryptoProject.t :=
  {| rule_name := "Whitepaper & Socials";
     maxPoints := config.trustScore.crypto.whitepaperSocials;
     rule_description := "Project has whitepaper and active social media presence";
     evaluate := λ project _,
       let points := 0 in
       let points :=
         if truthy (CryptoProject.whitepaper project) then points + 2 else points in
       let points :=
         if truthy (CryptoProject.twitter project)
            || truthy (CryptoProject.discord project)
            || truthy (CryptoProject.telegram project)
         then points + 3 else points in
       Z.min points config.trustScore.crypto.whitepaperSocials |}.

Definition contractVerifiedRule : ScoreRule CryptoProject.t :=
  {| rule_name := "Contract Verified";
     maxPoints := config.trustScore.crypto.contractVerified;
     rule_description := "Smart contract source code is verified on-chain";
     evaluate := λ project _,
       if CryptoProject.contractVerified project
       then config.trustScore.crypto.contractVerified else 0 |}.

Definition cryptoRules : list (ScoreRule CryptoProject.t) :=
  [ identityVerificationRule;
    liquidityLock6Rule;
    liquidityLock12Rule;
    teamVesting12Rule;
    teamVesting24Rule;
    projectProfileRule;
    externalAuditRule;
    whitepaperSocialsRule;
    contractVerifiedRule ].

Definition kybBasicRule : ScoreRule Business.t :=
  {| rule_name := "KYB Basic";
     maxPoints := config.trustScore.business.kybBasic;
     rule_description := "Business has completed basic KYB verification";
     evaluate := λ business _,
       match Business.kybLevel business with
       | KYB_BASIC | KYB_STANDARD | KYB_ENHANCED => config.trustScore.business.kybBasic
       | KYB_NONE => 0
       end |}.

Definition kybStandardRule : ScoreRule Business.t :=
  {| rule_name := "KYB Standard";
     maxPoints := config.trustScore.business.kybStandard
                  - config.trustScore.business.kybBasic;
     rule_description := "Business has completed standard KYB verification (additional)";
     evaluate := λ business _,
       match Business.kybLevel business with
       | KYB_STANDARD | KYB_ENHANCED =>
           config.trustScore.business.kybStandard - config.trustScore.business.kybBasic
       | _ => 0
       end |}.

Definition kybEnhancedRule : ScoreRule Business.t :=
  {| rule_name := "KYB Enhanced";
     maxPoints := config.trustScore.business.kybEnhanced
                  - config.trustScore.business.kybStandard;
     rule_description := "Business has completed enhanced KYB verification (additional)";
     evaluate := λ business _,
       match Business.kybLevel business with
       | KYB_ENHANCED =>
           config.trustScore.business.kybEnhanced - config.trustScore.business.kybStandard
       | _ => 0
       end |}.

Definition financialDocsRule : ScoreRule Business.t :=
  {| rule_name := "Financial Documents";
     maxPoints := config.trustScore.business.financialDocs;
     rule_description := "Business has uploaded financial documents (P&L, balance sheet)";
     evaluate := λ _ context,
       if truthy (hasFinancialDocs context)
       then config.trustScore.business.financialDocs else 0 |}.

Definition einRegistrationRule : ScoreRule Business.t :=
  {| rule_name := "EIN / Registration";
     maxPoints := config.trustScore.business.einRegistration;
     rule_description := "Business has valid EIN or registration number on file";
     evaluate := λ business _,
       if truthy (Business.ein business)
          || truthy (Business.registrationNumber business)
       then config.trustScore.business.einRegistration else 0 |}.

Definition businessProfileRule : ScoreRule Business.t :=
  {| rule_name := "Complete Profile";
     maxPoints := config.trustScore.business.profileComplete;
     rule_description := "Business has a complete profile with all essential information";
     evaluate := λ business _,
       let requiredFields := [
         truthy (Business.legalName business);
         truthy (Business.entityType business);
         truthy (Business.jurisdiction business);
         truthy (Business.description business);
         truthy (Business.industry business);
         truthy (Business.businessEmail business);
         truthy (Business.website business) ] in
       completenessPoints requiredFields config.trustScore.business.profileComplete |}.

Definition externalAccountingReviewRule : ScoreRule Business.t :=
  {| rule_name := "External Accounting Review";
     maxPoints := config.trustScore.business.externalAccountingReview;
     rule_description := "Financial documents have been reviewed by external accountant";
     evaluate := λ _ context,
       if truthy (hasAuditDocs context)
       then config.trustScore.business.externalAccountingReview else 0 |}.

Definition businessRules : list (ScoreRule Business.t) :=
  [ kybBasicRule;
    kybStandardRule;
    kybEnhancedRule;
    financialDocsRule;
    einRegistrationRule;
    businessProfileRule;
    externalAccountingReviewRule ].

(** ** The store and the monad of asynchronous methods *)

Inductive LogCategory :=
  | LC_AUTH | LC_PROJECT | LC_BUSINESS | LC_ADMIN | LC_TRUST_SCORE
  | LC_SECURITY | LC_SYSTEM | LC_DEX | LC_IDENTITY.

Record SystemLog := {
  level : LogLevel;
  category : LogCategory;
  action : string;
  message : string;
  log_userId : option string;
}.

Record Store := {
  (* ids of User rows; the owners of the rows below are User rows as
     well, listed here or not: see [userExists] *)
  tbl_user : gset string;
  tbl_cryptoProject : gmap string CryptoProject.t;
  tbl_business : gmap string Business.t;
  (* one row per user at most: [userId] is unique in that table *)
  tbl_privateIdentityVerification : gmap string PrivateIdentityVerification;
  tbl_projectDocument : list ProjectDocument;
  tbl_businessDocument : list BusinessDocument;
  tbl_founder : list Founder;
  (* the score ledger, oldest row first *)
  tbl_trustScoreEvent : list TrustScoreEvent;
  tbl_systemLog : list SystemLog;
  (* wall clock, read by [new Date()] and by CURRENT_TIMESTAMP defaults *)
  clock : Z;
}.

Inductive Error := mkError (msg : string).

Inductive Outcome (A : Type) :=
  | Return (a : A)
  | Throw (e : Error).
Arguments Return {A} _.
Arguments Throw {A} _.

Definition M (A : Type) : Type := Store → Outcome A * Store.

Definition ret {A} (a : A) : M A := λ st, (Return a, st).

Definition bind {A B} (m : M A) (k : A → M B) : M B :=
  λ st, match m st with
        | (Return a, st') => k a st'
        | (Throw e, st') => (Throw e, st')
        end.

Definition throw {A} (e : Error) : M A := λ st, (Throw e, st).

(** [try { body } catch (error) { handler(error) }] *)
Definition tryCatch {A} (body : M A) (handler : Error → M A) : M A :=
  λ st, match body st with
        | (Return a, st') => (Return a, st')
        | (Throw e, st') => handler e st'
        end.

Definition gets {A} (f : Store → A) : M A := λ st, (Return (f st), st).
Definition modify (f : Store → Store) : M unit := λ st, (Return tt, f st).

Notation "x <- m ;; k" := (bind m (λ x, k))
  (at level 100, m at next level, right associativity,
   format "'[v' x  <-  m  ;;  '/' k ']'").
Notation "m ;;; k" := (bind m (λ _, k))
  (at level 100, right associativity,
   format "'[v' m  ;;;  '/' k ']'").

(** [for (const x of xs) { await body(x) }] *)
Fixpoint forEach {A} (xs : list A) (body : A → M unit) : M unit :=
  match xs with
  | [] => ret tt
  | x :: xs' => body x ;;; forEach xs' body
  end.

(** *** Store updates *)

Definition set_cryptoProject (t : gmap string CryptoProject.t) (st : Store) : Store :=
  {| tbl_user := tbl_user st;
     tbl_cryptoProject := t;
     tbl_business := tbl_business st;
     tbl_privateIdentityVerification := tbl_privateIdentityVerification st;
     tbl_projectDocument := tbl_projectDocument st;
     tbl_businessDocument := tbl_businessDocument st;
     tbl_founder := tbl_founder st;
     tbl_trustScoreEvent := tbl_trustScoreEvent st;
     tbl_systemLog := tbl_systemLog st;
     clock := clock st |}.

Definition set_business (t : gmap string Business.t) (st : Store) : Store :=
  {| tbl_user := tbl_user st;
     tbl_cryptoProject := tbl_cryptoProject st;
     tbl_business := t;
     tbl_privateIdentityVerification := tbl_privateIdentityVerification st;
     tbl_projectDocument := tbl_projectDocument st;
     tbl_businessDocument := tbl_businessDocument st;
     tbl_founder := tbl_founder st;
     tbl_trustScoreEvent := tbl_trustScoreEvent st;
     tbl_systemLog := tbl_systemLog st;
     clock := clock st |}.

Definition set_trustScoreEvent (t : list TrustScoreEvent) (st : Store) : Store :=
  {| tbl_user := tbl_user st;
     tbl_cryptoProject := tbl_cryptoProject st;
     tbl_business := tbl_business st;
     tbl_privateIdentityVerification := tbl_privateIdentityVerification st;
     tbl_projectDocument := tbl_projectDocument st;
     tbl_businessDocument := tbl_businessDocument st;
     tbl_founder := tbl_founder st;
     tbl_trustScoreEvent := t;
     tbl_systemLog := tbl_systemLog st;
     clock := clock st |}.

Definition set_systemLog (t : list SystemLog) (st : Store) : Store :=
  {| tbl_user := tbl_user st;
     tbl_cryptoProject := tbl_cryptoProject st;
     tbl_business := tbl_business st;
     tbl_privateIdentityVerification := tbl_privateIdentityVerification st;
     tbl_projectDocument := tbl_projectDocument st;
     tbl_businessDocument := tbl_businessDocument st;
     tbl_founder := tbl_founder st;
     tbl_trustScoreEvent := tbl_trustScoreEvent st;
     tbl_systemLog := t;
     clock := clock st |}.

Definition set_clock (c : Z) (st : Store) : Store :=
  {| tbl_user := tbl_user st;
     tbl_cryptoProject := tbl_cryptoProject st;
     tbl_business := tbl_business st;
     tbl_privateIdentityVerification := tbl_privateIdentityVerification st;
     tbl_projectDocument := tbl_projectDocument st;
     tbl_businessDocument := tbl_businessDocument st;
     tbl_founder := tbl_founder st;
     tbl_trustScoreEvent := tbl_trustScoreEvent st;
     tbl_systemLog := tbl_systemLog st;
     clock := c |}.

(** The rows of [User].  The foreign keys of [CryptoProject], [Business]
    and [PrivateIdentityVerification] make the owner of every project and
    business and the holder of every identity record a User row; any
    other User row is listed in [tbl_user]. *)
Definition userExists (st : Store) (u : string) : Prop :=
  u ∈ tbl_user st
  ∨ map_Exists (λ _ row, CryptoProject.userId row = u) (tbl_cryptoProject st)
  ∨ map_Exists (λ _ row, Business.userId row = u) (tbl_business st)
  ∨ is_Some (tbl_privateIdentityVerification st !! u).

Global Instance userExists_dec st u : Decision (userExists st u).
Proof. unfold userExists. apply _. Defined.

(** The current time; time moves on between two readings. *)
Definition newDate : M Z :=
  λ st, (Return (clock st), set_clock (clock st + 1) st).

(** *** The Prisma client *)

Module prisma.

Record ProjectWithRelations := {
  p_row : CryptoProject.t;
  p_identityVerification : option PrivateIdentityVerification;
  p_documents : list ProjectDocument;
}.

Record BusinessWithRelations := {
  b_row : Business.t;
  b_identityVerification : option PrivateIdentityVerification;
  b_documents : list BusinessDocument;
  b_founders : list Founder;
}.

(** [cryptoProject.findUnique] with
    [include: { user: { include: { identityVerification } }, documents }] *)
Definition cryptoProject_findUnique (id : string) : M (option ProjectWithRelations) :=
  gets (λ st,
    row ← tbl_cryptoProject st !! id;
    Some {| p_row := row;
            p_identityVerification :=
              tbl_privateIdentityVerification st !! CryptoProject.userId row;
            p_documents :=
              filter (λ d, pd_projectId d = id) (tbl_projectDocument st) |}).

Definition business_findUnique (id : string) : M (option BusinessWithRelations) :=
  gets (λ st,
    row ← tbl_business st !! id;
    Some {| b_row := row;
            b_identityVerification :=
              tbl_privateIdentityVerification st !! Business.userId row;
            b_documents :=
              filter (λ d, bd_businessId d = id) (tbl_businessDocument st);
            b_founders :=
              filter (λ f, f_businessId f = id) (tbl_founder st) |}).

(** [findMany({ where: { userId } })]: the rows with their ids. *)
Definition cryptoProject_findMany (userId : string)
  : M (list (string * CryptoProject.t)) :=
  gets (λ st, filter (λ r, CryptoProject.userId r.2 = userId)
                     (map_to_list (tbl_cryptoProject st))).

Definition business_findMany (userId : string)
  : M (list (string * Business.t)) :=
  gets (λ st, filter (λ r, Business.userId r.2 = userId)
                     (map_to_list (tbl_business st))).

(** [update({ where: { id }, data })] fails on a missing row. *)
Definition cryptoProject_update (id : string) (data : CryptoProject.t → CryptoProject.t)
  : M unit :=
  λ st, match tbl_cryptoProject st !! id with
        | Some row =>
            (Return tt, set_cryptoProject (<[id := data row]> (tbl_cryptoProject st)) st)
        | None => (Throw (mkError "Record to update not found."), st)
        end.

Definition business_update (id : string) (data : Business.t → Business.t)
  : M unit :=
  λ st, match tbl_business st !! id with
        | Some row =>
            (Return tt, set_business (<[id := data row]> (tbl_business st)) st)
        | None => (Throw (mkError "Record to update not found."), st)
        end.

(** [trustScoreEvent.findMany({ where: { projectId, points: { lt: 0 } } })] *)
Definition trustScoreEvent_findMany_projectPenalties (id : string)
  : M (list TrustScoreEvent) :=
  gets (λ st, filter (λ e, projectId e = Some id ∧ points e < 0)
                     (tbl_trustScoreEvent st)).

Definition trustScoreEvent_findMany_businessPenalties (id : string)
  : M (list TrustScoreEvent) :=
  gets (λ st, filter (λ e, businessId e = Some id ∧ points e < 0)
                     (tbl_trustScoreEvent st)).

(** [orderBy: { createdAt: 'desc' }]; rows with equal timestamps stay in
    insertion order. *)
Fixpoint insertDesc (e : TrustScoreEvent) (l : list TrustScoreEvent)
  : list TrustScoreEvent :=
  match l with
  | [] => [e]
  | x :: l' => if createdAt x <=? createdAt e then e :: l
               else x :: insertDesc e l'
  end.

Definition orderByCreatedAtDesc (l : list TrustScoreEvent) : list TrustScoreEvent :=
  foldr insertDesc [] l.

(** [findMany({ where: { projectId }, orderBy: { createdAt: 'desc' }, take: 10 })] *)
Definition trustScoreEvent_findMany_projectHistory (id : string)
  : M (list TrustScoreEvent) :=
  gets (λ st, take 10 (orderByCreatedAtDesc
                (filter (λ e, projectId e = Some id) (tbl_trustScoreEvent st)))).

Definition trustScoreEvent_findMany_businessHistory (id : string)
  : M (list TrustScoreEvent) :=
  gets (λ st, take 10 (orderByCreatedAtDesc
                (filter (λ e, businessId e = Some id) (tbl_trustScoreEvent st)))).

(** The foreign keys of [TrustScoreEvent]: a referenced project or
    business must exist. *)
Definition foreignKeysHold (st : Store) (pid bid : option string) : bool :=
  match pid with
  | Some id => bool_decide (is_Some (tbl_cryptoProject st !! id))
  | None => true
  end
  && match bid with
     | Some id => bool_decide (is_Some (tbl_business st !! id))
     | None => true
     end.

(** The column [points] is a 32-bit INTEGER. *)
Definition int32 (n : Z) : bool := (-2147483648 <=? n) && (n <=? 2147483647).

(** [trustScoreEvent.create]; [createdAt] defaults to the current time.
    A value outside the column's range or a dangling reference makes the
    insert fail with nothing written. *)
Definition trustScoreEvent_create
    (pid bid : option string) (ty : TrustScoreEventType) (pts : Z)
    (why : string) (by_ : option string) (meta : option (list (string * bool)))
  : M unit :=
  λ st,
    if negb (int32 pts) then
      (Throw (mkError "Value out of range for the type"), st)
    else if foreignKeysHold st pid bid then
      let e := {| projectId := pid; businessId := bid; eventType := ty;
                  points := pts; reason := why; triggeredBy := by_;
                  metadata := meta; createdAt := clock st |} in
      (Return tt,
       set_clock (clock st + 1)
         (set_trustScoreEvent (tbl_trustScoreEvent st ++ [e])%list st))
    else (Throw (mkError "Foreign key constraint failed"), st).

(** The foreign key of [SystemLog.userId]: a given user id must be a
    User row. *)
Definition logForeignKeyHolds (st : Store) (l : SystemLog) : bool :=
  match log_userId l with
  | Some u => bool_decide (userExists st u)
  | None => true
  end.

Definition systemLog_create (l : SystemLog) : M unit :=
  λ st,
    if logForeignKeyHolds st l then
      (Return tt, set_systemLog (tbl_systemLog st ++ [l])%list st)
    else (Throw (mkError "Foreign key constraint failed"), st).

End prisma.

(** ** The logging service ([utils/logger.ts]) *)

Module logger.

(** Console output is not part of the store and is left out. *)
Definition log (l : SystemLog) : M unit :=
  tryCatch (prisma.systemLog_create l)
           (λ error, (* Don't throw - logging should never break the application *)
              ret tt).

Definition audit (category : LogCategory) (action message userId : string) : M unit :=
  log {| level := AUDIT; category := category; action := action;
         message := message; log_userId := Some userId |}.

End logger.

(** ** Result shapes ([types/index.ts]) *)

Record TrustScoreFactor := {
  tf_name : string;
  tf_points : Z;
  tf_maxPoints : Z;
  achieved : bool;
  tf_description : string;
}.

Record TrustScoreHistoryItem := {
  date : Z;
  score : Z;
  h_eventType : TrustScoreEventType;
  h_points : Z;
  h_reason : string;
}.

Record TrustScoreResult := {
  entityId : string;
  entityType : EntityType;
  currentScore : Z;
  tier : TrustScoreTier;
  factors : list TrustScoreFactor;
  lastUpdated : Z;
  history : list TrustScoreHistoryItem;
}.

Record TrustScoreAdjustment := {
  adj_entityId : string;
  adj_entityType : EntityType;
  adj_points : Z;
  adj_reason : string;
}.

(** ** The trust score service *)

(** The loop [for (const rule of rules)] of both score calculations:
    it starts from [baseScore] and an empty factor list. *)
Definition evaluateRules {E} (rules : list (ScoreRule E)) (entity : E)
    (context : EvaluationContext) : Z * list TrustScoreFactor :=
  foldl (λ '(totalScore, factors) rule,
           let points := evaluate rule entity context in
           (totalScore + points,
            (factors ++ [ {| tf_name := rule_name rule;
                             tf_points := points;
                             tf_maxPoints := maxPoints rule;
                             achieved := 0 <? points;
                             tf_description := rule_description rule |} ])%list))
        (config.trustScore.baseScore, []) rules.

(** The loop [for (const event of penaltyEvents) totalScore += event.points]. *)
Definition applyPenalties (totalScore : Z) (penaltyEvents : list TrustScoreEvent) : Z :=
  foldl (λ totalScore event, totalScore + points event) totalScore penaltyEvents.

Definition clampScore (totalScore : Z) : Z :=
  Z.max config.trustScore.minScore (Z.min config.trustScore.maxScore totalScore).

Definition historyItem (totalScore : Z) (h : TrustScoreEvent) : TrustScoreHistoryItem :=
  {| date := createdAt h;
     score := totalScore; (* Would need historical scores for past values *)
     h_eventType := eventType h;
     h_points := points h;
     h_reason := reason h |}.

Definition projectContext (project : prisma.ProjectWithRelations) : EvaluationContext :=
  {| identity := prisma.p_identityVerification project;
     documentsCount := Z.of_nat (length (prisma.p_documents project));
     hasFinancialDocs := None;
     hasAuditDocs :=
       Some (existsb (λ d, bool_decide (pd_type d = "audit")) (prisma.p_documents project));
     founderCount := None;
     founderKycCount := None |}.

Definition businessContext (business : prisma.BusinessWithRelations) : EvaluationContext :=
  {| identity := prisma.b_identityVerification business;
     documentsCount := Z.of_nat (length (prisma.b_documents business));
     hasFinancialDocs :=
       Some (existsb (λ d, bool_decide (bd_type d = "financial"))
                     (prisma.b_documents business));
     hasAuditDocs :=
       Some (existsb (λ d, bool_decide (bd_type d = "audit") && bd_isVerified d)
                     (prisma.b_documents business));
     founderCount := Some (Z.of_nat (length (prisma.b_founders business)));
     founderKycCount :=
       Some (Z.of_nat (length (filter (λ f, f_kycVerified f = true)
                                      (prisma.b_founders business)))) |}.

Definition calculateProjectScore (projectId : string) : M TrustScoreResult :=
  project <- prisma.cryptoProject_findUnique projectId ;;
  match project with
  | None => throw (mkError "Project not found")
  | Some project =>
      let context := projectContext project in
      let '(totalScore, factors) :=
        evaluateRules cryptoRules (prisma.p_row project) context in
      (* Apply any penalty events *)
      penaltyEvents <- prisma.trustScoreEvent_findMany_projectPenalties projectId ;;
      let totalScore := applyPenalties totalScore penaltyEvents in
      (* Clamp score to valid range *)
      let totalScore := clampScore totalScore in
      (* Get history *)
      history <- prisma.trustScoreEvent_findMany_projectHistory projectId ;;
      lastUpdated <- newDate ;;
      let result :=
        {| entityId := projectId;
           entityType := ET_project;
           currentScore := totalScore;
           tier := getTier totalScore;
           factors := factors;
           lastUpdated := lastUpdated;
           history := historyItem totalScore <$> history |} in
      (* Update the project's trust score *)
      updatedAt <- newDate ;;
      prisma.cryptoProject_update projectId
        (CryptoProject.setScore totalScore updatedAt) ;;;
      logger.audit LC_TRUST_SCORE "SCORE_CALCULATED"
        ("Calculated trust score for project " +:+ projectId +:+ ": "
           +:+ pretty totalScore)
        (CryptoProject.userId (prisma.p_row project)) ;;;
      ret result
  end.

Definition calculateBusinessScore (businessId : string) : M TrustScoreResult :=
  business <- prisma.business_findUnique businessId ;;
  match business with
  | None => throw (mkError "Business not found")
  | Some business =>
      let context := businessContext business in
      let '(totalScore, factors) :=
        evaluateRules businessRules (prisma.b_row business) context in
      (* Apply any penalty events *)
      penaltyEvents <- prisma.trustScoreEvent_findMany_businessPenalties businessId ;;
      let totalScore := applyPenalties totalScore penaltyEvents in
      (* Clamp score to valid range *)
      let totalScore := clampScore totalScore in
      (* Get history *)
      history <- prisma.trustScoreEvent_findMany_businessHistory businessId ;;
      lastUpdated <- newDate ;;
      let result :=
        {| entityId := businessId;
           entityType := ET_business;
           currentScore := totalScore;
           tier := getTier totalScore;
           factors := factors;
           lastUpdated := lastUpdated;
           history := historyItem totalScore <$> history |} in
      (* Update the business's trust score *)
      updatedAt <- newDate ;;
      prisma.business_update businessId
        (Business.setScore totalScore updatedAt) ;;;
      logger.audit LC_TRUST_SCORE "SCORE_CALCULATED"
        ("Calculated trust score for business " +:+ businessId +:+ ": "
           +:+ pretty totalScore)
        (Business.userId (prisma.b_row business)) ;;;
      ret result
  end.

(** *** Events *)

Definition recordEvent (entityId : string) (entityType : EntityType)
    (eventType : TrustScoreEventType) (points : Z) (reason : string)
    (triggeredBy : option string) (metadata : option (list (string * bool)))
  : M unit :=
  prisma.trustScoreEvent_create
    (if decide (entityType = ET_project) then Some entityId else None)
    (if decide (entityType = ET_business) then Some entityId else None)
    eventType points reason triggeredBy metadata ;;;
  (* Recalculate score after event *)
  match entityType with
  | ET_project => _ <- calculateProjectScore entityId ;; ret tt
  | ET_business => _ <- calculateBusinessScore entityId ;; ret tt
  end.

Definition entityTypeName (entityType : EntityType) : string :=
  match entityType with ET_project => "project" | ET_business => "business" end.

Definition adminAdjust (adjustment : TrustScoreAdjustment) (adminId : string)
  : M TrustScoreResult :=
  recordEvent (adj_entityId adjustment) (adj_entityType adjustment)
    MANUAL_ADJUSTMENT (adj_points adjustment) (adj_reason adjustment)
    (Some adminId) (Some [("adminAdjustment", true)]) ;;;
  logger.audit LC_TRUST_SCORE "ADMIN_ADJUSTMENT"
    ("Admin " +:+ adminId +:+ " adjusted "
       +:+ entityTypeName (adj_entityType adjustment) +:+ " "
       +:+ adj_entityId adjustment +:+ " by " +:+ pretty (adj_points adjustment)
       +:+ " points: " +:+ adj_reason adjustment)
    adminId ;;;
  match adj_entityType adjustment with
  | ET_project => calculateProjectScore (adj_entityId adjustment)
  | ET_business => calculateBusinessScore (adj_entityId adjustment)
  end.

(** *** Triggers *)

Definition onIdentityVerified (userId : string) : M unit :=
  (* Find all projects and businesses for this user *)
  projects <- prisma.cryptoProject_findMany userId ;;
  businesses <- prisma.business_findMany userId ;;
  forEach projects (λ p,
    recordEvent p.1 ET_project IDENTITY_VERIFIED
      config.trustScore.crypto.identityVerified
      "Team lead completed identity verification" (Some "system") None) ;;;
  forEach businesses (λ b,
    recordEvent b.1 ET_business IDENTITY_VERIFIED
      config.trustScore.business.kybBasic
      "Business owner completed identity verification" (Some "system") None).

Definition onLiquidityLocked (projectId : string) (months : Z) : M unit :=
  let points :=
    if 12 <=? months then config.trustScore.crypto.liquidityLock12Months
    else if 6 <=? months then config.trustScore.crypto.liquidityLock6Months
    else 0 in
  if 0 <? points then
    recordEvent projectId ET_project LIQUIDITY_LOCKED points
      ("Liquidity locked for " +:+ pretty months +:+ " months") (Some "system") None
  else ret tt.

Definition onVestingConfigured (projectId : string) (months : Z) : M unit :=
  let points :=
    if 24 <=? months then config.trustScore.crypto.vesting24Months
    else if 12 <=? months then config.trustScore.crypto.vesting12Months
    else 0 in
  if 0 <? points then
    recordEvent projectId ET_project VESTING_CONFIGURED points
      ("Team vesting configured for " +:+ pretty months +:+ " months")
      (Some "system") None
  else ret tt.

Definition onKYBVerified (businessId : string) (level : string) : M unit :=
  let points :=
    if decide (level = "ENHANCED") then config.trustScore.business.kybEnhanced
    else if decide (level = "STANDARD") then config.trustScore.business.kybStandard
    else if decide (level = "BASIC") then config.trustScore.business.kybBasic
    else 0 in
  if 0 <? points then
    recordEvent businessId ET_business KYB_VERIFIED points
      ("KYB " +:+ level +:+ " verification completed") (Some "system") None
  else ret tt.

Definition onDocumentsUploaded (entityId : string) (entityType : EntityType)
    (docType : string) : M unit :=
  let '(points, reason) :=
    if bool_decide (entityType = ET_business) && bool_decide (docType = "financial")
    then (config.trustScore.business.financialDocs, "Financial documents uploaded")
    else if bool_decide (entityType = ET_project) && bool_decide (docType = "audit")
    then (config.trustScore.crypto.externalAudit, "Audit report uploaded")
    else (0, "") in
  if 0 <? points then
    recordEvent entityId entityType DOCS_UPLOADED points reason (Some "system") None
  else ret tt.

(** *** Penalties *)

Definition applyMissedReportPenalty (businessId : string) (period : string) : M unit :=
  recordEvent businessId ET_business PENALTY_APPLIED
    config.trustScore.penalties.missedReport
    ("Missed revenue report for " +:+ period) (Some "system") None.

Definition applyCommunityReportPenalty (entityId : string) (entityType : EntityType)
    (reportReason : string) : M unit :=
  recordEvent entityId entityType PENALTY_APPLIED
    config.trustScore.penalties.communityReport
    ("Community report verified: " +:+ reportReason) (Some "governance") None.

(** *** Queries *)

Definition getProjectScore (projectId : string) : M TrustScoreResult :=
  calculateProjectScore projectId.

Definition getBusinessScore (businessId : string) : M TrustScoreResult :=
  calculateBusinessScore businessId.

Definition getTierInfo (score : Z) : TrustScoreTier * string :=
  let tier := getTier score in
  (tier, getTierDescription tier).

(** ** Route handlers ([api/admin.ts], [api/trustScore.ts])

    A handler is a computation that ends in the response it sends. *)

Record Response (A : Type) := {
  res_status : Z;
  res_success : bool;
  res_error : option string;
  res_data : option A;
}.
Arguments res_status {A} _.
Arguments res_success {A} _.
Arguments res_error {A} _.
Arguments res_data {A} _.

(** [logger.error]: the error's name and message go to the metadata
    column, which is not kept here; no user id is passed. *)
Definition logger_error (category : LogCategory) (action message : string)
    (error : Error) : M unit :=
  logger.log {| level := ERROR; category := category; action := action;
                message := message; log_userId := None |}.

(** The body of POST /admin/trust-score/adjust as the handler reads it,
    that is after body parsing and the global [sanitizeInputs]: each
    field may be missing.  A present [entityType] is one of the two
    literals and a present [points] is an integer. *)
Record AdjustBody := {
  body_entityId : option string;
  body_entityType : option EntityType;
  body_points : option Z;
  body_reason : option string;
}.

(** The callback registered for POST /admin/trust-score/adjust
    ([api/admin.ts], lines 476-496), from the body and the id of the
    authenticated admin to the response it sends.  The middleware
    mounted around it ([authenticate], [requireAdmin], the rate limiter,
    [sanitizeInputs], [logRequests]) is not part of the callback and is
    not modelled. *)
Definition postTrustScoreAdjust (body : AdjustBody) (adminId : string)
  : M (Response TrustScoreResult) :=
  tryCatch
    (match body_entityId body, body_entityType body, body_points body,
           body_reason body with
     | Some entityId, Some entityType, Some points, Some reason =>
         if negb (truthy entityId) || negb (truthy reason) then
           ret {| res_status := 400; res_success := false;
                  res_error := Some "entityId, entityType, points, and reason are required";
                  res_data := None |}
         else
           result <- adminAdjust {| adj_entityId := entityId;
                                    adj_entityType := entityType;
                                    adj_points := points;
                                    adj_reason := reason |} adminId ;;
           ret {| res_status := 200; res_success := true; res_error := None;
                  res_data := Some result |}
     | _, _, _, _ =>
         ret {| res_status := 400; res_success := false;
                res_error := Some "entityId, entityType, points, and reason are required";
                res_data := None |}
     end)
    (λ error,
       logger_error LC_ADMIN "TRUST_SCORE_ADJUST_ERROR" "Failed to adjust trust score"
         error ;;;
       ret {| res_status := 500; res_success := false;
              res_error := Some "Failed to adjust trust score"; res_data := None |}).

(** The table GET /trust-score/tiers sends. *)
Record TierRow := {
  row_tier : TrustScoreTier;
  row_minScore : Z;
  row_maxScore : Z;
  row_color : string;
  row_description : string;
}.

Definition tiers : list TierRow := [
  {| row_tier := EXCELLENT; row_minScore := 85; row_maxScore := 100;
     row_color := "green";
     row_description := "Highly Trusted - Exceptional trustworthiness" |};
  {| row_tier := GOOD; row_minScore := 70; row_maxScore := 84;
     row_color := "blue"; row_description := "Trusted - Meets high standards" |};
  {| row_tier := NEUTRAL; row_minScore := 50; row_maxScore := 69;
     row_color := "gray"; row_description := "Standard - Meets basic requirements" |};
  {| row_tier := CAUTION; row_minScore := 30; row_maxScore := 49;
     row_color := "yellow";
     row_description := "Exercise Caution - Some factors missing" |};
  {| row_tier := HIGH_RISK; row_minScore := 0; row_maxScore := 29;
     row_color := "red"; row_description := "High Risk - Significant factors missing" |}
].

(** * Notions used in the statements

    Derived from the definitions above: the pure content of a
    recomputation, the stores it leaves, the list of the service's
    operations, and sample stores. *)

Definition sumZ (l : list Z) : Z := foldr Z.add 0 l.

(** The points each rule of a table awards, in table order. *)
Definition rulePoints {E} (rules : list (ScoreRule E)) (entity : E)
    (context : EvaluationContext) : list Z :=
  (λ rule, evaluate rule entity context) <$> rules.

(** What the two liquidity rules of the project table award together. *)
Definition liquidityPoints (p : CryptoProject.t) (context : EvaluationContext) : Z :=
  evaluate liquidityLock6Rule p context + evaluate liquidityLock12Rule p context.

Definition withLiquidityLockMonths (m : option Z) (p : CryptoProject.t) : CryptoProject.t :=
  CryptoProject.mk
    (CryptoProject.userId p) (CryptoProject.name p) (CryptoProject.description p)
    (CryptoProject.category p) (CryptoProject.whitepaper p) (CryptoProject.twitter p)
    (CryptoProject.discord p) (CryptoProject.telegram p) (CryptoProject.totalSupply p)
    (CryptoProject.teamAllocationPercent p) (CryptoProject.teamVestingMonths p) m
    (CryptoProject.auditProvider p) (CryptoProject.auditReportUrl p)
    (CryptoProject.contractVerified p) (CryptoProject.trustScore p)
    (CryptoProject.trustScoreUpdatedAt p).

Definition sampleProject (liquidityLockMonths : option Z) : CryptoProject.t :=
  CryptoProject.mk "user-1" "Token" None None None None None None None None None
    liquidityLockMonths None None false 50 None.

Definition emptyContext : EvaluationContext :=
  {| identity := None; documentsCount := 0; hasFinancialDocs := None;
     hasAuditDocs := None; founderCount := None; founderKycCount := None |}.

(** What [findUnique] hands to the calculation for an existing row. *)
Definition projectRelations (st : Store) (id : string) (row : CryptoProject.t)
  : prisma.ProjectWithRelations :=
  {| prisma.p_row := row;
     prisma.p_identityVerification :=
       tbl_privateIdentityVerification st !! CryptoProject.userId row;
     prisma.p_documents :=
       filter (λ d, pd_projectId d = id) (tbl_projectDocument st) |}.

Definition businessRelations (st : Store) (id : string) (row : Business.t)
  : prisma.BusinessWithRelations :=
  {| prisma.b_row := row;
     prisma.b_identityVerification :=
       tbl_privateIdentityVerification st !! Business.userId row;
     prisma.b_documents :=
       filter (λ d, bd_businessId d = id) (tbl_businessDocument st);
     prisma.b_founders :=
       filter (λ f, f_businessId f = id) (tbl_founder st) |}.

(** The ledger rows the calculation reads: those of the entity with
    negative points. *)
Definition projectPenalties (st : Store) (id : string) : list TrustScoreEvent :=
  filter (λ e, projectId e = Some id ∧ points e < 0) (tbl_trustScoreEvent st).

Definition businessPenalties (st : Store) (id : string) : list TrustScoreEvent :=
  filter (λ e, businessId e = Some id ∧ points e < 0) (tbl_trustScoreEvent st).

(** The score a calculation arrives at, as a function of the store. *)
Definition projectTotal (st : Store) (id : string) (row : CryptoProject.t) : Z :=
  clampScore
    (applyPenalties
       (evaluateRules cryptoRules row (projectContext (projectRelations st id row))).1
       (projectPenalties st id)).

Definition businessTotal (st : Store) (id : string) (row : Business.t) : Z :=
  clampScore
    (applyPenalties
       (evaluateRules businessRules row (businessContext (businessRelations st id row))).1
       (businessPenalties st id)).

(** The audit record of a calculation. *)
Definition scoreCalculated (kind id : string) (total : Z) (userId : string) : SystemLog :=
  {| level := AUDIT; category := LC_TRUST_SCORE; action := "SCORE_CALCULATED";
     message := "Calculated trust score for " +:+ kind +:+ " " +:+ id +:+ ": "
                  +:+ pretty total;
     log_userId := Some userId |}.

(** The store a successful calculation leaves behind. *)
Definition projectScored (st : Store) (id : string) (row : CryptoProject.t) : Store :=
  let total := projectTotal st id row in
  {| tbl_user := tbl_user st;
     tbl_cryptoProject :=
       <[id := CryptoProject.setScore total (clock st + 1) row]> (tbl_cryptoProject st);
     tbl_business := tbl_business st;
     tbl_privateIdentityVerification := tbl_privateIdentityVerification st;
     tbl_projectDocument := tbl_projectDocument st;
     tbl_businessDocument := tbl_businessDocument st;
     tbl_founder := tbl_founder st;
     tbl_trustScoreEvent := tbl_trustScoreEvent st;
     tbl_systemLog :=
       (tbl_systemLog st
          ++ [scoreCalculated "project" id total (CryptoProject.userId row)])%list;
     clock := clock st + 1 + 1 |}.

Definition businessScored (st : Store) (id : string) (row : Business.t) : Store :=
  let total := businessTotal st id row in
  {| tbl_user := tbl_user st;
     tbl_cryptoProject := tbl_cryptoProject st;
     tbl_business :=
       <[id := Business.setScore total (clock st + 1) row]> (tbl_business st);
     tbl_privateIdentityVerification := tbl_privateIdentityVerification st;
     tbl_projectDocument := tbl_projectDocument st;
     tbl_businessDocument := tbl_businessDocument st;
     tbl_founder := tbl_founder st;
     tbl_trustScoreEvent := tbl_trustScoreEvent st;
     tbl_systemLog :=
       (tbl_systemLog st
          ++ [scoreCalculated "business" id total (Business.userId row)])%list;
     clock := clock st + 1 + 1 |}.

(** The value a call returned, if it did not throw. *)
Definition returned {A} (o : Outcome A * Store) : option A :=
  match o.1 with Return a => Some a | Throw _ => None end.

Definition storedProjectScore (st : Store) (id : string) : option Z :=
  CryptoProject.trustScore <$> tbl_cryptoProject st !! id.

Definition storedBusinessScore (st : Store) (id : string) : option Z :=
  Business.trustScore <$> tbl_business st !! id.

(** The stored score of either kind of entity; [None] when the id
    resolves to no entity of that kind. *)
Definition storedScore (st : Store) (entityType : EntityType) (id : string)
  : option Z :=
  match entityType with
  | ET_project => storedProjectScore st id
  | ET_business => storedBusinessScore st id
  end.

(** The store with one more ledger row, as [trustScoreEvent.create]
    leaves the ledger. *)
Definition withEvent (e : TrustScoreEvent) (st : Store) : Store :=
  set_trustScoreEvent (tbl_trustScoreEvent st ++ [e])%list st.

(** A sample store for the concrete instances below: one project and
    one business as their creation handlers leave them, with a name
    only, the default score 50 and no ledger row yet. *)
Definition project_p0 : CryptoProject.t :=
  CryptoProject.mk "user-1" "Token" None None None None None None None None None
    None None None false 50 None.

Definition business_b0 : Business.t :=
  Business.mk "user-1" "Acme LLC" None None None None None None None None
    KYB_NONE 50 None.

Definition store0 : Store :=
  {| tbl_user := {[ "admin-1" ]};
     tbl_cryptoProject := {[ "p0" := project_p0 ]};
     tbl_business := {[ "b0" := business_b0 ]};
     tbl_privateIdentityVerification := ∅;
     tbl_projectDocument := [];
     tbl_businessDocument := [];
     tbl_founder := [];
     tbl_trustScoreEvent := [];
     tbl_systemLog := [];
     clock := 0 |}.

Definition manualBonus : TrustScoreEvent :=
  {| projectId := Some "p0"; businessId := None; eventType := MANUAL_ADJUSTMENT;
     points := 25; reason := "goodwill"; triggeredBy := Some "admin-1";
     metadata := Some [("adminAdjustment", true)]; createdAt := 0 |}.

(** What a calculation reads of a store: the entity's attributes (its
    row without the two score columns), the tables behind the evaluation
    context and the ledger. *)
Definition projectAttributes (st : Store) (id : string) : option CryptoProject.t :=
  CryptoProject.setScore 0 0 <$> tbl_cryptoProject st !! id.

Definition businessAttributes (st : Store) (id : string) : option Business.t :=
  Business.setScore 0 0 <$> tbl_business st !! id.

Record sameInputs (st1 st2 : Store) : Prop := {
  same_identity :
    tbl_privateIdentityVerification st1 = tbl_privateIdentityVerification st2;
  same_projectDocument : tbl_projectDocument st1 = tbl_projectDocument st2;
  same_businessDocument : tbl_businessDocument st1 = tbl_businessDocument st2;
  same_founder : tbl_founder st1 = tbl_founder st2;
  same_ledger : tbl_trustScoreEvent st1 = tbl_trustScoreEvent st2;
}.

(** The sample store some time later, its project row carrying a stale
    score. *)
Definition store0_later : Store :=
  set_clock 40
    (set_cryptoProject {[ "p0" := CryptoProject.setScore 12 30 project_p0 ]} store0).

(** The ledger row [trustScoreEvent.create] writes in store [st]. *)
Definition newEvent (st : Store) (entityId : string) (entityType : EntityType)
    (ty : TrustScoreEventType) (pts : Z) (why : string) (by_ : option string)
    (meta : option (list (string * bool))) : TrustScoreEvent :=
  {| projectId := if decide (entityType = ET_project) then Some entityId else None;
     businessId := if decide (entityType = ET_business) then Some entityId else None;
     eventType := ty; points := pts; reason := why; triggeredBy := by_;
     metadata := meta; createdAt := clock st |}.

(** The store after that row was created. *)
Definition created (e : TrustScoreEvent) (st : Store) : Store :=
  set_clock (clock st + 1) (withEvent e st).

(** The ledger row [onIdentityVerified] records for one entity. *)
Definition identityEventFor (entityType : EntityType) (id : string)
    (e : TrustScoreEvent) : Prop :=
  projectId e = (if decide (entityType = ET_project) then Some id else None)
  ∧ businessId e = (if decide (entityType = ET_business) then Some id else None)
  ∧ eventType e = IDENTITY_VERIFIED
  ∧ triggeredBy e = Some "system"
  ∧ points e = match entityType with
               | ET_project => config.trustScore.crypto.identityVerified
               | ET_business => config.trustScore.business.kybBasic
               end.

(** The audit record one recomputation of the entity leaves. *)
Definition recomputationOf (entityType : EntityType) (id : string)
    (l : SystemLog) : Prop :=
  ∃ total userId, l = scoreCalculated (entityTypeName entityType) id total userId.

Definition projectsOf (st : Store) (userId : string) : list (string * CryptoProject.t) :=
  filter (λ r, CryptoProject.userId r.2 = userId) (map_to_list (tbl_cryptoProject st)).

Definition businessesOf (st : Store) (userId : string) : list (string * Business.t) :=
  filter (λ r, Business.userId r.2 = userId) (map_to_list (tbl_business st)).

(** The scenario of the specification: a user owning two projects and
    one business, next to a project of somebody else. *)
Definition store_fanout : Store :=
  {| tbl_user := ∅;
     tbl_cryptoProject :=
       {[ "p1" := project_p0; "p2" := project_p0;
          "px" := CryptoProject.mk "user-2" "Other" None None None None None None
                    None None None None None None false 50 None ]};
     tbl_business := {[ "b1" := business_b0 ]};
     tbl_privateIdentityVerification := {[ "user-1" := {| status := VERIFIED |} ]};
     tbl_projectDocument := [];
     tbl_businessDocument := [];
     tbl_founder := [];
     tbl_trustScoreEvent := [];
     tbl_systemLog := [];
     clock := 0 |}.

(** The asynchronous methods of the service, as its callers invoke them. *)
Inductive Operation :=
  | CalculateProjectScore (projectId : string)
  | CalculateBusinessScore (businessId : string)
  | RecordEvent (entityId : string) (entityType : EntityType)
      (eventType : TrustScoreEventType) (points : Z) (reason : string)
      (triggeredBy : option string) (metadata : option (list (string * bool)))
  | AdminAdjust (adjustment : TrustScoreAdjustment) (adminId : string)
  | OnIdentityVerified (userId : string)
  | OnLiquidityLocked (projectId : string) (months : Z)
  | OnVestingConfigured (projectId : string) (months : Z)
  | OnKYBVerified (businessId : string) (level : string)
  | OnDocumentsUploaded (entityId : string) (entityType : EntityType) (docType : string)
  | ApplyMissedReportPenalty (businessId : string) (period : string)
  | ApplyCommunityReportPenalty (entityId : string) (entityType : EntityType)
      (reportReason : string)
  | GetProjectScore (projectId : string)
  | GetBusinessScore (businessId : string).

Definition perform (op : Operation) : M unit :=
  match op with
  | CalculateProjectScore id => _ <- calculateProjectScore id ;; ret tt
  | CalculateBusinessScore id => _ <- calculateBusinessScore id ;; ret tt
  | RecordEvent id ty ev pts why by_ meta => recordEvent id ty ev pts why by_ meta
  | AdminAdjust adjustment adminId => _ <- adminAdjust adjustment adminId ;; ret tt
  | OnIdentityVerified userId => onIdentityVerified userId
  | OnLiquidityLocked id months => onLiquidityLocked id months
  | OnVestingConfigured id months => onVestingConfigured id months
  | OnKYBVerified id lvl => onKYBVerified id lvl
  | OnDocumentsUploaded id ty docType => onDocumentsUploaded id ty docType
  | ApplyMissedReportPenalty id period => applyMissedReportPenalty id period
  | ApplyCommunityReportPenalty id ty why => applyCommunityReportPenalty id ty why
  | GetProjectScore id => _ <- getProjectScore id ;; ret tt
  | GetBusinessScore id => _ <- getBusinessScore id ;; ret tt
  end.

(** The operations of the trigger dispatcher: everything but the bare
    recomputation and the score queries. *)
Definition dispatches (op : Operation) : bool :=
  match op with
  | CalculateProjectScore _ | CalculateBusinessScore _
  | GetProjectScore _ | GetBusinessScore _ => false
  | _ => true
  end.

(** The stored score of the entity differs between the two stores. *)
Definition scoreChanged (st st' : Store) (entityType : EntityType) (id : string)
  : Prop :=
  storedScore st' entityType id ≠ storedScore st entityType id.

Definition isScoreCalculated (l : SystemLog) : Prop :=
  level l = AUDIT ∧ category l = LC_TRUST_SCORE ∧ action l = "SCORE_CALCULATED".

(** A ledger row of the entity. *)
Definition eventOf (entityType : EntityType) (id : string) (e : TrustScoreEvent)
  : Prop :=
  match entityType with
  | ET_project => projectId e = Some id
  | ET_business => businessId e = Some id
  end.

(** [st'] comes after [st]: ledger and log only grew, and every entity
    whose stored score differs has the audit record of a calculation of
    its own among the new log records. *)
Definition follows (st st' : Store) : Prop :=
  ∃ evs logs,
    tbl_trustScoreEvent st' = (tbl_trustScoreEvent st ++ evs)%list
    ∧ tbl_systemLog st' = (tbl_systemLog st ++ logs)%list
    ∧ ∀ ty id, scoreChanged st st' ty id → Exists (recomputationOf ty id) logs.

(** [st'] comes after [st] with the ledger grown by a row of every
    entity whose stored score differs. *)
Definition ledgered (st st' : Store) : Prop :=
  ∃ evs,
    tbl_trustScoreEvent st' = (tbl_trustScoreEvent st ++ evs)%list
    ∧ ∀ ty id, scoreChanged st st' ty id → Exists (eventOf ty id) evs.

(** Every run of [m] relates the store before to the store after. *)
Definition along {A} (R : Store → Store → Prop) (m : M A) : Prop :=
  ∀ st, R st (m st).2.

(** No stored score but the entity's own differs. *)
Definition touchesOnly (entityType : EntityType) (id : string) (st st' : Store)
  : Prop :=
  ∀ ty id', scoreChanged st st' ty id' → ty = entityType ∧ id' = id.

(** The invariant in the specification's wording: whenever an
    operation changes a stored score, the ledger holds a row of that
    entity afterwards (one that came before or with the change). *)
Definition scoreMutationsAreLedgered : Prop :=
  ∀ op st id,
    storedProjectScore (perform op st).2 id ≠ storedProjectScore st id →
    ∃ e, e ∈ tbl_trustScoreEvent (perform op st).2 ∧ projectId e = Some id.

(** ** Notions for the result shape and the dispatcher *)

(** The factor the rule loop pushes for one rule. *)
Definition factorOf {E} (entity : E) (context : EvaluationContext)
    (rule : ScoreRule E) : TrustScoreFactor :=
  {| tf_name := rule_name rule;
     tf_points := evaluate rule entity context;
     tf_maxPoints := maxPoints rule;
     achieved := 0 <? evaluate rule entity context;
     tf_description := rule_description rule |}.

(** The total before it is clamped. *)
Definition projectRaw (st : Store) (id : string) (row : CryptoProject.t) : Z :=
  applyPenalties
    (evaluateRules cryptoRules row (projectContext (projectRelations st id row))).1
    (projectPenalties st id).

Definition businessRaw (st : Store) (id : string) (row : Business.t) : Z :=
  applyPenalties
    (evaluateRules businessRules row (businessContext (businessRelations st id row))).1
    (businessPenalties st id).

(** The ledger rows of one entity, in ledger order. *)
Definition projectEvents (st : Store) (id : string) : list TrustScoreEvent :=
  filter (λ e, projectId e = Some id) (tbl_trustScoreEvent st).

Definition businessEvents (st : Store) (id : string) : list TrustScoreEvent :=
  filter (λ e, businessId e = Some id) (tbl_trustScoreEvent st).

(** The value a successful calculation returns. *)
Definition projectResult (st : Store) (id : string) (row : CryptoProject.t)
  : TrustScoreResult :=
  {| entityId := id;
     entityType := ET_project;
     currentScore := projectTotal st id row;
     tier := getTier (projectTotal st id row);
     factors :=
       (evaluateRules cryptoRules row (projectContext (projectRelations st id row))).2;
     lastUpdated := clock st;
     history :=
       historyItem (projectTotal st id row)
         <$> take 10 (prisma.orderByCreatedAtDesc (projectEvents st id)) |}.

Definition businessResult (st : Store) (id : string) (row : Business.t)
  : TrustScoreResult :=
  {| entityId := id;
     entityType := ET_business;
     currentScore := businessTotal st id row;
     tier := getTier (businessTotal st id row);
     factors :=
       (evaluateRules businessRules row (businessContext (businessRelations st id row))).2;
     lastUpdated := clock st;
     history :=
       historyItem (businessTotal st id row)
         <$> take 10 (prisma.orderByCreatedAtDesc (businessEvents st id)) |}.

(** Newest first. *)
Definition newerFirst (a b : TrustScoreEvent) : Prop := createdAt b ≤ createdAt a.

(** The tiers from worst to best. *)
Definition tierRank (t : TrustScoreTier) : Z :=
  match t with
  | HIGH_RISK => 0 | CAUTION => 1 | NEUTRAL => 2 | GOOD => 3 | EXCELLENT => 4
  end.

(** What the paired rules of a table award together. *)
Definition vestingPoints (p : CryptoProject.t) (context : EvaluationContext) : Z :=
  evaluate teamVesting12Rule p context + evaluate teamVesting24Rule p context.

Definition kybPoints (b : Business.t) (context : EvaluationContext) : Z :=
  evaluate kybBasicRule b context + evaluate kybStandardRule b context
  + evaluate kybEnhancedRule b context.

(** The spelling of a KYB level in the schema. *)
Definition kybLevelName (l : KYBLevel) : string :=
  match l with
  | KYB_NONE => "NONE" | KYB_BASIC => "BASIC"
  | KYB_STANDARD => "STANDARD" | KYB_ENHANCED => "ENHANCED"
  end.

(** What a negative adjustment takes off and a positive one does not add. *)
Definition counted (pts : Z) : Z := if pts <? 0 then pts else 0.

(** The unclamped total of either kind of entity; [None] when the id
    resolves to no entity of that kind. *)
Definition rawScore (st : Store) (entityType : EntityType) (id : string)
  : option Z :=
  match entityType with
  | ET_project => projectRaw st id <$> tbl_cryptoProject st !! id
  | ET_business => businessRaw st id <$> tbl_business st !! id
  end.

(** The sample store with an audit document uploaded for the project,
    and with the owner's identity verified. *)
Definition store0_documents : Store :=
  {| tbl_user := tbl_user store0;
     tbl_cryptoProject := tbl_cryptoProject store0;
     tbl_business := tbl_business store0;
     tbl_privateIdentityVerification := tbl_privateIdentityVerification store0;
     tbl_projectDocument := [ {| pd_projectId := "p0"; pd_type := "audit" |} ];
     tbl_businessDocument := tbl_businessDocument store0;
     tbl_founder := tbl_founder store0;
     tbl_trustScoreEvent := tbl_trustScoreEvent store0;
     tbl_systemLog := tbl_systemLog store0;
     clock := clock store0 |}.

Definition store0_verified : Store :=
  {| tbl_user := tbl_user store0;
     tbl_cryptoProject := tbl_cryptoProject store0;
     tbl_business := tbl_business store0;
     tbl_privateIdentityVerification := {[ "user-1" := {| status := VERIFIED |} ]};
     tbl_projectDocument := tbl_projectDocument store0;
     tbl_businessDocument := tbl_businessDocument store0;
     tbl_founder := tbl_founder store0;
     tbl_trustScoreEvent := tbl_trustScoreEvent store0;
     tbl_systemLog := tbl_systemLog store0;
     clock := clock store0 |}.

(** The sample store with a project whose liquidity is locked for a
    year. *)
Definition store_locked : Store :=
  set_cryptoProject {[ "p0" := sampleProject (Some 12) ]} store0.

(** [st] offers a calculation what [st0] offers: the same identity
    records and business documents and, for every entity, the same
    negative ledger rows. *)
Record sameReads (st0 st : Store) : Prop := {
  reads_identity :
    tbl_privateIdentityVerification st = tbl_privateIdentityVerification st0;
  reads_businessDocument : tbl_businessDocument st = tbl_businessDocument st0;
  reads_projectPenalties : ∀ id, projectPenalties st id = projectPenalties st0 id;
  reads_businessPenalties : ∀ id, businessPenalties st id = businessPenalties st0 id;
}.

(** The body carries all four fields, the two strings non-empty. *)
Definition completeBody (body : AdjustBody) (id : string) (ty : EntityType)
    (pts : Z) (why : string) : Prop :=
  body_entityId body = Some id ∧ body_entityType body = Some ty
  ∧ body_points body = Some pts ∧ body_reason body = Some why
  ∧ id ≠ "" ∧ why ≠ "".

Definition badRequest : Response TrustScoreResult :=
  {| res_status := 400; res_success := false;
     res_error := Some "entityId, entityType, points, and reason are required";
     res_data := None |}.

Definition adjustFailed : Response TrustScoreResult :=
  {| res_status := 500; res_success := false;
     res_error := Some "Failed to adjust trust score"; res_data := None |}.

(** * Properties *)

(** ** The tier classifier *)

Section Tiers.

Lemma getTier_cases (score : Z) :
  (85 ≤ score ∧ getTier score = EXCELLENT)
  ∨ (70 ≤ score < 85 ∧ getTier score = GOOD)
  ∨ (50 ≤ score < 70 ∧ getTier score = NEUTRAL)
  ∨ (30 ≤ score < 50 ∧ getTier score = CAUTION)
  ∨ (score < 30 ∧ getTier score = HIGH_RISK).
Proof.
  unfold getTier.
  destruct (Z.leb_spec 85 score); [by left|].
  destruct (Z.leb_spec 70 score); [right; left; split; [lia|done]|].
  destruct (Z.leb_spec 50 score); [do 2 right; left; split; [lia|done]|].
  destruct (Z.leb_spec 30 score); [do 3 right; left; split; [lia|done]|].
  do 4 right. split; [lia|done].
Qed.

Ltac tier score :=
  destruct (getTier_cases score) as [[? ?]|[[? ?]|[[? ?]|[[? ?]|[? ?]]]]];
  first [done | lia].

(** C5: scores map to the five tiers by the descending thresholds
  85/70/50/30/0: from 85 up to the maximum 100 the tier is EXCELLENT,
  70-84 is GOOD, 50-69 is NEUTRAL, 30-49 is CAUTION and 0-29 is
  HIGH_RISK; the nine boundary scores of the specification are
  classified as listed there. *)
Theorem tier_thresholds :
(∀ score : Z,
    (85 ≤ score ≤ 100 → getTier score = EXCELLENT)
    ∧ (70 ≤ score ≤ 84 → getTier score = GOOD)
    ∧ (50 ≤ score ≤ 69 → getTier score = NEUTRAL)
    ∧ (30 ≤ score ≤ 49 → getTier score = CAUTION)
    ∧ (0 ≤ score ≤ 29 → getTier score = HIGH_RISK))
∧ getTier 85 = EXCELLENT ∧ getTier 84 = GOOD ∧ getTier 70 = GOOD
∧ getTier 69 = NEUTRAL ∧ getTier 50 = NEUTRAL ∧ getTier 49 = CAUTION
∧ getTier 30 = CAUTION ∧ getTier 29 = HIGH_RISK ∧ getTier 0 = HIGH_RISK.
Proof.
split; [|by repeat split].
intros score. repeat split; intros ?; tier score.
Qed.

Lemma tier_thresholds_witness :
getTier 92 = EXCELLENT ∧ getTier 77 = GOOD ∧ getTier 55 = NEUTRAL
∧ getTier 31 = CAUTION ∧ getTier 12 = HIGH_RISK.
Proof.
destruct tier_thresholds as [H _].
refine (conj _ (conj _ (conj _ (conj _ _)))).
- apply (H 92); lia.
- apply (H 77); lia.
- apply (H 55); lia.
- apply (H 31); lia.
- apply (H 12); lia.
Defined.

(** C10: the classifier is total over the integers: above 100
  [getTierInfo] answers EXCELLENT and below 0 it answers HIGH_RISK,
  each with the fixed description of the tier. *)
Theorem getTierInfo_out_of_range :
∀ score : Z,
  (100 < score →
     getTierInfo score =
       (EXCELLENT,
        "Highly Trusted - This entity has demonstrated exceptional trustworthiness"))
  ∧ (score < 0 →
     getTierInfo score =
       (HIGH_RISK,
        "High Risk - Significant trust factors are missing or concerning")).
Proof.
intros score. unfold getTierInfo.
split; intros ?.
- replace (getTier score) with EXCELLENT; [done|]. symmetry. tier score.
- replace (getTier score) with HIGH_RISK; [done|]. symmetry. tier score.
Qed.

Lemma getTierInfo_out_of_range_witness :
getTierInfo 115 =
  (EXCELLENT,
   "Highly Trusted - This entity has demonstrated exceptional trustworthiness")
∧ getTierInfo (-30) =
  (HIGH_RISK, "High Risk - Significant trust factors are missing or concerning").
Proof.
split.
- apply (getTierInfo_out_of_range 115); lia.
- apply (getTierInfo_out_of_range (-30)); lia.
Defined.

End Tiers.

(** ** The rule tables *)

Section RuleTables.
Context {E : Type}.
Implicit Types (rules : list (ScoreRule E)) (entity : E).

Lemma evaluateRules_foldl rules entity context total factors :
  (foldl (λ '(totalScore, factors) rule,
            let points := evaluate rule entity context in
            (totalScore + points,
             (factors ++ [ {| tf_name := rule_name rule;
                              tf_points := points;
                              tf_maxPoints := maxPoints rule;
                              achieved := 0 <? points;
                              tf_description := rule_description rule |} ])%list))
         (total, factors) rules).1
  = total + sumZ (rulePoints rules entity context).
Proof.
  revert total factors.
  induction rules as [|rule rules IH]; intros total factors; simpl.
  - lia.
  - rewrite IH. lia.
Qed.

Lemma evaluateRules_total rules entity context :
  (evaluateRules rules entity context).1
  = config.trustScore.baseScore + sumZ (rulePoints rules entity context).
Proof. apply evaluateRules_foldl. Qed.

End RuleTables.

Lemma applyPenalties_sum totalScore penaltyEvents :
  applyPenalties totalScore penaltyEvents = totalScore + sumZ (points <$> penaltyEvents).
Proof.
  unfold applyPenalties. revert totalScore.
  induction penaltyEvents as [|e l IH]; intros totalScore; cbn [foldl].
  - unfold sumZ; simpl. lia.
  - rewrite IH, fmap_cons. unfold sumZ; cbn [foldr]. lia.
Qed.

Lemma clampScore_bounds totalScore : 0 ≤ clampScore totalScore ≤ 100.
Proof.
  unfold clampScore, config.trustScore.minScore, config.trustScore.maxScore. lia.
Qed.

(** *** Liquidity lock *)

Lemma atLeast_true (x : option Z) (k : Z) :
  0 < k → atLeast x k = true ↔ ∃ n, x = Some n ∧ k ≤ n.
Proof.
  intros Hk. unfold atLeast, truthy, truthy_option, truthy, truthy_number.
  destruct x as [n|]; simpl.
  - rewrite andb_true_iff, negb_true_iff, Z.eqb_neq, Z.leb_le.
    split; [intros [_ ?]; eauto | intros (? & [= <-] & ?); lia].
  - split; [done | intros (? & ? & _); done].
Qed.

Lemma liquidityPoints_value (p : CryptoProject.t) context :
  liquidityPoints p context =
    match CryptoProject.liquidityLockMonths p with
    | Some m => if 12 <=? m then 20 else if 6 <=? m then 15 else 0
    | None => 0
    end.
Proof.
  unfold liquidityPoints; simpl.
  unfold atLeast, truthy, truthy_option, truthy, truthy_number.
  destruct (CryptoProject.liquidityLockMonths p) as [m|]; [|done].
  destruct (Z.leb_spec 12 m), (Z.leb_spec 6 m), (Z.eqb_spec m 0); simpl;
    first [done | lia].
Qed.

(** C4: the liquidity rules are monotonic in the lock duration and never
    double count: a lock of 12 months or more earns the two rules
    together exactly the configured 12-month bonus (20 = 15 + 5), which
    is not the 6-month bonus plus a second full 12-month bonus; a longer
    lock never earns less; and these two rules are the whole effect of
    the lock duration on the rule total of the project table. *)
Theorem liquidity_lock_monotonic_no_double_count :
  (∀ (p : CryptoProject.t) context (m : Z),
      CryptoProject.liquidityLockMonths p = Some m → 12 ≤ m →
      liquidityPoints p context = config.trustScore.crypto.liquidityLock12Months
      ∧ evaluate liquidityLock6Rule p context
          = config.trustScore.crypto.liquidityLock6Months
      ∧ evaluate liquidityLock12Rule p context
          = config.trustScore.crypto.liquidityLock12Months
            - config.trustScore.crypto.liquidityLock6Months
      ∧ liquidityPoints p context
          ≠ config.trustScore.crypto.liquidityLock6Months
            + config.trustScore.crypto.liquidityLock12Months)
  ∧ (∀ (p p' : CryptoProject.t) context context' (m m' : Z),
      CryptoProject.liquidityLockMonths p = Some m →
      CryptoProject.liquidityLockMonths p' = Some m' →
      m ≤ m' →
      liquidityPoints p context ≤ liquidityPoints p' context')
  ∧ (∀ (p : CryptoProject.t) context (m : option Z),
      sumZ (rulePoints cryptoRules (withLiquidityLockMonths m p) context)
      = sumZ (rulePoints cryptoRules (withLiquidityLockMonths None p) context)
        + liquidityPoints (withLiquidityLockMonths m p) context).
Proof.
  split; [|split].
  - intros p context m Hm Hge.
    assert (Hsum : liquidityPoints p context = 20).
    { rewrite liquidityPoints_value, Hm.
      destruct (Z.leb_spec 12 m); [done | lia]. }
    assert (H6 : evaluate liquidityLock6Rule p context = 15).
    { simpl. rewrite (proj2 (atLeast_true _ 6 ltac:(lia))); [done|].
      exists m. split; [done | lia]. }
    unfold liquidityPoints in *.
    unfold config.trustScore.crypto.liquidityLock12Months,
      config.trustScore.crypto.liquidityLock6Months.
    repeat split; lia.
  - intros p p' context context' m m' Hm Hm' Hle.
    rewrite !liquidityPoints_value, Hm, Hm'.
    destruct (Z.leb_spec 12 m), (Z.leb_spec 6 m),
      (Z.leb_spec 12 m'), (Z.leb_spec 6 m'); lia.
  - intros p context m.
    unfold liquidityPoints, rulePoints, cryptoRules, sumZ; simpl. lia.
Qed.

Lemma liquidity_lock_monotonic_no_double_count_witness :
  liquidityPoints (sampleProject (Some 18)) emptyContext = 20
  ∧ liquidityPoints (sampleProject (Some 7)) emptyContext
    ≤ liquidityPoints (sampleProject (Some 12)) emptyContext.
Proof.
  destruct liquidity_lock_monotonic_no_double_count as (H12 & Hmono & _).
  split.
  - apply (H12 (sampleProject (Some 18)) emptyContext 18); [reflexivity | lia].
  - apply (Hmono (sampleProject (Some 7)) (sampleProject (Some 12))
             emptyContext emptyContext 7 12); [reflexivity | reflexivity | lia].
Defined.

(** ** Score recomputation *)

Ltac run_monad :=
  unfold bind,
    prisma.trustScoreEvent_findMany_projectPenalties,
    prisma.trustScoreEvent_findMany_projectHistory,
    prisma.trustScoreEvent_findMany_businessPenalties,
    prisma.trustScoreEvent_findMany_businessHistory,
    prisma.cryptoProject_update, prisma.business_update,
    logger.audit, logger.log, prisma.systemLog_create,
    tryCatch, gets, modify, ret, throw, newDate.

Section Recompute.
Implicit Types (st : Store) (id : string).

(** The owner of a row is a User row: the audit record of a
    calculation passes the foreign key of the log. *)
Lemma userExists_projectOwner st id row :
  tbl_cryptoProject st !! id = Some row → userExists st (CryptoProject.userId row).
Proof. intros Hrow. right; left. by exists id, row. Qed.

Lemma userExists_businessOwner st id row :
  tbl_business st !! id = Some row → userExists st (Business.userId row).
Proof. intros Hrow. right; right; left. by exists id, row. Qed.

Lemma userExists_scoredProject st id row m s t :
  userExists (set_cryptoProject (<[id := CryptoProject.setScore s t row]> m) st)
    (CryptoProject.userId row).
Proof.
  apply (userExists_projectOwner _ id (CryptoProject.setScore s t row)).
  apply lookup_insert_eq.
Qed.

Lemma userExists_scoredBusiness st id row m s t :
  userExists (set_business (<[id := Business.setScore s t row]> m) st)
    (Business.userId row).
Proof.
  apply (userExists_businessOwner _ id (Business.setScore s t row)).
  apply lookup_insert_eq.
Qed.

Lemma calculateProjectScore_found st id row :
  tbl_cryptoProject st !! id = Some row →
  ∃ r, calculateProjectScore id st = (Return r, projectScored st id row)
       ∧ currentScore r = projectTotal st id row
       ∧ tier r = getTier (projectTotal st id row)
       ∧ entityId r = id ∧ entityType r = ET_project.
Proof.
  intros Hrow.
  unfold calculateProjectScore, bind at 1.
  unfold prisma.cryptoProject_findUnique, gets.
  rewrite Hrow. cbn [mbind option_bind].
  fold (projectRelations st id row).
  unfold projectScored, projectTotal, projectPenalties.
  destruct (evaluateRules cryptoRules _ _) as [totalScore factors].
  cbn [prisma.p_row projectRelations fst].
  run_monad. cbn [tbl_cryptoProject set_clock]. rewrite Hrow.
  unfold prisma.logForeignKeyHolds; cbn [log_userId].
  rewrite bool_decide_true by apply userExists_scoredProject.
  eexists. split; [reflexivity|]. by repeat split.
Qed.

Lemma calculateProjectScore_missing st id :
  tbl_cryptoProject st !! id = None →
  calculateProjectScore id st = (Throw (mkError "Project not found"), st).
Proof.
  intros Hrow.
  unfold calculateProjectScore, bind, prisma.cryptoProject_findUnique, gets.
  by rewrite Hrow.
Qed.

Lemma calculateBusinessScore_found st id row :
  tbl_business st !! id = Some row →
  ∃ r, calculateBusinessScore id st = (Return r, businessScored st id row)
       ∧ currentScore r = businessTotal st id row
       ∧ tier r = getTier (businessTotal st id row)
       ∧ entityId r = id ∧ entityType r = ET_business.
Proof.
  intros Hrow.
  unfold calculateBusinessScore, bind at 1.
  unfold prisma.business_findUnique, gets.
  rewrite Hrow. cbn [mbind option_bind].
  fold (businessRelations st id row).
  unfold businessScored, businessTotal, businessPenalties.
  destruct (evaluateRules businessRules _ _) as [totalScore factors].
  cbn [prisma.b_row businessRelations fst].
  run_monad. cbn [tbl_business set_clock]. rewrite Hrow.
  unfold prisma.logForeignKeyHolds; cbn [log_userId].
  rewrite bool_decide_true by apply userExists_scoredBusiness.
  eexists. split; [reflexivity|]. by repeat split.
Qed.

Lemma calculateBusinessScore_missing st id :
  tbl_business st !! id = None →
  calculateBusinessScore id st = (Throw (mkError "Business not found"), st).
Proof.
  intros Hrow.
  unfold calculateBusinessScore, bind, prisma.business_findUnique, gets.
  by rewrite Hrow.
Qed.

End Recompute.

Section RecomputeFacts.
Implicit Types (st : Store) (id : string) (e : TrustScoreEvent).

Lemma projectTotal_sum st id row :
  projectTotal st id row =
    clampScore
      (config.trustScore.baseScore
       + sumZ (rulePoints cryptoRules row (projectContext (projectRelations st id row)))
       + sumZ (points <$> projectPenalties st id)).
Proof.
  unfold projectTotal.
  by rewrite applyPenalties_sum, evaluateRules_total.
Qed.

Lemma businessTotal_sum st id row :
  businessTotal st id row =
    clampScore
      (config.trustScore.baseScore
       + sumZ (rulePoints businessRules row (businessContext (businessRelations st id row)))
       + sumZ (points <$> businessPenalties st id)).
Proof.
  unfold businessTotal.
  by rewrite applyPenalties_sum, evaluateRules_total.
Qed.

(** A row that is not negative does not show among the penalties. *)
Lemma projectPenalties_withEvent st id e :
  0 ≤ points e → projectPenalties (withEvent e st) id = projectPenalties st id.
Proof.
  intros Hpos. unfold projectPenalties, withEvent; cbn [tbl_trustScoreEvent set_trustScoreEvent].
  rewrite filter_app, filter_cons_False, filter_nil by lia.
  apply app_nil_r.
Qed.

Lemma businessPenalties_withEvent st id e :
  0 ≤ points e → businessPenalties (withEvent e st) id = businessPenalties st id.
Proof.
  intros Hpos. unfold businessPenalties, withEvent; cbn [tbl_trustScoreEvent set_trustScoreEvent].
  rewrite filter_app, filter_cons_False, filter_nil by lia.
  apply app_nil_r.
Qed.

Lemma projectTotal_withEvent st id row e :
  0 ≤ points e → projectTotal (withEvent e st) id row = projectTotal st id row.
Proof.
  intros Hpos. unfold projectTotal.
  by rewrite projectPenalties_withEvent.
Qed.

Lemma businessTotal_withEvent st id row e :
  0 ≤ points e → businessTotal (withEvent e st) id row = businessTotal st id row.
Proof.
  intros Hpos. unfold businessTotal.
  by rewrite businessPenalties_withEvent.
Qed.

(** The calculation does not read what it writes. *)
Lemma projectTotal_scored st id row id' row' s t :
  projectTotal (projectScored st id' row') id (CryptoProject.setScore s t row)
  = projectTotal st id row.
Proof. reflexivity. Qed.

Lemma businessTotal_scored st id row id' row' s t :
  businessTotal (businessScored st id' row') id (Business.setScore s t row)
  = businessTotal st id row.
Proof. reflexivity. Qed.

Lemma no_events_no_penalties {P Q : TrustScoreEvent → Prop}
    `{∀ e, Decision (P e)} `{∀ e, Decision (P e ∧ Q e)} (l : list TrustScoreEvent) :
  filter P l = [] → filter (λ e, P e ∧ Q e) l = [].
Proof.
  induction l as [|e l IH]; [done|].
  rewrite !filter_cons. destruct (decide (P e)); [done|].
  intros Hl. destruct (decide (P e ∧ Q e)) as [[? _]|_]; [done | auto].
Qed.

End RecomputeFacts.

(** C1: a recomputation adds to the base-plus-rules total exactly the
    points of the entity's ledger rows with [points < 0]; a ledger row
    with positive points (a positive manual adjustment, say) that comes
    with no change of the entity's attributes leaves the score of the
    next recomputation, returned and stored, as it was. *)
Theorem recompute_sums_negative_events_only :
  (∀ st id row,
      tbl_cryptoProject st !! id = Some row →
      ∃ r st',
        calculateProjectScore id st = (Return r, st')
        ∧ currentScore r =
            clampScore
              (config.trustScore.baseScore
               + sumZ (rulePoints cryptoRules row
                         (projectContext (projectRelations st id row)))
               + sumZ (points <$>
                         filter (λ e, projectId e = Some id ∧ points e < 0)
                                (tbl_trustScoreEvent st))))
  ∧ (∀ st id row,
      tbl_business st !! id = Some row →
      ∃ r st',
        calculateBusinessScore id st = (Return r, st')
        ∧ currentScore r =
            clampScore
              (config.trustScore.baseScore
               + sumZ (rulePoints businessRules row
                         (businessContext (businessRelations st id row)))
               + sumZ (points <$>
                         filter (λ e, businessId e = Some id ∧ points e < 0)
                                (tbl_trustScoreEvent st))))
  ∧ (∀ st id e,
      0 < points e →
      currentScore <$> returned (calculateProjectScore id (withEvent e st))
        = currentScore <$> returned (calculateProjectScore id st)
      ∧ storedProjectScore (calculateProjectScore id (withEvent e st)).2 id
        = storedProjectScore (calculateProjectScore id st).2 id)
  ∧ (∀ st id e,
      0 < points e →
      currentScore <$> returned (calculateBusinessScore id (withEvent e st))
        = currentScore <$> returned (calculateBusinessScore id st)
      ∧ storedBusinessScore (calculateBusinessScore id (withEvent e st)).2 id
        = storedBusinessScore (calculateBusinessScore id st).2 id).
Proof.
  repeat apply conj.
  - intros st id row Hrow.
    destruct (calculateProjectScore_found st id row Hrow) as (r & Hrun & Hscore & _).
    exists r, (projectScored st id row). split; [done|].
    by rewrite Hscore, projectTotal_sum.
  - intros st id row Hrow.
    destruct (calculateBusinessScore_found st id row Hrow) as (r & Hrun & Hscore & _).
    exists r, (businessScored st id row). split; [done|].
    by rewrite Hscore, businessTotal_sum.
  - intros st id e Hpos.
    destruct (tbl_cryptoProject st !! id) as [row|] eqn:Hrow.
    + destruct (calculateProjectScore_found st id row Hrow) as (r & Hrun & Hscore & _).
      destruct (calculateProjectScore_found (withEvent e st) id row Hrow)
        as (r' & Hrun' & Hscore' & _).
      rewrite Hrun, Hrun'. unfold returned, storedProjectScore; cbn [fst snd fmap option_fmap option_map].
      rewrite Hscore, Hscore', projectTotal_withEvent by lia.
      split; [done|].
      unfold projectScored; cbn [tbl_cryptoProject].
      rewrite !lookup_insert_eq; cbn.
      by rewrite projectTotal_withEvent by lia.
    + rewrite (calculateProjectScore_missing st id Hrow).
      rewrite (calculateProjectScore_missing (withEvent e st) id Hrow).
      done.
  - intros st id e Hpos.
    destruct (tbl_business st !! id) as [row|] eqn:Hrow.
    + destruct (calculateBusinessScore_found st id row Hrow) as (r & Hrun & Hscore & _).
      destruct (calculateBusinessScore_found (withEvent e st) id row Hrow)
        as (r' & Hrun' & Hscore' & _).
      rewrite Hrun, Hrun'. unfold returned, storedBusinessScore; cbn [fst snd fmap option_fmap option_map].
      rewrite Hscore, Hscore', businessTotal_withEvent by lia.
      split; [done|].
      unfold businessScored; cbn [tbl_business].
      rewrite !lookup_insert_eq; cbn.
      by rewrite businessTotal_withEvent by lia.
    + rewrite (calculateBusinessScore_missing st id Hrow).
      rewrite (calculateBusinessScore_missing (withEvent e st) id Hrow).
      done.
Qed.

Lemma recompute_sums_negative_events_only_witness :
  (∃ r st', calculateProjectScore "p0" store0 = (Return r, st')
            ∧ currentScore r = 52)
  ∧ currentScore <$> returned (calculateProjectScore "p0" (withEvent manualBonus store0))
    = currentScore <$> returned (calculateProjectScore "p0" store0).
Proof.
  destruct recompute_sums_negative_events_only as (Hp & _ & Hpos & _).
  split.
  - destruct (Hp store0 "p0" project_p0) as (r & st' & Hrun & Hscore);
      [reflexivity|].
    exists r, st'. split; [exact Hrun|]. rewrite Hscore. reflexivity.
  - apply (Hpos store0 "p0" manualBonus). reflexivity.
Defined.

(** C2: for an entity without ledger rows the recomputation returns the
    base score 50 plus the sum of the points of every rule of the
    entity kind's table, evaluated on the entity and its context,
    clamped to [0, 100]. *)
Theorem recompute_without_events :
  (∀ st id row,
      tbl_cryptoProject st !! id = Some row →
      filter (λ e, projectId e = Some id) (tbl_trustScoreEvent st) = [] →
      ∃ r st',
        calculateProjectScore id st = (Return r, st')
        ∧ currentScore r =
            Z.max 0 (Z.min 100
              (50 + sumZ (rulePoints cryptoRules row
                            (projectContext (projectRelations st id row))))))
  ∧ (∀ st id row,
      tbl_business st !! id = Some row →
      filter (λ e, businessId e = Some id) (tbl_trustScoreEvent st) = [] →
      ∃ r st',
        calculateBusinessScore id st = (Return r, st')
        ∧ currentScore r =
            Z.max 0 (Z.min 100
              (50 + sumZ (rulePoints businessRules row
                            (businessContext (businessRelations st id row)))))).
Proof.
  split.
  - intros st id row Hrow Hnone.
    destruct (calculateProjectScore_found st id row Hrow) as (r & Hrun & Hscore & _).
    exists r, (projectScored st id row). split; [done|].
    rewrite Hscore, projectTotal_sum. unfold projectPenalties.
    rewrite (no_events_no_penalties _ Hnone).
    unfold clampScore, config.trustScore.minScore, config.trustScore.maxScore,
      config.trustScore.baseScore, sumZ at 2; cbn [fmap list_fmap foldr].
    f_equal. f_equal. lia.
  - intros st id row Hrow Hnone.
    destruct (calculateBusinessScore_found st id row Hrow) as (r & Hrun & Hscore & _).
    exists r, (businessScored st id row). split; [done|].
    rewrite Hscore, businessTotal_sum. unfold businessPenalties.
    rewrite (no_events_no_penalties _ Hnone).
    unfold clampScore, config.trustScore.minScore, config.trustScore.maxScore,
      config.trustScore.baseScore, sumZ at 2; cbn [fmap list_fmap foldr].
    f_equal. f_equal. lia.
Qed.

Lemma recompute_without_events_witness :
  (∃ r st', calculateProjectScore "p0" store0 = (Return r, st')
            ∧ currentScore r = 52)
  ∧ (∃ r st', calculateBusinessScore "b0" store0 = (Return r, st')
              ∧ currentScore r = 51).
Proof.
  destruct recompute_without_events as (Hp & Hb).
  split.
  - destruct (Hp store0 "p0" project_p0) as (r & st' & Hrun & Hscore);
      [reflexivity | reflexivity |].
    exists r, st'. split; [exact Hrun|]. rewrite Hscore. reflexivity.
  - destruct (Hb store0 "b0" business_b0) as (r & st' & Hrun & Hscore);
      [reflexivity | reflexivity |].
    exists r, st'. split; [exact Hrun|]. rewrite Hscore. reflexivity.
Defined.

Section Determinism.
Implicit Types (st : Store) (id : string).

Lemma projectTotal_attributes st id row :
  projectTotal st id (CryptoProject.setScore 0 0 row) = projectTotal st id row.
Proof. reflexivity. Qed.

Lemma businessTotal_attributes st id row :
  businessTotal st id (Business.setScore 0 0 row) = businessTotal st id row.
Proof. reflexivity. Qed.

Lemma projectTotal_sameInputs st1 st2 id row :
  sameInputs st1 st2 → projectTotal st1 id row = projectTotal st2 id row.
Proof.
  intros [Hi Hd _ _ Hl].
  unfold projectTotal, projectPenalties, projectRelations.
  by rewrite Hi, Hd, Hl.
Qed.

Lemma businessTotal_sameInputs st1 st2 id row :
  sameInputs st1 st2 → businessTotal st1 id row = businessTotal st2 id row.
Proof.
  intros [Hi _ Hd Hf Hl].
  unfold businessTotal, businessPenalties, businessRelations.
  by rewrite Hi, Hd, Hf, Hl.
Qed.

Lemma calculateProjectScore_sameInputs st1 st2 id :
  sameInputs st1 st2 →
  projectAttributes st1 id = projectAttributes st2 id →
  currentScore <$> returned (calculateProjectScore id st1)
  = currentScore <$> returned (calculateProjectScore id st2).
Proof.
  intros Hsame. unfold projectAttributes.
  destruct (tbl_cryptoProject st1 !! id) as [row1|] eqn:H1,
           (tbl_cryptoProject st2 !! id) as [row2|] eqn:H2; try done.
  - intros Hattr.
    assert (CryptoProject.setScore 0 0 row1 = CryptoProject.setScore 0 0 row2)
      as Hrows by (apply (inj Some); exact Hattr).
    destruct (calculateProjectScore_found st1 id row1 H1) as (r1 & -> & Hs1 & _).
    destruct (calculateProjectScore_found st2 id row2 H2) as (r2 & -> & Hs2 & _).
    unfold returned; cbn [fst fmap option_fmap option_map].
    rewrite Hs1, Hs2, <- (projectTotal_attributes st1), <- (projectTotal_attributes st2).
    by rewrite Hrows, (projectTotal_sameInputs st1 st2).
  - intros _.
    by rewrite (calculateProjectScore_missing st1 id H1),
      (calculateProjectScore_missing st2 id H2).
Qed.

Lemma calculateBusinessScore_sameInputs st1 st2 id :
  sameInputs st1 st2 →
  businessAttributes st1 id = businessAttributes st2 id →
  currentScore <$> returned (calculateBusinessScore id st1)
  = currentScore <$> returned (calculateBusinessScore id st2).
Proof.
  intros Hsame. unfold businessAttributes.
  destruct (tbl_business st1 !! id) as [row1|] eqn:H1,
           (tbl_business st2 !! id) as [row2|] eqn:H2; try done.
  - intros Hattr.
    assert (Business.setScore 0 0 row1 = Business.setScore 0 0 row2)
      as Hrows by (apply (inj Some); exact Hattr).
    destruct (calculateBusinessScore_found st1 id row1 H1) as (r1 & -> & Hs1 & _).
    destruct (calculateBusinessScore_found st2 id row2 H2) as (r2 & -> & Hs2 & _).
    unfold returned; cbn [fst fmap option_fmap option_map].
    rewrite Hs1, Hs2, <- (businessTotal_attributes st1), <- (businessTotal_attributes st2).
    by rewrite Hrows, (businessTotal_sameInputs st1 st2).
  - intros _.
    by rewrite (calculateBusinessScore_missing st1 id H1),
      (calculateBusinessScore_missing st2 id H2).
Qed.

End Determinism.

(** C3: recomputation is deterministic and idempotent in its score: a
    second call right after a first one, with nothing else touching the
    store, returns the same [currentScore] (and throws if the first one
    threw); more generally two stores that agree on what the
    calculation reads give the same score. *)
Theorem recompute_idempotent :
  (∀ st id,
      currentScore <$> returned (calculateProjectScore id (calculateProjectScore id st).2)
      = currentScore <$> returned (calculateProjectScore id st))
  ∧ (∀ st id,
      currentScore <$> returned (calculateBusinessScore id (calculateBusinessScore id st).2)
      = currentScore <$> returned (calculateBusinessScore id st))
  ∧ (∀ st1 st2 id,
      sameInputs st1 st2 →
      projectAttributes st1 id = projectAttributes st2 id →
      currentScore <$> returned (calculateProjectScore id st1)
      = currentScore <$> returned (calculateProjectScore id st2))
  ∧ (∀ st1 st2 id,
      sameInputs st1 st2 →
      businessAttributes st1 id = businessAttributes st2 id →
      currentScore <$> returned (calculateBusinessScore id st1)
      = currentScore <$> returned (calculateBusinessScore id st2)).
Proof.
  split; [|split; [|split;
    [apply calculateProjectScore_sameInputs | apply calculateBusinessScore_sameInputs]]].
  - intros st id.
    destruct (tbl_cryptoProject st !! id) as [row|] eqn:Hrow.
    + destruct (calculateProjectScore_found st id row Hrow) as (r & Hrun & Hscore & _).
      rewrite Hrun; cbn [snd].
      set (row' := CryptoProject.setScore (projectTotal st id row) (clock st + 1) row).
      assert (Hrow' : tbl_cryptoProject (projectScored st id row) !! id = Some row')
        by apply lookup_insert_eq.
      destruct (calculateProjectScore_found _ id row' Hrow') as (r' & Hrun' & Hscore' & _).
      rewrite Hrun'. unfold returned; cbn [fst fmap option_fmap option_map].
      by rewrite Hscore, Hscore'.
    + rewrite (calculateProjectScore_missing st id Hrow); cbn [snd].
      by rewrite (calculateProjectScore_missing st id Hrow).
  - intros st id.
    destruct (tbl_business st !! id) as [row|] eqn:Hrow.
    + destruct (calculateBusinessScore_found st id row Hrow) as (r & Hrun & Hscore & _).
      rewrite Hrun; cbn [snd].
      set (row' := Business.setScore (businessTotal st id row) (clock st + 1) row).
      assert (Hrow' : tbl_business (businessScored st id row) !! id = Some row')
        by apply lookup_insert_eq.
      destruct (calculateBusinessScore_found _ id row' Hrow') as (r' & Hrun' & Hscore' & _).
      rewrite Hrun'. unfold returned; cbn [fst fmap option_fmap option_map].
      by rewrite Hscore, Hscore'.
    + rewrite (calculateBusinessScore_missing st id Hrow); cbn [snd].
      by rewrite (calculateBusinessScore_missing st id Hrow).
Qed.

Lemma recompute_idempotent_witness :
  currentScore <$> returned (calculateProjectScore "p0" store0)
  = currentScore <$> returned (calculateProjectScore "p0" store0_later).
Proof.
  destruct recompute_idempotent as (_ & _ & Hp & _).
  apply (Hp store0 store0_later "p0").
  - split; reflexivity.
  - reflexivity.
Defined.

(** C6: every recomputation that goes through returns a score between
    0 and 100 and stores that same score in the entity's row; for an
    existing entity the recomputation does go through. *)
Theorem recompute_score_in_range :
  (∀ st id row,
      tbl_cryptoProject st !! id = Some row →
      ∃ r st',
        calculateProjectScore id st = (Return r, st')
        ∧ 0 ≤ currentScore r ≤ 100
        ∧ storedProjectScore st' id = Some (currentScore r))
  ∧ (∀ st id row,
      tbl_business st !! id = Some row →
      ∃ r st',
        calculateBusinessScore id st = (Return r, st')
        ∧ 0 ≤ currentScore r ≤ 100
        ∧ storedBusinessScore st' id = Some (currentScore r)).
Proof.
  split.
  - intros st id row Hrow.
    destruct (calculateProjectScore_found st id row Hrow) as (r & Hrun & Hscore & _).
    exists r, (projectScored st id row). split; [done|].
    rewrite Hscore. split; [apply clampScore_bounds|].
    unfold storedProjectScore, projectScored; cbn [tbl_cryptoProject].
    by rewrite lookup_insert_eq.
  - intros st id row Hrow.
    destruct (calculateBusinessScore_found st id row Hrow) as (r & Hrun & Hscore & _).
    exists r, (businessScored st id row). split; [done|].
    rewrite Hscore. split; [apply clampScore_bounds|].
    unfold storedBusinessScore, businessScored; cbn [tbl_business].
    by rewrite lookup_insert_eq.
Qed.

Lemma recompute_score_in_range_witness :
  ∃ r st', calculateProjectScore "p0" store0 = (Return r, st')
           ∧ 0 ≤ currentScore r ≤ 100
           ∧ storedProjectScore st' "p0" = Some (currentScore r).
Proof.
  destruct recompute_score_in_range as (Hp & _).
  apply (Hp store0 "p0" project_p0). reflexivity.
Defined.

(** C9: for an id that resolves to no entity the recomputation throws
    the error "Project not found" (resp. "Business not found") to its
    caller, and the store it leaves is the store it found: no score
    field and no ledger row was written. *)
Theorem recompute_not_found :
  (∀ st id,
      tbl_cryptoProject st !! id = None →
      calculateProjectScore id st = (Throw (mkError "Project not found"), st))
  ∧ (∀ st id,
      tbl_business st !! id = None →
      calculateBusinessScore id st = (Throw (mkError "Business not found"), st)).
Proof.
  split; [apply calculateProjectScore_missing | apply calculateBusinessScore_missing].
Qed.

Lemma recompute_not_found_witness :
  calculateProjectScore "nope" store0 = (Throw (mkError "Project not found"), store0)
  ∧ calculateBusinessScore "nope" store0 = (Throw (mkError "Business not found"), store0).
Proof.
  destruct recompute_not_found as (Hp & Hb).
  split.
  - apply (Hp store0 "nope"). reflexivity.
  - apply (Hb store0 "nope"). reflexivity.
Defined.

(** ** Recording events *)

Section RecordEvent.
Implicit Types (st : Store) (id : string).

Lemma recordEvent_project st id row ty pts why by_ meta :
  prisma.int32 pts = true →
  tbl_cryptoProject st !! id = Some row →
  recordEvent id ET_project ty pts why by_ meta st
  = (Return tt,
     projectScored (created (newEvent st id ET_project ty pts why by_ meta) st) id row).
Proof.
  intros Hrange Hrow.
  unfold recordEvent, created, withEvent, newEvent, bind at 1.
  unfold prisma.trustScoreEvent_create, prisma.foreignKeysHold.
  rewrite Hrange; cbn [negb].
  destruct (decide (ET_project = ET_project)) as [_|?]; [|done].
  destruct (decide (ET_project = ET_business)) as [?|_]; [done|].
  rewrite bool_decide_true by (by rewrite Hrow). cbn [andb].
  match goal with |- context [ set_clock ?c ?s ] => set (st1 := set_clock c s) end.
  destruct (calculateProjectScore_found st1 id row Hrow) as (r & Hrun & _).
  unfold bind. by rewrite Hrun.
Qed.

Lemma recordEvent_business st id row ty pts why by_ meta :
  prisma.int32 pts = true →
  tbl_business st !! id = Some row →
  recordEvent id ET_business ty pts why by_ meta st
  = (Return tt,
     businessScored (created (newEvent st id ET_business ty pts why by_ meta) st) id row).
Proof.
  intros Hrange Hrow.
  unfold recordEvent, created, withEvent, newEvent, bind at 1.
  unfold prisma.trustScoreEvent_create, prisma.foreignKeysHold.
  rewrite Hrange; cbn [negb].
  destruct (decide (ET_business = ET_project)) as [?|_]; [done|].
  destruct (decide (ET_business = ET_business)) as [_|?]; [|done].
  rewrite bool_decide_true by (by rewrite Hrow). cbn [andb].
  match goal with |- context [ set_clock ?c ?s ] => set (st1 := set_clock c s) end.
  destruct (calculateBusinessScore_found st1 id row Hrow) as (r & Hrun & _).
  unfold bind. by rewrite Hrun.
Qed.

Lemma int32_spec n : prisma.int32 n = true ↔ -2147483648 ≤ n ≤ 2147483647.
Proof. unfold prisma.int32. rewrite andb_true_iff, !Z.leb_le. done. Qed.

Lemma int32_outside n : ¬ -2147483648 ≤ n ≤ 2147483647 → prisma.int32 n = false.
Proof.
  intros Hn. destruct (prisma.int32 n) eqn:H; [|done].
  by apply int32_spec in H.
Qed.

Lemma recordEvent_out_of_range st id ty ev pts why by_ meta :
  prisma.int32 pts = false →
  recordEvent id ty ev pts why by_ meta st
  = (Throw (mkError "Value out of range for the type"), st).
Proof.
  intros Hrange.
  unfold recordEvent, bind, prisma.trustScoreEvent_create. by rewrite Hrange.
Qed.

End RecordEvent.

(** ** Fan-out of an identity verification *)

Section FanOut.
Implicit Types (st : Store).

Lemma fanout_projects (ps : list (string * CryptoProject.t)) st :
  (∀ p, p ∈ ps → is_Some (tbl_cryptoProject st !! p.1)) →
  ∃ st' evs logs,
    forEach ps (λ p,
      recordEvent p.1 ET_project IDENTITY_VERIFIED
        config.trustScore.crypto.identityVerified
        "Team lead completed identity verification" (Some "system") None) st
    = (Return tt, st')
    ∧ tbl_trustScoreEvent st' = (tbl_trustScoreEvent st ++ evs)%list
    ∧ Forall2 (λ p e, identityEventFor ET_project p.1 e) ps evs
    ∧ tbl_systemLog st' = (tbl_systemLog st ++ logs)%list
    ∧ Forall2 (λ p l, recomputationOf ET_project p.1 l) ps logs
    ∧ tbl_business st' = tbl_business st
    ∧ (ps = [] → st' = st).
Proof.
  revert st. induction ps as [|p ps IH]; intros st Hex.
  - exists st, [], []. rewrite !app_nil_r. by repeat split.
  - destruct (Hex p) as [row Hrow]; [left|].
    cbn [forEach]. unfold bind at 1.
    rewrite (recordEvent_project _ _ row) by done.
    set (e := newEvent st _ _ _ _ _ _ _).
    set (st1 := projectScored _ _ _).
    destruct (IH st1)
      as (st' & evs & logs & Hrun & Hev & Hevs & Hlog & Hlogs & Hbus & _).
    { intros q Hq. unfold st1, projectScored; cbn [tbl_cryptoProject].
      apply lookup_insert_is_Some'. right. apply Hex. by right. }
    exists st', (e :: evs),
      (scoreCalculated "project" p.1 (projectTotal (created e st) p.1 row)
         (CryptoProject.userId row) :: logs).
    split; [done|]. repeat split.
    + rewrite Hev. unfold st1, projectScored, created, withEvent;
        cbn [tbl_trustScoreEvent set_clock set_trustScoreEvent].
      by rewrite <- app_assoc.
    + constructor; [by repeat split | done].
    + rewrite Hlog. unfold st1, projectScored; cbn [tbl_systemLog].
      by rewrite <- app_assoc.
    + constructor; [|done]. by eexists _, _.
    + by rewrite Hbus.
    + done.
Qed.

Lemma fanout_businesses (bs : list (string * Business.t)) st :
  (∀ b, b ∈ bs → is_Some (tbl_business st !! b.1)) →
  ∃ st' evs logs,
    forEach bs (λ b,
      recordEvent b.1 ET_business IDENTITY_VERIFIED
        config.trustScore.business.kybBasic
        "Business owner completed identity verification" (Some "system") None) st
    = (Return tt, st')
    ∧ tbl_trustScoreEvent st' = (tbl_trustScoreEvent st ++ evs)%list
    ∧ Forall2 (λ b e, identityEventFor ET_business b.1 e) bs evs
    ∧ tbl_systemLog st' = (tbl_systemLog st ++ logs)%list
    ∧ Forall2 (λ b l, recomputationOf ET_business b.1 l) bs logs
    ∧ (bs = [] → st' = st).
Proof.
  revert st. induction bs as [|b bs IH]; intros st Hex.
  - exists st, [], []. rewrite !app_nil_r. by repeat split.
  - destruct (Hex b) as [row Hrow]; [left|].
    cbn [forEach]. unfold bind at 1.
    rewrite (recordEvent_business _ _ row) by done.
    set (e := newEvent st _ _ _ _ _ _ _).
    set (st1 := businessScored _ _ _).
    destruct (IH st1) as (st' & evs & logs & Hrun & Hev & Hevs & Hlog & Hlogs & _).
    { intros q Hq. unfold st1, businessScored; cbn [tbl_business].
      apply lookup_insert_is_Some'. right. apply Hex. by right. }
    exists st', (e :: evs),
      (scoreCalculated "business" b.1 (businessTotal (created e st) b.1 row)
         (Business.userId row) :: logs).
    split; [done|]. repeat split.
    + rewrite Hev. unfold st1, businessScored, created, withEvent;
        cbn [tbl_trustScoreEvent set_clock set_trustScoreEvent].
      by rewrite <- app_assoc.
    + constructor; [by repeat split | done].
    + rewrite Hlog. unfold st1, businessScored; cbn [tbl_systemLog].
      by rewrite <- app_assoc.
    + constructor; [|done]. by eexists _, _.
    + done.
Qed.

Lemma projectsOf_exist st userId p :
  p ∈ projectsOf st userId → is_Some (tbl_cryptoProject st !! p.1).
Proof.
  unfold projectsOf. rewrite list_elem_of_filter. intros [_ Hp].
  destruct p as [id row]. apply elem_of_map_to_list in Hp. by exists row.
Qed.

Lemma businessesOf_exist st userId b :
  b ∈ businessesOf st userId → is_Some (tbl_business st !! b.1).
Proof.
  unfold businessesOf. rewrite list_elem_of_filter. intros [_ Hb].
  destruct b as [id row]. apply elem_of_map_to_list in Hb. by exists row.
Qed.

Lemma NoDup_fst_filter {A} (P : string * A → Prop) `{∀ x, Decision (P x)}
    (l : list (string * A)) :
  NoDup l.*1 → NoDup (filter P l).*1.
Proof.
  induction l as [|x l IH]; [done|].
  rewrite fmap_cons, NoDup_cons. intros [Hx Hl].
  rewrite filter_cons. destruct (decide (P x)); [|auto].
  rewrite fmap_cons, NoDup_cons. split; [|auto].
  intros Hin. apply Hx.
  apply list_elem_of_fmap in Hin as (y & -> & Hy).
  apply list_elem_of_filter in Hy as [_ Hy].
  apply list_elem_of_fmap. by exists y.
Qed.

Lemma onIdentityVerified_run st userId :
  ∃ st' evP evB logP logB,
    onIdentityVerified userId st = (Return tt, st')
    ∧ tbl_trustScoreEvent st' = (tbl_trustScoreEvent st ++ evP ++ evB)%list
    ∧ Forall2 (λ p e, identityEventFor ET_project p.1 e) (projectsOf st userId) evP
    ∧ Forall2 (λ b e, identityEventFor ET_business b.1 e) (businessesOf st userId) evB
    ∧ tbl_systemLog st' = (tbl_systemLog st ++ logP ++ logB)%list
    ∧ Forall2 (λ p l, recomputationOf ET_project p.1 l) (projectsOf st userId) logP
    ∧ Forall2 (λ b l, recomputationOf ET_business b.1 l) (businessesOf st userId) logB
    ∧ (projectsOf st userId = [] → businessesOf st userId = [] → st' = st).
Proof.
  destruct (fanout_projects (projectsOf st userId) st) as
    (st1 & evP & logP & Hrun1 & Hev1 & HevP & Hlog1 & HlogP & Hbus & Hnil1).
  { apply projectsOf_exist. }
  destruct (fanout_businesses (businessesOf st userId) st1) as
    (st2 & evB & logB & Hrun2 & Hev2 & HevB & Hlog2 & HlogB & Hnil2).
  { intros b Hb. rewrite Hbus. by apply (businessesOf_exist st userId). }
  exists st2, evP, evB, logP, logB.
  split.
  { unfold onIdentityVerified, bind, prisma.cryptoProject_findMany,
      prisma.business_findMany, gets.
    fold (projectsOf st userId) (businessesOf st userId).
    unfold bind in Hrun1, Hrun2. by rewrite Hrun1. }
  split; [by rewrite Hev2, Hev1, <- app_assoc|].
  split; [done|]. split; [done|].
  split; [by rewrite Hlog2, Hlog1, <- app_assoc|].
  split; [done|]. split; [done|].
  intros Hp Hb. rewrite (Hnil2 Hb). by apply Hnil1.
Qed.

End FanOut.

(** C8: [onIdentityVerified userId] reaches every entity the user owns.
    With N projects and M businesses owned it returns normally, appends
    exactly N + M ledger rows, one IDENTITY_VERIFIED row per owned
    entity in the order visited, and runs exactly N + M recomputations,
    one per owned entity (each leaves its SCORE_CALCULATED audit
    record); the owned entities are pairwise distinct. *)
Theorem onIdentityVerified_fans_out :
  ∀ st userId,
    let projects := projectsOf st userId in
    let businesses := businessesOf st userId in
    ∃ st' evP evB logP logB,
      onIdentityVerified userId st = (Return tt, st')
      ∧ tbl_trustScoreEvent st' = (tbl_trustScoreEvent st ++ evP ++ evB)%list
      ∧ Forall2 (λ p e, identityEventFor ET_project p.1 e) projects evP
      ∧ Forall2 (λ b e, identityEventFor ET_business b.1 e) businesses evB
      ∧ tbl_systemLog st' = (tbl_systemLog st ++ logP ++ logB)%list
      ∧ Forall2 (λ p l, recomputationOf ET_project p.1 l) projects logP
      ∧ Forall2 (λ b l, recomputationOf ET_business b.1 l) businesses logB
      ∧ length (tbl_trustScoreEvent st')
        = (length (tbl_trustScoreEvent st) + (length projects + length businesses))%nat
      ∧ length (tbl_systemLog st')
        = (length (tbl_systemLog st) + (length projects + length businesses))%nat
      ∧ NoDup projects.*1 ∧ NoDup businesses.*1.
Proof.
  intros st userId projects businesses.
  destruct (onIdentityVerified_run st userId) as
    (st' & evP & evB & logP & logB & Hrun & Hev & HevP & HevB & Hlog & HlogP & HlogB & _).
  exists st', evP, evB, logP, logB.
  pose proof (Forall2_length _ _ _ HevP) as HlenP.
  pose proof (Forall2_length _ _ _ HevB) as HlenB.
  pose proof (Forall2_length _ _ _ HlogP) as HlenLP.
  pose proof (Forall2_length _ _ _ HlogB) as HlenLB.
  fold projects in HlenP, HlenLP. fold businesses in HlenB, HlenLB.
  do 7 (split; [done|]).
  split; [rewrite Hev, !length_app; lia|].
  split; [rewrite Hlog, !length_app; lia|].
  split; apply NoDup_fst_filter, NoDup_fst_map_to_list.
Qed.

Example onIdentityVerified_scenario :
  let st' := (onIdentityVerified "user-1" store_fanout).2 in
  (onIdentityVerified "user-1" store_fanout).1 = Return tt
  ∧ length (tbl_trustScoreEvent st') = 3%nat
  ∧ length (tbl_systemLog st') = 3%nat
  ∧ length (filter (λ e, projectId e = Some "p1") (tbl_trustScoreEvent st')) = 1%nat
  ∧ length (filter (λ e, projectId e = Some "p2") (tbl_trustScoreEvent st')) = 1%nat
  ∧ length (filter (λ e, businessId e = Some "b1") (tbl_trustScoreEvent st')) = 1%nat
  ∧ storedProjectScore st' "p1" = Some 72
  ∧ storedBusinessScore st' "b1" = Some 51
  ∧ storedProjectScore st' "px" = Some 50.
Proof. vm_compute. by repeat split. Qed.

(** ** Who writes the score, and what is recorded with it *)

Section Along.
Context (R : Store → Store → Prop).
Hypothesis R_refl : ∀ st, R st st.
Hypothesis R_trans : ∀ st1 st2 st3, R st1 st2 → R st2 st3 → R st1 st3.

Lemma along_ret {A} (a : A) : along R (ret a).
Proof. intros st. apply R_refl. Qed.

Lemma along_gets {A} (f : Store → A) : along R (gets f).
Proof. intros st. apply R_refl. Qed.

Lemma along_bind {A B} (m : M A) (k : A → M B) :
  along R m → (∀ a, along R (k a)) → along R (bind m k).
Proof.
  intros Hm Hk st. unfold bind.
  specialize (Hm st). destruct (m st) as [[a|e] st1]; cbn [snd] in *; [|done].
  eapply R_trans; [done | apply Hk].
Qed.

Lemma along_forEach {A} (xs : list A) (body : A → M unit) :
  (∀ x, along R (body x)) → along R (forEach xs body).
Proof.
  intros Hbody. induction xs as [|x xs IH]; cbn [forEach].
  - apply along_ret.
  - apply along_bind; [done | by intros _].
Qed.

End Along.

Section Tracking.
Implicit Types (st : Store).

Lemma scoreChanged_dec st st' ty id :
  scoreChanged st st' ty id ∨ storedScore st' ty id = storedScore st ty id.
Proof.
  unfold scoreChanged.
  destruct (decide (storedScore st' ty id = storedScore st ty id)); [by right | by left].
Qed.

(** Between three stores a score that differs end to end differs over
    the first or over the second step. *)
Lemma scoreChanged_split st1 st2 st3 ty id :
  scoreChanged st1 st3 ty id → scoreChanged st1 st2 ty id ∨ scoreChanged st2 st3 ty id.
Proof.
  intros H13. destruct (scoreChanged_dec st1 st2 ty id) as [?|H12]; [by left|].
  right. unfold scoreChanged in *. by rewrite H12.
Qed.

Lemma follows_refl st : follows st st.
Proof. exists [], []. rewrite !app_nil_r. repeat split. by intros ty id []. Qed.

Lemma follows_trans st1 st2 st3 :
  follows st1 st2 → follows st2 st3 → follows st1 st3.
Proof.
  intros (ev1 & lg1 & He1 & Hl1 & H1) (ev2 & lg2 & He2 & Hl2 & H2).
  exists (ev1 ++ ev2)%list, (lg1 ++ lg2)%list.
  split; [by rewrite He2, He1, <- app_assoc|].
  split; [by rewrite Hl2, Hl1, <- app_assoc|].
  intros ty id H13. rewrite Exists_app.
  destruct (scoreChanged_split st1 st2 st3 ty id H13); [left; by apply H1 | right; by apply H2].
Qed.

Lemma ledgered_refl st : ledgered st st.
Proof. exists []. rewrite app_nil_r. split; [done|]. by intros ty id []. Qed.

Lemma ledgered_trans st1 st2 st3 :
  ledgered st1 st2 → ledgered st2 st3 → ledgered st1 st3.
Proof.
  intros (ev1 & He1 & H1) (ev2 & He2 & H2).
  exists (ev1 ++ ev2)%list.
  split; [by rewrite He2, He1, <- app_assoc|].
  intros ty id H13. rewrite Exists_app.
  destruct (scoreChanged_split st1 st2 st3 ty id H13); [left; by apply H1 | right; by apply H2].
Qed.

(** A calculation writes the score of its own entity only. *)
Lemma touchesOnly_projectScored st id row :
  touchesOnly ET_project id st (projectScored st id row).
Proof.
  intros ty id' Hch. unfold scoreChanged in Hch.
  destruct ty; cbn [storedScore] in Hch; [|done].
  split; [done|]. destruct (decide (id' = id)) as [->|Hne]; [done|].
  destruct Hch. unfold storedProjectScore, projectScored; cbn [tbl_cryptoProject].
  by rewrite lookup_insert_ne.
Qed.

Lemma touchesOnly_businessScored st id row :
  touchesOnly ET_business id st (businessScored st id row).
Proof.
  intros ty id' Hch. unfold scoreChanged in Hch.
  destruct ty; cbn [storedScore] in Hch; [done|].
  split; [done|]. destruct (decide (id' = id)) as [->|Hne]; [done|].
  destruct Hch. unfold storedBusinessScore, businessScored; cbn [tbl_business].
  by rewrite lookup_insert_ne.
Qed.

Lemma touchesOnly_refl ty id st : touchesOnly ty id st st.
Proof. by intros ty' id' []. Qed.

Lemma touchesOnly_calculateProjectScore id st :
  touchesOnly ET_project id st (calculateProjectScore id st).2.
Proof.
  destruct (tbl_cryptoProject st !! id) as [row|] eqn:Hrow.
  - destruct (calculateProjectScore_found st id row Hrow) as (r & -> & _).
    apply touchesOnly_projectScored.
  - rewrite (calculateProjectScore_missing st id Hrow). apply touchesOnly_refl.
Qed.

Lemma touchesOnly_calculateBusinessScore id st :
  touchesOnly ET_business id st (calculateBusinessScore id st).2.
Proof.
  destruct (tbl_business st !! id) as [row|] eqn:Hrow.
  - destruct (calculateBusinessScore_found st id row Hrow) as (r & -> & _).
    apply touchesOnly_businessScored.
  - rewrite (calculateBusinessScore_missing st id Hrow). apply touchesOnly_refl.
Qed.

Lemma follows_projectScored st id row : follows st (projectScored st id row).
Proof.
  exists [], [scoreCalculated "project" id (projectTotal st id row)
                (CryptoProject.userId row)].
  rewrite app_nil_r. repeat split.
  intros ty id' [-> ->]%touchesOnly_projectScored.
  apply Exists_cons_hd. by eexists _, _.
Qed.

Lemma follows_businessScored st id row : follows st (businessScored st id row).
Proof.
  exists [], [scoreCalculated "business" id (businessTotal st id row)
                (Business.userId row)].
  rewrite app_nil_r. repeat split.
  intros ty id' [-> ->]%touchesOnly_businessScored.
  apply Exists_cons_hd. by eexists _, _.
Qed.

Lemma tracked_calculateProjectScore id : along follows (calculateProjectScore id).
Proof.
  intros st. destruct (tbl_cryptoProject st !! id) as [row|] eqn:Hrow.
  - destruct (calculateProjectScore_found st id row Hrow) as (r & -> & _).
    apply follows_projectScored.
  - rewrite (calculateProjectScore_missing st id Hrow). apply follows_refl.
Qed.

Lemma tracked_calculateBusinessScore id : along follows (calculateBusinessScore id).
Proof.
  intros st. destruct (tbl_business st !! id) as [row|] eqn:Hrow.
  - destruct (calculateBusinessScore_found st id row Hrow) as (r & -> & _).
    apply follows_businessScored.
  - rewrite (calculateBusinessScore_missing st id Hrow). apply follows_refl.
Qed.

Lemma tracked_create pid bid ty pts why by_ meta :
  along follows (prisma.trustScoreEvent_create pid bid ty pts why by_ meta).
Proof.
  intros st. unfold prisma.trustScoreEvent_create.
  destruct (negb (prisma.int32 pts)); cbn [snd]; [apply follows_refl|].
  destruct (prisma.foreignKeysHold st pid bid); cbn [snd]; [|apply follows_refl].
  eexists _, []. split; [reflexivity|].
  rewrite app_nil_r. split; [reflexivity|]. by intros [] id [].
Qed.

(** [logger.audit] always returns, and writes the log only. *)
Lemma audit_run category action message userId st :
  ∃ st', logger.audit category action message userId st = (Return tt, st')
         ∧ tbl_trustScoreEvent st' = tbl_trustScoreEvent st
         ∧ (∃ logs, tbl_systemLog st' = (tbl_systemLog st ++ logs)%list)
         ∧ ∀ ty id, storedScore st' ty id = storedScore st ty id.
Proof.
  unfold logger.audit, logger.log, tryCatch, prisma.systemLog_create.
  destruct (prisma.logForeignKeyHolds st _); eexists; (split; [reflexivity|]).
  - split; [done|]. split; [by eexists|]. by intros [] id.
  - split; [done|]. split; [exists []; by rewrite app_nil_r|]. by intros [] id.
Qed.

Lemma tracked_audit category action message userId :
  along follows (logger.audit category action message userId).
Proof.
  intros st.
  destruct (audit_run category action message userId st)
    as (st' & -> & Hev & [logs Hlogs] & Hsame). cbn [snd].
  exists [], logs. split; [by rewrite app_nil_r|]. split; [done|].
  intros ty id []. apply Hsame.
Qed.

Lemma tracked_recordEvent id ty ev pts why by_ meta :
  along follows (recordEvent id ty ev pts why by_ meta).
Proof.
  pose proof follows_refl. pose proof follows_trans.
  unfold recordEvent. apply along_bind; [done | apply tracked_create|].
  intros _. destruct ty;
    (apply along_bind; [done | | intros ?; by apply along_ret]).
  - apply tracked_calculateProjectScore.
  - apply tracked_calculateBusinessScore.
Qed.

Lemma tracked_adminAdjust adjustment adminId :
  along follows (adminAdjust adjustment adminId).
Proof.
  pose proof follows_refl. pose proof follows_trans.
  unfold adminAdjust.
  apply along_bind; [done | apply tracked_recordEvent|]. intros _.
  apply along_bind; [done | apply tracked_audit|]. intros _.
  destruct (adj_entityType adjustment).
  - apply tracked_calculateProjectScore.
  - apply tracked_calculateBusinessScore.
Qed.

Lemma tracked_perform op : along follows (perform op).
Proof.
  pose proof follows_refl as Hrefl. pose proof follows_trans as Htrans.
  pose proof (λ A, @along_ret follows Hrefl A) as Hret.
  pose proof (λ A B, @along_bind follows Htrans A B) as Hbind.
  destruct op; cbn [perform].
  - apply Hbind; [apply tracked_calculateProjectScore|]. intros ?; apply Hret.
  - apply Hbind; [apply tracked_calculateBusinessScore|]. intros ?; apply Hret.
  - apply tracked_recordEvent.
  - apply Hbind; [apply tracked_adminAdjust|]. intros ?; apply Hret.
  - unfold onIdentityVerified.
    apply Hbind; [by apply along_gets|]. intros projects.
    apply Hbind; [by apply along_gets|]. intros businesses.
    apply Hbind; [|intros _];
      apply along_forEach; try done; intros ?; apply tracked_recordEvent.
  - unfold onLiquidityLocked.
    destruct (0 <? _); [apply tracked_recordEvent | apply Hret].
  - unfold onVestingConfigured.
    destruct (0 <? _); [apply tracked_recordEvent | apply Hret].
  - unfold onKYBVerified.
    destruct (0 <? _); [apply tracked_recordEvent | apply Hret].
  - unfold onDocumentsUploaded.
    repeat case_match; first [apply tracked_recordEvent | apply Hret].
  - apply tracked_recordEvent.
  - apply tracked_recordEvent.
  - apply Hbind; [apply tracked_calculateProjectScore|]. intros ?; apply Hret.
  - apply Hbind; [apply tracked_calculateBusinessScore|]. intros ?; apply Hret.
Qed.

End Tracking.

Section Ledgering.
Implicit Types (st : Store).

Lemma eventOf_newEvent st id ty ev pts why by_ meta :
  eventOf ty id (newEvent st id ty ev pts why by_ meta).
Proof.
  destruct ty; unfold eventOf, newEvent; cbn [projectId businessId].
  - by destruct (decide (ET_project = ET_project)).
  - by destruct (decide (ET_business = ET_business)).
Qed.

(** [recordEvent] either fails, on the range of the points column or on
    the foreign key, before it wrote anything, or returns with exactly
    one more ledger row and no stored score changed but the entity's. *)
Lemma recordEvent_cases id ty ev pts why by_ meta st :
  (∃ e, recordEvent id ty ev pts why by_ meta st = (Throw e, st))
  ∨ (∃ st1, recordEvent id ty ev pts why by_ meta st = (Return tt, st1)
            ∧ tbl_trustScoreEvent st1
              = (tbl_trustScoreEvent st ++ [newEvent st id ty ev pts why by_ meta])%list
            ∧ touchesOnly ty id st st1).
Proof.
  destruct (prisma.int32 pts) eqn:Hrange;
    [|left; eexists; by apply recordEvent_out_of_range].
  destruct ty.
  - destruct (tbl_cryptoProject st !! id) as [row|] eqn:Hrow.
    + right. eexists. split; [by apply recordEvent_project|]. split; [reflexivity|].
      apply (touchesOnly_projectScored
               (created (newEvent st id ET_project ev pts why by_ meta) st)).
    + left. eexists.
      unfold recordEvent, bind, prisma.trustScoreEvent_create, prisma.foreignKeysHold.
      rewrite Hrange; cbn [negb].
      destruct (decide (ET_project = ET_project)) as [_|?]; [|done].
      rewrite bool_decide_false; [reflexivity|].
      rewrite Hrow. by intros [? ?].
  - destruct (tbl_business st !! id) as [row|] eqn:Hrow.
    + right. eexists. split; [by apply recordEvent_business|]. split; [reflexivity|].
      apply (touchesOnly_businessScored
               (created (newEvent st id ET_business ev pts why by_ meta) st)).
    + left. eexists.
      unfold recordEvent, bind, prisma.trustScoreEvent_create, prisma.foreignKeysHold.
      rewrite Hrange; cbn [negb].
      destruct (decide (ET_business = ET_project)) as [?|_]; [done|].
      destruct (decide (ET_business = ET_business)) as [_|?]; [|done].
      rewrite bool_decide_false; [reflexivity|].
      rewrite Hrow. by intros [? ?].
Qed.

Lemma ledgered_recordEvent id ty ev pts why by_ meta :
  along ledgered (recordEvent id ty ev pts why by_ meta).
Proof.
  intros st.
  destruct (recordEvent_cases id ty ev pts why by_ meta st)
    as [[e ->]|(st1 & -> & Hev & Honly)]; cbn [snd].
  - apply ledgered_refl.
  - eexists. split; [exact Hev|].
    intros ty' id' [-> ->]%Honly. apply Exists_cons_hd, eventOf_newEvent.
Qed.

(** A bare recomputation leaves the ledger alone. *)
Lemma calculateProjectScore_ledger id st :
  tbl_trustScoreEvent (calculateProjectScore id st).2 = tbl_trustScoreEvent st.
Proof.
  destruct (tbl_cryptoProject st !! id) as [row|] eqn:Hrow.
  - by destruct (calculateProjectScore_found st id row Hrow) as (r & -> & _).
  - by rewrite (calculateProjectScore_missing st id Hrow).
Qed.

Lemma calculateBusinessScore_ledger id st :
  tbl_trustScoreEvent (calculateBusinessScore id st).2 = tbl_trustScoreEvent st.
Proof.
  destruct (tbl_business st !! id) as [row|] eqn:Hrow.
  - by destruct (calculateBusinessScore_found st id row Hrow) as (r & -> & _).
  - by rewrite (calculateBusinessScore_missing st id Hrow).
Qed.

(** The second recomputation of [adminAdjust] is of the entity whose
    ledger row the first step appended. *)
Lemma ledgered_adminAdjust adjustment adminId :
  along ledgered (adminAdjust adjustment adminId).
Proof.
  intros st. unfold adminAdjust, bind at 1.
  destruct (recordEvent_cases (adj_entityId adjustment) (adj_entityType adjustment)
              MANUAL_ADJUSTMENT (adj_points adjustment) (adj_reason adjustment)
              (Some adminId) (Some [("adminAdjustment", true)]) st)
    as [[e ->]|(st1 & -> & Hev & Honly)].
  - apply ledgered_refl.
  - unfold bind at 1.
    match goal with
    | |- context [logger.audit ?c ?a ?m ?u st1] =>
        destruct (audit_run c a m u st1) as (st2 & -> & Hev2 & _ & Hsame)
    end.
    set (st3 := (match adj_entityType adjustment with
                 | ET_project => calculateProjectScore (adj_entityId adjustment)
                 | ET_business => calculateBusinessScore (adj_entityId adjustment)
                 end st2).2).
    assert (tbl_trustScoreEvent st3 = tbl_trustScoreEvent st2
            ∧ touchesOnly (adj_entityType adjustment) (adj_entityId adjustment) st2 st3)
      as [Hev3 Honly3].
    { unfold st3. destruct (adj_entityType adjustment).
      - split; [apply calculateProjectScore_ledger |
                apply touchesOnly_calculateProjectScore].
      - split; [apply calculateBusinessScore_ledger |
                apply touchesOnly_calculateBusinessScore]. }
    eexists. split; [by rewrite Hev3, Hev2, Hev|].
    intros ty id Hch. apply Exists_cons_hd.
    assert (ty = adj_entityType adjustment ∧ id = adj_entityId adjustment) as [-> ->];
      [|apply eventOf_newEvent].
    destruct (scoreChanged_split st st1 st3 ty id Hch) as [H1|H3]; [by apply Honly|].
    apply Honly3. unfold scoreChanged in *. by rewrite Hsame.
Qed.

Lemma ledgered_perform op :
  dispatches op = true → along ledgered (perform op).
Proof.
  pose proof ledgered_refl as Hrefl. pose proof ledgered_trans as Htrans.
  pose proof (λ A, @along_ret ledgered Hrefl A) as Hret.
  pose proof (λ A B, @along_bind ledgered Htrans A B) as Hbind.
  destruct op; cbn [dispatches perform]; try done; intros _.
  - apply ledgered_recordEvent.
  - apply Hbind; [apply ledgered_adminAdjust|]. intros ?; apply Hret.
  - unfold onIdentityVerified.
    apply Hbind; [by apply along_gets|]. intros projects.
    apply Hbind; [by apply along_gets|]. intros businesses.
    apply Hbind; [|intros _];
      apply along_forEach; try done; intros ?; apply ledgered_recordEvent.
  - unfold onLiquidityLocked.
    destruct (0 <? _); [apply ledgered_recordEvent | apply Hret].
  - unfold onVestingConfigured.
    destruct (0 <? _); [apply ledgered_recordEvent | apply Hret].
  - unfold onKYBVerified.
    destruct (0 <? _); [apply ledgered_recordEvent | apply Hret].
  - unfold onDocumentsUploaded.
    repeat case_match; first [apply ledgered_recordEvent | apply Hret].
  - apply ledgered_recordEvent.
  - apply ledgered_recordEvent.
Qed.

Lemma recomputationOf_isScoreCalculated ty id l :
  recomputationOf ty id l → isScoreCalculated l.
Proof. by intros (total & userId & ->). Qed.

End Ledgering.

(** C7, as stated, fails on the code.  In [store0] project "p0" has the
    stored score 50, attributes worth 52 (its name is one of the five
    profile fields) and an empty ledger.
    [getProjectScore] rewrites the stored score to 52 and the ledger is
    still empty afterwards: a score mutation with no ledger row before
    or with it.  And the trigger [onLiquidityLocked "p0" 3], whose point
    value is zero, returns with the store untouched: it does not
    recompute, the stale 50 stays. *)
Lemma getScore_writes_score_without_ledger_row :
  storedProjectScore store0 "p0" = Some 50
  ∧ tbl_trustScoreEvent store0 = []
  ∧ storedProjectScore (getProjectScore "p0" store0).2 "p0" = Some 52
  ∧ tbl_trustScoreEvent (getProjectScore "p0" store0).2 = []
  ∧ onLiquidityLocked "p0" 3 store0 = (Return tt, store0)
  ∧ storedProjectScore (onLiquidityLocked "p0" 3 store0).2 "p0" = Some 50.
Proof. vm_compute. by repeat split. Qed.

Lemma scoreMutationsAreLedgered_fails : ¬ scoreMutationsAreLedgered.
Proof.
  intros H.
  destruct (H (GetProjectScore "p0") store0 "p0") as (e & He & _).
  - vm_compute. congruence.
  - vm_compute in He. by apply elem_of_nil in He.
Qed.

(** C7, amended: every operation only appends to the audit log, and for
    every entity whose stored score it changed it appended the
    SCORE_CALCULATED audit record of a calculation of that very entity;
    an operation of the trigger dispatcher (recordEvent, adminAdjust,
    the triggers, the penalties) also appended a ledger row of every
    entity whose stored score it changed; the score queries
    [getProjectScore] and [getBusinessScore] never append a ledger row,
    although they write the score; and a trigger whose point value is
    zero returns without touching the store at all: no ledger row, no
    recomputation. *)
Theorem score_writes_audited_and_dispatcher_ledgered :
  (∀ op st,
      ∃ logs,
        tbl_systemLog (perform op st).2 = (tbl_systemLog st ++ logs)%list
        ∧ ∀ ty id,
            storedScore (perform op st).2 ty id ≠ storedScore st ty id →
            Exists (λ l, isScoreCalculated l ∧ recomputationOf ty id l) logs)
  ∧ (∀ op st,
      dispatches op = true →
      ∃ evs,
        tbl_trustScoreEvent (perform op st).2 = (tbl_trustScoreEvent st ++ evs)%list
        ∧ ∀ ty id,
            storedScore (perform op st).2 ty id ≠ storedScore st ty id →
            Exists (eventOf ty id) evs)
  ∧ (∀ id st,
      tbl_trustScoreEvent (getProjectScore id st).2 = tbl_trustScoreEvent st
      ∧ tbl_trustScoreEvent (getBusinessScore id st).2 = tbl_trustScoreEvent st)
  ∧ (∀ id months st, months < 6 → onLiquidityLocked id months st = (Return tt, st))
  ∧ (∀ id months st, months < 12 → onVestingConfigured id months st = (Return tt, st))
  ∧ (∀ id level st,
      level ≠ "ENHANCED" → level ≠ "STANDARD" → level ≠ "BASIC" →
      onKYBVerified id level st = (Return tt, st))
  ∧ (∀ id ty docType st,
      ¬ (ty = ET_business ∧ docType = "financial") →
      ¬ (ty = ET_project ∧ docType = "audit") →
      onDocumentsUploaded id ty docType st = (Return tt, st)).
Proof.
  repeat apply conj.
  - intros op st.
    destruct (tracked_perform op st) as (evs & logs & _ & Hlogs & Hown).
    exists logs. split; [done|]. intros ty id Hch.
    eapply Exists_impl; [by apply Hown|].
    intros l Hl. split; [|done]. by eapply recomputationOf_isScoreCalculated.
  - intros op st Hop.
    destruct (ledgered_perform op Hop st) as (evs & Hevs & Hown).
    exists evs. split; [done|]. intros ty id Hch. by apply Hown.
  - intros id st.
    split; [apply calculateProjectScore_ledger | apply calculateBusinessScore_ledger].
  - intros id months st Hm. unfold onLiquidityLocked.
    destruct (Z.leb_spec 12 months); [lia|].
    destruct (Z.leb_spec 6 months); [lia|]. done.
  - intros id months st Hm. unfold onVestingConfigured.
    destruct (Z.leb_spec 24 months); [lia|].
    destruct (Z.leb_spec 12 months); [lia|]. done.
  - intros id lvl st H1 H2 H3. unfold onKYBVerified.
    by rewrite !decide_False by done.
  - intros id ty docType st H1 H2. unfold onDocumentsUploaded.
    destruct (bool_decide (ty = ET_business) && bool_decide (docType = "financial"))
      eqn:Hb.
    { apply andb_true_iff in Hb as [?%bool_decide_eq_true ?%bool_decide_eq_true].
      by destruct H1. }
    destruct (bool_decide (ty = ET_project) && bool_decide (docType = "audit"))
      eqn:Hp.
    { apply andb_true_iff in Hp as [?%bool_decide_eq_true ?%bool_decide_eq_true].
      by destruct H2. }
    done.
Qed.

Lemma score_writes_audited_and_dispatcher_ledgered_witness :
  onLiquidityLocked "p0" 3 store0 = (Return tt, store0)
  ∧ (∃ logs,
      tbl_systemLog (perform (GetProjectScore "p0") store0).2
      = (tbl_systemLog store0 ++ logs)%list
      ∧ Exists (λ l, isScoreCalculated l ∧ recomputationOf ET_project "p0" l) logs)
  ∧ ∃ evs,
      tbl_trustScoreEvent (perform (ApplyMissedReportPenalty "b0" "2025-Q1") store0).2
      = (tbl_trustScoreEvent store0 ++ evs)%list
      ∧ Exists (eventOf ET_business "b0") evs.
Proof.
  destruct score_writes_audited_and_dispatcher_ledgered
    as (Hlog & Hled & _ & Hliq & _).
  split; [|split].
  - apply (Hliq "p0" 3 store0). lia.
  - destruct (Hlog (GetProjectScore "p0") store0) as (logs & Hlogs & Hown).
    exists logs. split; [exact Hlogs|].
    apply (Hown ET_project "p0"). by vm_compute.
  - destruct (Hled (ApplyMissedReportPenalty "b0" "2025-Q1") store0)
      as (evs & Hevs & Hown); [reflexivity|].
    exists evs. split; [exact Hevs|].
    apply (Hown ET_business "b0"). by vm_compute.
Defined.

(** * Further properties of the engine *)

(** ** What the rules award *)

Ltac rule_cases :=
  repeat match goal with
         | |- context [truthy ?x] => destruct (truthy x)
         | |- context [atLeast ?x ?k] => destruct (atLeast x k)
         | |- context [bool_decide ?P] => destruct (bool_decide P)
         | |- context [identityIsVerified ?c] => destruct (identityIsVerified c)
         | |- context [CryptoProject.contractVerified ?p] =>
             destruct (CryptoProject.contractVerified p)
         | |- context [Business.kybLevel ?b] => destruct (Business.kybLevel b)
         end.

Lemma cryptoRules_points (p : CryptoProject.t) context :
  Forall (λ rule, 0 ≤ evaluate rule p context ≤ maxPoints rule) cryptoRules.
Proof. unfold cryptoRules. repeat constructor; cbn; rule_cases; by vm_compute. Qed.

Lemma businessRules_points (b : Business.t) context :
  Forall (λ rule, 0 ≤ evaluate rule b context ≤ maxPoints rule) businessRules.
Proof. unfold businessRules. repeat constructor; cbn; rule_cases; by vm_compute. Qed.

(** X1: every rule of both tables awards between 0 and its declared
    [maxPoints], whatever the entity and the context; the project table
    awards at most 85 in all, the business table at most 65. *)
Theorem rule_points_within_max :
  (∀ (p : CryptoProject.t) context,
      Forall (λ rule, 0 ≤ evaluate rule p context ≤ maxPoints rule) cryptoRules
      ∧ 0 ≤ sumZ (rulePoints cryptoRules p context) ≤ 85)
  ∧ (∀ (b : Business.t) context,
      Forall (λ rule, 0 ≤ evaluate rule b context ≤ maxPoints rule) businessRules
      ∧ 0 ≤ sumZ (rulePoints businessRules b context) ≤ 65).
Proof.
  split.
  - intros p context. pose proof (cryptoRules_points p context) as H.
    split; [done|].
    unfold cryptoRules in H.
    repeat match goal with H : Forall _ (_ :: _) |- _ => apply Forall_cons in H as [? H] end.
    unfold rulePoints, sumZ, cryptoRules; cbn [fmap list_fmap foldr].
    cbn [maxPoints identityVerificationRule liquidityLock6Rule liquidityLock12Rule
         teamVesting12Rule teamVesting24Rule projectProfileRule externalAuditRule
         whitepaperSocialsRule contractVerifiedRule] in *.
    unfold config.trustScore.crypto.identityVerified,
      config.trustScore.crypto.liquidityLock6Months,
      config.trustScore.crypto.liquidityLock12Months,
      config.trustScore.crypto.vesting12Months,
      config.trustScore.crypto.vesting24Months,
      config.trustScore.crypto.profileComplete,
      config.trustScore.crypto.externalAudit,
      config.trustScore.crypto.whitepaperSocials,
      config.trustScore.crypto.contractVerified in *.
    lia.
  - intros b context. pose proof (businessRules_points b context) as H.
    split; [done|].
    unfold businessRules in H.
    repeat match goal with H : Forall _ (_ :: _) |- _ => apply Forall_cons in H as [? H] end.
    unfold rulePoints, sumZ, businessRules; cbn [fmap list_fmap foldr].
    cbn [maxPoints kybBasicRule kybStandardRule kybEnhancedRule financialDocsRule
         einRegistrationRule businessProfileRule externalAccountingReviewRule] in *.
    unfold config.trustScore.business.kybBasic,
      config.trustScore.business.kybStandard,
      config.trustScore.business.kybEnhanced,
      config.trustScore.business.financialDocs,
      config.trustScore.business.einRegistration,
      config.trustScore.business.profileComplete,
      config.trustScore.business.externalAccountingReview in *.
    lia.
Qed.

(** ** The result of a calculation *)

Section Results.
Implicit Types (st : Store) (id : string).

Lemma calculateProjectScore_run st id row :
  tbl_cryptoProject st !! id = Some row →
  calculateProjectScore id st = (Return (projectResult st id row), projectScored st id row).
Proof.
  intros Hrow.
  unfold calculateProjectScore, bind at 1.
  unfold prisma.cryptoProject_findUnique, gets.
  rewrite Hrow. cbn [mbind option_bind].
  fold (projectRelations st id row).
  unfold projectResult, projectScored, projectTotal, projectPenalties, projectEvents.
  destruct (evaluateRules cryptoRules _ _) as [totalScore factors].
  cbn [prisma.p_row projectRelations fst snd].
  run_monad. cbn [tbl_cryptoProject set_clock]. rewrite Hrow.
  unfold prisma.logForeignKeyHolds; cbn [log_userId].
  by rewrite bool_decide_true by apply userExists_scoredProject.
Qed.

Lemma calculateBusinessScore_run st id row :
  tbl_business st !! id = Some row →
  calculateBusinessScore id st
  = (Return (businessResult st id row), businessScored st id row).
Proof.
  intros Hrow.
  unfold calculateBusinessScore, bind at 1.
  unfold prisma.business_findUnique, gets.
  rewrite Hrow. cbn [mbind option_bind].
  fold (businessRelations st id row).
  unfold businessResult, businessScored, businessTotal, businessPenalties, businessEvents.
  destruct (evaluateRules businessRules _ _) as [totalScore factors].
  cbn [prisma.b_row businessRelations fst snd].
  run_monad. cbn [tbl_business set_clock]. rewrite Hrow.
  unfold prisma.logForeignKeyHolds; cbn [log_userId].
  by rewrite bool_decide_true by apply userExists_scoredBusiness.
Qed.

Lemma evaluateRules_factors_foldl {E} (rules : list (ScoreRule E)) entity context
    total fs :
  (foldl (λ '(totalScore, factors) rule,
            let points := evaluate rule entity context in
            (totalScore + points,
             (factors ++ [ {| tf_name := rule_name rule;
                              tf_points := points;
                              tf_maxPoints := maxPoints rule;
                              achieved := 0 <? points;
                              tf_description := rule_description rule |} ])%list))
         (total, fs) rules).2
  = (fs ++ (factorOf entity context <$> rules))%list.
Proof.
  revert total fs.
  induction rules as [|rule rules IH]; intros total fs; cbn [foldl].
  - by rewrite app_nil_r.
  - rewrite IH, fmap_cons, <- app_assoc. done.
Qed.

Lemma evaluateRules_factors {E} (rules : list (ScoreRule E)) entity context :
  (evaluateRules rules entity context).2 = factorOf entity context <$> rules.
Proof. exact (evaluateRules_factors_foldl rules entity context _ []). Qed.

Lemma sumZ_factor_points {E} (rules : list (ScoreRule E)) entity context :
  sumZ (tf_points <$> (factorOf entity context <$> rules))
  = sumZ (rulePoints rules entity context).
Proof.
  unfold rulePoints. rewrite <- list_fmap_compose. done.
Qed.

End Results.

(** X2: the factor breakdown a calculation returns has one entry per
    rule of the table, in table order, carrying the rule's name,
    maximum and description and the points it awarded, with
    [achieved] set exactly when the points are positive; the returned
    score is the clamped sum of 50, the factors' points and the
    entity's negative ledger rows, and the returned tier is the tier
    of that score. *)
Theorem result_factors_account_for_score :
  (∀ st id row,
      tbl_cryptoProject st !! id = Some row →
      ∃ r st',
        calculateProjectScore id st = (Return r, st')
        ∧ factors r
          = factorOf row (projectContext (projectRelations st id row)) <$> cryptoRules
        ∧ Forall (λ f, achieved f = true ↔ 0 < tf_points f) (factors r)
        ∧ currentScore r
          = clampScore (50 + sumZ (tf_points <$> factors r)
                        + sumZ (points <$> projectPenalties st id))
        ∧ tier r = getTier (currentScore r))
  ∧ (∀ st id row,
      tbl_business st !! id = Some row →
      ∃ r st',
        calculateBusinessScore id st = (Return r, st')
        ∧ factors r
          = factorOf row (businessContext (businessRelations st id row)) <$> businessRules
        ∧ Forall (λ f, achieved f = true ↔ 0 < tf_points f) (factors r)
        ∧ currentScore r
          = clampScore (50 + sumZ (tf_points <$> factors r)
                        + sumZ (points <$> businessPenalties st id))
        ∧ tier r = getTier (currentScore r)).
Proof.
  split.
  - intros st id row Hrow.
    exists (projectResult st id row), (projectScored st id row).
    split; [by apply calculateProjectScore_run|].
    cbn [factors currentScore tier projectResult].
    rewrite evaluateRules_factors.
    split; [done|]. split.
    { apply Forall_fmap, Forall_forall. intros rule _; cbn. apply Z.ltb_lt. }
    split; [|done].
    by rewrite sumZ_factor_points, projectTotal_sum.
  - intros st id row Hrow.
    exists (businessResult st id row), (businessScored st id row).
    split; [by apply calculateBusinessScore_run|].
    cbn [factors currentScore tier businessResult].
    rewrite evaluateRules_factors.
    split; [done|]. split.
    { apply Forall_fmap, Forall_forall. intros rule _; cbn. apply Z.ltb_lt. }
    split; [|done].
    by rewrite sumZ_factor_points, businessTotal_sum.
Qed.

Lemma result_factors_account_for_score_witness :
  ∃ r st',
    calculateProjectScore "p0" store0 = (Return r, st')
    ∧ length (factors r) = 9%nat
    ∧ sumZ (tf_points <$> factors r) = 2.
Proof.
  destruct result_factors_account_for_score as (Hp & _).
  destruct (Hp store0 "p0" project_p0) as (r & st' & Hrun & Hf & _); [reflexivity|].
  exists r, st'. split; [exact Hrun|]. rewrite Hf. split; reflexivity.
Defined.

(** ** The history of a result *)

Section History.

Lemma insertDesc_perm e l : prisma.insertDesc e l ≡ₚ e :: l.
Proof.
  induction l as [|x l IH]; cbn [prisma.insertDesc]; [done|].
  destruct (createdAt x <=? createdAt e); [done|].
  rewrite IH. apply Permutation_swap.
Qed.

Lemma insertDesc_sorted e l :
  StronglySorted newerFirst l → StronglySorted newerFirst (prisma.insertDesc e l).
Proof.
  induction 1 as [|x l Hl IH Hx]; cbn [prisma.insertDesc].
  - repeat constructor.
  - destruct (Z.leb_spec (createdAt x) (createdAt e)).
    + constructor; [by constructor|].
      constructor; [unfold newerFirst; lia|].
      eapply Forall_impl; [exact Hx|]. unfold newerFirst. intros y ?. lia.
    + constructor; [done|].
      rewrite insertDesc_perm. constructor; [unfold newerFirst; lia | done].
Qed.

Lemma orderByCreatedAtDesc_perm l : prisma.orderByCreatedAtDesc l ≡ₚ l.
Proof.
  unfold prisma.orderByCreatedAtDesc.
  induction l as [|e l IH]; cbn [foldr]; [done|].
  by rewrite insertDesc_perm, IH.
Qed.

Lemma orderByCreatedAtDesc_sorted l :
  StronglySorted newerFirst (prisma.orderByCreatedAtDesc l).
Proof.
  unfold prisma.orderByCreatedAtDesc.
  induction l as [|e l IH]; cbn [foldr]; [constructor|].
  by apply insertDesc_sorted.
Qed.

Lemma history_shape total (events : list TrustScoreEvent) :
  ∃ newest,
    newest ≡ₚ events
    ∧ StronglySorted newerFirst newest
    ∧ historyItem total <$> take 10 (prisma.orderByCreatedAtDesc events)
      = historyItem total <$> take 10 newest
    ∧ length (historyItem total <$> take 10 (prisma.orderByCreatedAtDesc events))
      = (10 `min` length events)%nat
    ∧ Forall (λ h, score h = total)
        (historyItem total <$> take 10 (prisma.orderByCreatedAtDesc events)).
Proof.
  exists (prisma.orderByCreatedAtDesc events).
  split; [apply orderByCreatedAtDesc_perm|].
  split; [apply orderByCreatedAtDesc_sorted|].
  split; [done|]. split.
  - by rewrite length_fmap, length_take, (Permutation_length (orderByCreatedAtDesc_perm _)).
  - apply Forall_fmap, Forall_forall. by intros e _.
Qed.

End History.

(** X3: the history of a result is made of the entity's own ledger
    rows, newest first, cut after ten: it lists the first ten of a
    rearrangement of the entity's rows that is sorted by creation time
    in descending order, so it has min(10, number of rows) entries; and
    every entry carries the score just computed, not the score at the
    time of the row. *)
Theorem history_is_ten_newest_with_current_score :
  (∀ st id row,
      tbl_cryptoProject st !! id = Some row →
      ∃ r st' newest,
        calculateProjectScore id st = (Return r, st')
        ∧ newest ≡ₚ projectEvents st id
        ∧ StronglySorted newerFirst newest
        ∧ history r = historyItem (currentScore r) <$> take 10 newest
        ∧ length (history r) = (10 `min` length (projectEvents st id))%nat
        ∧ Forall (λ h, score h = currentScore r) (history r))
  ∧ (∀ st id row,
      tbl_business st !! id = Some row →
      ∃ r st' newest,
        calculateBusinessScore id st = (Return r, st')
        ∧ newest ≡ₚ businessEvents st id
        ∧ StronglySorted newerFirst newest
        ∧ history r = historyItem (currentScore r) <$> take 10 newest
        ∧ length (history r) = (10 `min` length (businessEvents st id))%nat
        ∧ Forall (λ h, score h = currentScore r) (history r)).
Proof.
  split.
  - intros st id row Hrow.
    destruct (history_shape (projectTotal st id row) (projectEvents st id))
      as (newest & Hperm & Hsorted & Hhist & Hlen & Hscore).
    exists (projectResult st id row), (projectScored st id row), newest.
    split; [by apply calculateProjectScore_run|]. by repeat split.
  - intros st id row Hrow.
    destruct (history_shape (businessTotal st id row) (businessEvents st id))
      as (newest & Hperm & Hsorted & Hhist & Hlen & Hscore).
    exists (businessResult st id row), (businessScored st id row), newest.
    split; [by apply calculateBusinessScore_run|]. by repeat split.
Qed.

Lemma history_is_ten_newest_with_current_score_witness :
  ∃ r st' newest,
    calculateProjectScore "p0" (withEvent manualBonus store0) = (Return r, st')
    ∧ newest ≡ₚ projectEvents (withEvent manualBonus store0) "p0"
    ∧ StronglySorted newerFirst newest
    ∧ history r = historyItem (currentScore r) <$> take 10 newest
    ∧ length (history r) = 1%nat
    ∧ Forall (λ h, score h = currentScore r) (history r).
Proof.
  destruct history_is_ten_newest_with_current_score as (Hp & _).
  apply (Hp (withEvent manualBonus store0) "p0" project_p0). reflexivity.
Defined.

(** ** Tiered rules *)

Lemma vestingPoints_value (p : CryptoProject.t) context :
  vestingPoints p context =
    match CryptoProject.teamVestingMonths p with
    | Some m => if 24 <=? m then 15 else if 12 <=? m then 10 else 0
    | None => 0
    end.
Proof.
  unfold vestingPoints; simpl.
  unfold atLeast, truthy, truthy_option, truthy, truthy_number.
  destruct (CryptoProject.teamVestingMonths p) as [m|]; [|done].
  destruct (Z.leb_spec 24 m), (Z.leb_spec 12 m), (Z.eqb_spec m 0); simpl;
    first [done | lia].
Qed.

(** X4: the two vesting rules pay in steps and never twice: below 12
    months (or with no vesting set) nothing, from 12 months the
    12-month bonus, from 24 months exactly the configured 24-month
    bonus (10 + 5 = 15, not 10 + 15); a longer vesting never earns
    less. *)
Theorem vesting_tiers_no_double_count :
  (∀ (p : CryptoProject.t) context m,
      CryptoProject.teamVestingMonths p = Some m →
      (24 ≤ m → vestingPoints p context = config.trustScore.crypto.vesting24Months)
      ∧ (12 ≤ m < 24 → vestingPoints p context = config.trustScore.crypto.vesting12Months)
      ∧ (m < 12 → vestingPoints p context = 0))
  ∧ (∀ (p : CryptoProject.t) context,
      CryptoProject.teamVestingMonths p = None → vestingPoints p context = 0)
  ∧ (∀ (p p' : CryptoProject.t) context context' m m',
      CryptoProject.teamVestingMonths p = Some m →
      CryptoProject.teamVestingMonths p' = Some m' →
      m ≤ m' →
      vestingPoints p context ≤ vestingPoints p' context').
Proof.
  split; [|split].
  - intros p context m Hm. rewrite vestingPoints_value, Hm.
    unfold config.trustScore.crypto.vesting24Months,
      config.trustScore.crypto.vesting12Months.
    destruct (Z.leb_spec 24 m), (Z.leb_spec 12 m); repeat split; intros; first [done | lia].
  - intros p context Hm. by rewrite vestingPoints_value, Hm.
  - intros p p' context context' m m' Hm Hm' Hle.
    rewrite !vestingPoints_value, Hm, Hm'.
    destruct (Z.leb_spec 24 m), (Z.leb_spec 12 m),
      (Z.leb_spec 24 m'), (Z.leb_spec 12 m'); lia.
Qed.

Lemma vesting_tiers_no_double_count_witness :
  vestingPoints
    (CryptoProject.mk "user-1" "Token" None None None None None None None None
       (Some 36) None None None false 50 None) emptyContext = 15.
Proof.
  destruct vesting_tiers_no_double_count as (H & _).
  eapply (H _ emptyContext 36); [reflexivity | lia].
Defined.

(** X5: the three KYB rules together award the configured value of the
    business's level: nothing for NONE, 10 for BASIC, 15 for STANDARD,
    20 for ENHANCED; the increments never add up to more. *)
Theorem kyb_tiers_no_double_count :
  ∀ (b : Business.t) context,
    kybPoints b context =
      match Business.kybLevel b with
      | KYB_NONE => 0
      | KYB_BASIC => config.trustScore.business.kybBasic
      | KYB_STANDARD => config.trustScore.business.kybStandard
      | KYB_ENHANCED => config.trustScore.business.kybEnhanced
      end.
Proof.
  intros b context. unfold kybPoints; cbn.
  by destruct (Business.kybLevel b).
Qed.

(** ** Tiers and scores *)

(** X6: the tier never gets worse when the score goes up. *)
Theorem tier_monotone :
  ∀ s1 s2 : Z, s1 ≤ s2 → tierRank (getTier s1) ≤ tierRank (getTier s2).
Proof.
  intros s1 s2 Hle.
  destruct (getTier_cases s1) as [[? ->]|[[? ->]|[[? ->]|[[? ->]|[? ->]]]]],
           (getTier_cases s2) as [[? ->]|[[? ->]|[[? ->]|[[? ->]|[? ->]]]]];
    cbn; lia.
Qed.

Lemma tier_monotone_witness : tierRank (getTier 49) ≤ tierRank (getTier 50).
Proof. apply (tier_monotone 49 50). lia. Defined.

Lemma sumZ_rulePoints_nonneg {E} (rules : list (ScoreRule E)) entity context :
  Forall (λ rule, 0 ≤ evaluate rule entity context ≤ maxPoints rule) rules →
  0 ≤ sumZ (rulePoints rules entity context).
Proof.
  unfold rulePoints, sumZ.
  induction 1 as [|rule rules [? _] _ IH]; cbn [fmap list_fmap foldr]; [done|].
  fold (list_fmap _ _ (λ rule, evaluate rule entity context) rules). lia.
Qed.

(** X7: an entity without a negative ledger row never scores below the
    base: its recomputed score lies between 50 and 100 and its tier is
    NEUTRAL or better, so CAUTION and HIGH_RISK are reached through
    penalties only. *)
Theorem no_penalty_no_low_tier :
  (∀ st id row,
      tbl_cryptoProject st !! id = Some row →
      projectPenalties st id = [] →
      ∃ r st',
        calculateProjectScore id st = (Return r, st')
        ∧ 50 ≤ currentScore r ≤ 100
        ∧ tierRank NEUTRAL ≤ tierRank (tier r))
  ∧ (∀ st id row,
      tbl_business st !! id = Some row →
      businessPenalties st id = [] →
      ∃ r st',
        calculateBusinessScore id st = (Return r, st')
        ∧ 50 ≤ currentScore r ≤ 100
        ∧ tierRank NEUTRAL ≤ tierRank (tier r)).
Proof.
  split.
  - intros st id row Hrow Hnone.
    exists (projectResult st id row), (projectScored st id row).
    split; [by apply calculateProjectScore_run|].
    cbn [currentScore tier projectResult].
    assert (50 ≤ projectTotal st id row ≤ 100) as Hbounds.
    { rewrite projectTotal_sum, Hnone.
      pose proof (sumZ_rulePoints_nonneg _ _ _
                    (cryptoRules_points row (projectContext (projectRelations st id row)))).
      unfold clampScore, config.trustScore.minScore, config.trustScore.maxScore,
        config.trustScore.baseScore, sumZ at 2; cbn [fmap list_fmap foldr]. lia. }
    split; [done|].
    destruct (getTier_cases (projectTotal st id row))
      as [[? ->]|[[? ->]|[[? ->]|[[? ->]|[? ->]]]]]; cbn; lia.
  - intros st id row Hrow Hnone.
    exists (businessResult st id row), (businessScored st id row).
    split; [by apply calculateBusinessScore_run|].
    cbn [currentScore tier businessResult].
    assert (50 ≤ businessTotal st id row ≤ 100) as Hbounds.
    { rewrite businessTotal_sum, Hnone.
      pose proof (sumZ_rulePoints_nonneg _ _ _
                    (businessRules_points row (businessContext (businessRelations st id row)))).
      unfold clampScore, config.trustScore.minScore, config.trustScore.maxScore,
        config.trustScore.baseScore, sumZ at 2; cbn [fmap list_fmap foldr]. lia. }
    split; [done|].
    destruct (getTier_cases (businessTotal st id row))
      as [[? ->]|[[? ->]|[[? ->]|[[? ->]|[? ->]]]]]; cbn; lia.
Qed.

Lemma no_penalty_no_low_tier_witness :
  ∃ r st',
    calculateBusinessScore "b0" store0 = (Return r, st')
    ∧ 50 ≤ currentScore r ≤ 100
    ∧ tierRank NEUTRAL ≤ tierRank (tier r).
Proof.
  destruct no_penalty_no_low_tier as (_ & Hb).
  apply (Hb store0 "b0" business_b0); reflexivity.
Defined.

(** ** What a recomputation reads *)

Section Reads.
Implicit Types (st : Store) (id : string).

Lemma projectTotal_reads st1 st2 id row :
  tbl_privateIdentityVerification st1 !! CryptoProject.userId row
  = tbl_privateIdentityVerification st2 !! CryptoProject.userId row →
  projectPenalties st1 id = projectPenalties st2 id →
  projectTotal st1 id row = projectTotal st2 id row.
Proof.
  intros Hid Hpen. rewrite !projectTotal_sum, Hpen.
  do 3 f_equal.
  unfold rulePoints, cryptoRules; cbn [fmap list_fmap].
  f_equal. cbn. unfold identityIsVerified; cbn. by rewrite Hid.
Qed.

Lemma businessTotal_reads st1 st2 id row :
  existsb (λ d, bool_decide (bd_type d = "financial"))
    (filter (λ d, bd_businessId d = id) (tbl_businessDocument st1))
  = existsb (λ d, bool_decide (bd_type d = "financial"))
      (filter (λ d, bd_businessId d = id) (tbl_businessDocument st2)) →
  existsb (λ d, bool_decide (bd_type d = "audit") && bd_isVerified d)
    (filter (λ d, bd_businessId d = id) (tbl_businessDocument st1))
  = existsb (λ d, bool_decide (bd_type d = "audit") && bd_isVerified d)
      (filter (λ d, bd_businessId d = id) (tbl_businessDocument st2)) →
  businessPenalties st1 id = businessPenalties st2 id →
  businessTotal st1 id row = businessTotal st2 id row.
Proof.
  intros Hfin Haud Hpen. rewrite !businessTotal_sum, Hpen.
  do 3 f_equal.
  unfold rulePoints, businessRules; cbn [fmap list_fmap].
  cbn. by rewrite Hfin, Haud.
Qed.

End Reads.

(** X8: the score of a project depends on the store only through the
    project's own attributes, the identity record of its owner and its
    negative ledger rows: documents, founders, positive ledger rows and
    everything about other entities are not read.  The score of a
    business depends only on its attributes, on whether it has a
    financial document and a verified audit document, and on its
    negative ledger rows: the owner's identity record is not read. *)
Theorem score_depends_only_on :
  (∀ st1 st2 id row1 row2,
      tbl_cryptoProject st1 !! id = Some row1 →
      tbl_cryptoProject st2 !! id = Some row2 →
      CryptoProject.setScore 0 0 row1 = CryptoProject.setScore 0 0 row2 →
      tbl_privateIdentityVerification st1 !! CryptoProject.userId row1
      = tbl_privateIdentityVerification st2 !! CryptoProject.userId row1 →
      projectPenalties st1 id = projectPenalties st2 id →
      currentScore <$> returned (calculateProjectScore id st1)
      = currentScore <$> returned (calculateProjectScore id st2))
  ∧ (∀ st1 st2 id row1 row2,
      tbl_business st1 !! id = Some row1 →
      tbl_business st2 !! id = Some row2 →
      Business.setScore 0 0 row1 = Business.setScore 0 0 row2 →
      existsb (λ d, bool_decide (bd_type d = "financial"))
        (filter (λ d, bd_businessId d = id) (tbl_businessDocument st1))
      = existsb (λ d, bool_decide (bd_type d = "financial"))
          (filter (λ d, bd_businessId d = id) (tbl_businessDocument st2)) →
      existsb (λ d, bool_decide (bd_type d = "audit") && bd_isVerified d)
        (filter (λ d, bd_businessId d = id) (tbl_businessDocument st1))
      = existsb (λ d, bool_decide (bd_type d = "audit") && bd_isVerified d)
          (filter (λ d, bd_businessId d = id) (tbl_businessDocument st2)) →
      businessPenalties st1 id = businessPenalties st2 id →
      currentScore <$> returned (calculateBusinessScore id st1)
      = currentScore <$> returned (calculateBusinessScore id st2)).
Proof.
  split.
  - intros st1 st2 id row1 row2 H1 H2 Hrows Hid Hpen.
    rewrite (calculateProjectScore_run st1 id row1 H1),
      (calculateProjectScore_run st2 id row2 H2).
    unfold returned; cbn [fst fmap option_fmap option_map currentScore projectResult].
    f_equal.
    rewrite <- (projectTotal_attributes st1), <- (projectTotal_attributes st2), <- Hrows.
    by apply projectTotal_reads.
  - intros st1 st2 id row1 row2 H1 H2 Hrows Hfin Haud Hpen.
    rewrite (calculateBusinessScore_run st1 id row1 H1),
      (calculateBusinessScore_run st2 id row2 H2).
    unfold returned; cbn [fst fmap option_fmap option_map currentScore businessResult].
    f_equal.
    rewrite <- (businessTotal_attributes st1), <- (businessTotal_attributes st2), <- Hrows.
    by apply businessTotal_reads.
Qed.

Lemma score_depends_only_on_witness :
  currentScore <$> returned (calculateProjectScore "p0" store0)
  = currentScore <$> returned (calculateProjectScore "p0" store0_documents)
  ∧ currentScore <$> returned (calculateBusinessScore "b0" store0)
    = currentScore <$> returned (calculateBusinessScore "b0" store0_verified).
Proof.
  destruct score_depends_only_on as (Hp & Hb).
  split.
  - apply (Hp store0 store0_documents "p0" project_p0 project_p0); reflexivity.
  - apply (Hb store0 store0_verified "b0" business_b0 business_b0); reflexivity.
Defined.

(** ** Recording an event, step by step *)

Section RecordEventSpec.
Implicit Types (st : Store) (id : string).

Lemma sumZ_app (l1 l2 : list Z) : sumZ (l1 ++ l2) = sumZ l1 + sumZ l2.
Proof.
  unfold sumZ. induction l1 as [|x l1 IH]; cbn [app foldr]; [lia|].
  rewrite IH. lia.
Qed.

Lemma newEvent_projectId st id ev pts why by_ meta :
  projectId (newEvent st id ET_project ev pts why by_ meta) = Some id
  ∧ businessId (newEvent st id ET_project ev pts why by_ meta) = None.
Proof.
  unfold newEvent; cbn [projectId businessId].
  destruct (decide (ET_project = ET_project)) as [_|?]; [|done].
  by destruct (decide (ET_project = ET_business)).
Qed.

Lemma newEvent_businessId st id ev pts why by_ meta :
  businessId (newEvent st id ET_business ev pts why by_ meta) = Some id
  ∧ projectId (newEvent st id ET_business ev pts why by_ meta) = None.
Proof.
  unfold newEvent; cbn [projectId businessId].
  destruct (decide (ET_business = ET_business)) as [_|?]; [|done].
  by destruct (decide (ET_business = ET_project)).
Qed.

Lemma projectRaw_created st id row e :
  projectId e = Some id →
  projectRaw (created e st) id row = projectRaw st id row + counted (points e).
Proof.
  intros He. unfold projectRaw. rewrite !applyPenalties_sum.
  change (projectRelations (created e st) id row) with (projectRelations st id row).
  match goal with
  | |- context [(evaluateRules ?a ?b ?c).1] => generalize (evaluateRules a b c).1
  end; intros z.
  unfold projectPenalties, created, withEvent;
    cbn [tbl_trustScoreEvent set_clock set_trustScoreEvent].
  rewrite filter_app, fmap_app, sumZ_app, filter_cons, filter_nil.
  unfold counted. destruct (Z.ltb_spec (points e) 0).
  - rewrite decide_True by done. unfold sumZ; cbn [fmap list_fmap foldr]. lia.
  - rewrite decide_False by (intros [_ ?]; lia).
    unfold sumZ; cbn [fmap list_fmap foldr]. lia.
Qed.

Lemma businessRaw_created st id row e :
  businessId e = Some id →
  businessRaw (created e st) id row = businessRaw st id row + counted (points e).
Proof.
  intros He. unfold businessRaw. rewrite !applyPenalties_sum.
  change (businessRelations (created e st) id row) with (businessRelations st id row).
  match goal with
  | |- context [(evaluateRules ?a ?b ?c).1] => generalize (evaluateRules a b c).1
  end; intros z.
  unfold businessPenalties, created, withEvent;
    cbn [tbl_trustScoreEvent set_clock set_trustScoreEvent].
  rewrite filter_app, fmap_app, sumZ_app, filter_cons, filter_nil.
  unfold counted. destruct (Z.ltb_spec (points e) 0).
  - rewrite decide_True by done. unfold sumZ; cbn [fmap list_fmap foldr]. lia.
  - rewrite decide_False by (intros [_ ?]; lia).
    unfold sumZ; cbn [fmap list_fmap foldr]. lia.
Qed.

Lemma projectRaw_scored st id row id' row' s t :
  projectRaw (projectScored st id' row') id (CryptoProject.setScore s t row)
  = projectRaw st id row.
Proof. reflexivity. Qed.

Lemma businessRaw_scored st id row id' row' s t :
  businessRaw (businessScored st id' row') id (Business.setScore s t row)
  = businessRaw st id row.
Proof. reflexivity. Qed.

Lemma rawScore_Some st ty id raw :
  rawScore st ty id = Some raw →
  match ty with
  | ET_project => ∃ row, tbl_cryptoProject st !! id = Some row ∧ raw = projectRaw st id row
  | ET_business => ∃ row, tbl_business st !! id = Some row ∧ raw = businessRaw st id row
  end.
Proof.
  destruct ty; cbn [rawScore]; intros H.
  - destruct (tbl_cryptoProject st !! id) as [row|]; [|done].
    exists row. split; [done|]. by injection H.
  - destruct (tbl_business st !! id) as [row|]; [|done].
    exists row. split; [done|]. by injection H.
Qed.

Lemma rawScore_None st ty id :
  rawScore st ty id = None →
  match ty with
  | ET_project => tbl_cryptoProject st !! id = None
  | ET_business => tbl_business st !! id = None
  end.
Proof.
  destruct ty; cbn [rawScore]; intros H.
  - by destruct (tbl_cryptoProject st !! id).
  - by destruct (tbl_business st !! id).
Qed.

Lemma recordEvent_spec st id ty ev pts why by_ meta raw :
  prisma.int32 pts = true →
  rawScore st ty id = Some raw →
  ∃ st' l,
    recordEvent id ty ev pts why by_ meta st = (Return tt, st')
    ∧ tbl_trustScoreEvent st'
      = (tbl_trustScoreEvent st ++ [newEvent st id ty ev pts why by_ meta])%list
    ∧ tbl_systemLog st' = (tbl_systemLog st ++ [l])%list
    ∧ isScoreCalculated l
    ∧ storedScore st' ty id = Some (clampScore (raw + counted pts))
    ∧ rawScore st' ty id = Some (raw + counted pts).
Proof.
  intros Hrange Hraw. apply rawScore_Some in Hraw.
  destruct ty; destruct Hraw as (row & Hrow & ->).
  - set (e := newEvent st id ET_project ev pts why by_ meta).
    destruct (newEvent_projectId st id ev pts why by_ meta) as [He _]. fold e in He.
    eexists (projectScored (created e st) id row), _.
    split; [by apply recordEvent_project|].
    split; [reflexivity|]. split; [reflexivity|]. split; [done|].
    cbn [storedScore rawScore]. unfold storedProjectScore, projectScored;
      cbn [tbl_cryptoProject].
    rewrite lookup_insert_eq; cbn [fmap option_fmap option_map CryptoProject.trustScore
                                   CryptoProject.setScore].
    split.
    + f_equal. unfold projectTotal. fold (projectRaw (created e st) id row).
      by rewrite projectRaw_created.
    + f_equal.
      etransitivity; [apply (projectRaw_scored (created e st) id row id row)|].
      by rewrite projectRaw_created.
  - set (e := newEvent st id ET_business ev pts why by_ meta).
    destruct (newEvent_businessId st id ev pts why by_ meta) as [He _]. fold e in He.
    eexists (businessScored (created e st) id row), _.
    split; [by apply recordEvent_business|].
    split; [reflexivity|]. split; [reflexivity|]. split; [done|].
    cbn [storedScore rawScore]. unfold storedBusinessScore, businessScored;
      cbn [tbl_business].
    rewrite lookup_insert_eq; cbn [fmap option_fmap option_map Business.trustScore
                                   Business.setScore].
    split.
    + f_equal. unfold businessTotal. fold (businessRaw (created e st) id row).
      by rewrite businessRaw_created.
    + f_equal.
      etransitivity; [apply (businessRaw_scored (created e st) id row id row)|].
      by rewrite businessRaw_created.
Qed.

Lemma recordEvent_missing st id ty ev pts why by_ meta :
  rawScore st ty id = None →
  ∃ e, recordEvent id ty ev pts why by_ meta st = (Throw e, st).
Proof.
  intros Hraw. apply rawScore_None in Hraw.
  destruct (recordEvent_cases id ty ev pts why by_ meta st)
    as [?|(st1 & Hrun & _)]; [done|].
  exfalso. revert Hrun.
  unfold recordEvent, bind, prisma.trustScoreEvent_create, prisma.foreignKeysHold.
  destruct (negb (prisma.int32 pts)); [done|].
  destruct ty.
  - destruct (decide (ET_project = ET_project)) as [_|?]; [|done].
    rewrite bool_decide_false; [done|]. rewrite Hraw. by intros [? ?].
  - destruct (decide (ET_business = ET_project)) as [?|_]; [done|].
    destruct (decide (ET_business = ET_business)) as [_|?]; [|done].
    rewrite bool_decide_false; [done|]. rewrite Hraw. by intros [? ?].
Qed.

End RecordEventSpec.

(** X9: [recordEvent] with integer points that fit the 32-bit [points]
    column, on an existing entity, returns after it appended exactly
    one ledger row (with the given kind, points, reason and trigger,
    stamped with the current time) and one SCORE_CALCULATED audit
    record, and the stored score is then the clamped old total plus the
    points if they are negative, plus nothing otherwise.  On an id that
    resolves to no entity it throws and the store is as before: the
    foreign key of the ledger stops the row.  With points outside the
    32-bit range it throws as well, whatever the entity, and the store
    is as before: the column refuses the row. *)
Theorem recordEvent_appends_and_rescores :
  (∀ st id ty ev pts why by_ meta raw,
      -2147483648 ≤ pts ≤ 2147483647 →
      rawScore st ty id = Some raw →
      ∃ st' e l,
        recordEvent id ty ev pts why by_ meta st = (Return tt, st')
        ∧ tbl_trustScoreEvent st' = (tbl_trustScoreEvent st ++ [e])%list
        ∧ eventType e = ev ∧ points e = pts ∧ reason e = why
        ∧ triggeredBy e = by_ ∧ metadata e = meta ∧ createdAt e = clock st
        ∧ (match ty with
           | ET_project => projectId e = Some id ∧ businessId e = None
           | ET_business => businessId e = Some id ∧ projectId e = None
           end)
        ∧ tbl_systemLog st' = (tbl_systemLog st ++ [l])%list
        ∧ isScoreCalculated l
        ∧ storedScore st' ty id = Some (clampScore (raw + counted pts))
        ∧ rawScore st' ty id = Some (raw + counted pts))
  ∧ (∀ st id ty ev pts why by_ meta,
      rawScore st ty id = None →
      ∃ e, recordEvent id ty ev pts why by_ meta st = (Throw e, st))
  ∧ (∀ st id ty ev pts why by_ meta,
      ¬ -2147483648 ≤ pts ≤ 2147483647 →
      ∃ e, recordEvent id ty ev pts why by_ meta st = (Throw e, st)).
Proof.
  split; [|split; [apply recordEvent_missing|]]; cycle 1.
  { intros st id ty ev pts why by_ meta Hrange. eexists.
    by apply recordEvent_out_of_range, int32_outside. }
  intros st id ty ev pts why by_ meta raw Hrange%int32_spec Hraw.
  destruct (recordEvent_spec st id ty ev pts why by_ meta raw Hrange Hraw)
    as (st' & l & Hrun & Hev & Hlog & Hl & Hstored & Hraw').
  exists st', (newEvent st id ty ev pts why by_ meta), l.
  do 8 (split; [done|]).
  split; [|done].
  destruct ty; [apply newEvent_projectId | apply newEvent_businessId].
Qed.

Lemma recordEvent_appends_and_rescores_witness :
  (∃ st' e l,
      recordEvent "b0" ET_business PENALTY_APPLIED (-15) "late" (Some "system") None store0
      = (Return tt, st')
      ∧ tbl_trustScoreEvent st' = (tbl_trustScoreEvent store0 ++ [e])%list
      ∧ tbl_systemLog st' = (tbl_systemLog store0 ++ [l])%list
      ∧ storedScore st' ET_business "b0" = Some 36)
  ∧ (∃ e, recordEvent "nope" ET_project BONUS_APPLIED 5 "gift" None None store0
          = (Throw e, store0))
  ∧ ∃ e, recordEvent "p0" ET_project BONUS_APPLIED 3000000000 "gift" None None store0
         = (Throw e, store0).
Proof.
  destruct recordEvent_appends_and_rescores as (Hok & Hmiss & Hrange).
  split; [|split].
  - destruct (Hok store0 "b0" ET_business PENALTY_APPLIED (-15) "late" (Some "system")
                None 51) as (st' & e & l & Hrun & Hev & _ & _ & _ & _ & _ & _ & _
                             & Hlog & _ & Hstored & _); [lia|reflexivity|].
    exists st', e, l. by repeat split.
  - apply (Hmiss store0 "nope" ET_project BONUS_APPLIED 5 "gift" None None). reflexivity.
  - apply (Hrange store0 "p0" ET_project BONUS_APPLIED 3000000000 "gift" None None). lia.
Defined.

(** X10: the two penalty helpers record one PENALTY_APPLIED row of -15
    points, triggered by "system" (missed report) resp. "governance"
    (community report), and the stored score drops to the old total
    minus 15, clamped; penalties accumulate: after two missed reports
    it is the old total minus 30, clamped.  A penalty never raises the
    score. *)
Theorem penalties_lower_the_score :
  (∀ st id period raw,
      rawScore st ET_business id = Some raw →
      ∃ st' e,
        applyMissedReportPenalty id period st = (Return tt, st')
        ∧ tbl_trustScoreEvent st' = (tbl_trustScoreEvent st ++ [e])%list
        ∧ eventType e = PENALTY_APPLIED ∧ points e = -15
        ∧ triggeredBy e = Some "system"
        ∧ storedScore st' ET_business id = Some (clampScore (raw - 15))
        ∧ clampScore (raw - 15) ≤ clampScore raw)
  ∧ (∀ st id ty why raw,
      rawScore st ty id = Some raw →
      ∃ st' e,
        applyCommunityReportPenalty id ty why st = (Return tt, st')
        ∧ tbl_trustScoreEvent st' = (tbl_trustScoreEvent st ++ [e])%list
        ∧ eventType e = PENALTY_APPLIED ∧ points e = -15
        ∧ triggeredBy e = Some "governance"
        ∧ storedScore st' ty id = Some (clampScore (raw - 15))
        ∧ clampScore (raw - 15) ≤ clampScore raw)
  ∧ (∀ st id period1 period2 raw,
      rawScore st ET_business id = Some raw →
      ∃ st',
        (applyMissedReportPenalty id period1 ;;;
         applyMissedReportPenalty id period2) st = (Return tt, st')
        ∧ length (tbl_trustScoreEvent st') = (length (tbl_trustScoreEvent st) + 2)%nat
        ∧ storedScore st' ET_business id = Some (clampScore (raw - 30))).
Proof.
  assert (Hmono : ∀ raw, clampScore (raw - 15) ≤ clampScore raw).
  { intros raw. unfold clampScore, config.trustScore.minScore,
      config.trustScore.maxScore. lia. }
  split; [|split].
  - intros st id period raw Hraw. unfold applyMissedReportPenalty.
    destruct (recordEvent_spec st id ET_business PENALTY_APPLIED
                config.trustScore.penalties.missedReport
                ("Missed revenue report for " +:+ period) (Some "system") None raw eq_refl Hraw)
      as (st' & l & Hrun & Hev & _ & _ & Hstored & _).
    eexists st', _. by repeat split.
  - intros st id ty why raw Hraw. unfold applyCommunityReportPenalty.
    destruct (recordEvent_spec st id ty PENALTY_APPLIED
                config.trustScore.penalties.communityReport
                ("Community report verified: " +:+ why) (Some "governance") None raw eq_refl Hraw)
      as (st' & l & Hrun & Hev & _ & _ & Hstored & _).
    eexists st', _. by repeat split.
  - intros st id period1 period2 raw Hraw. unfold applyMissedReportPenalty, bind.
    destruct (recordEvent_spec st id ET_business PENALTY_APPLIED
                config.trustScore.penalties.missedReport
                ("Missed revenue report for " +:+ period1) (Some "system") None raw eq_refl Hraw)
      as (st1 & l1 & -> & Hev1 & _ & _ & _ & Hraw1).
    destruct (recordEvent_spec st1 id ET_business PENALTY_APPLIED
                config.trustScore.penalties.missedReport
                ("Missed revenue report for " +:+ period2) (Some "system") None _ eq_refl Hraw1)
      as (st2 & l2 & -> & Hev2 & _ & _ & Hstored2 & _).
    exists st2. split; [done|]. split.
    + rewrite Hev2, Hev1, !length_app; cbn [length]. lia.
    + rewrite Hstored2. f_equal. f_equal.
      change (counted config.trustScore.penalties.missedReport) with (-15). lia.
Qed.

Lemma penalties_lower_the_score_witness :
  ∃ st',
    (applyMissedReportPenalty "b0" "2025-Q1" ;;;
     applyMissedReportPenalty "b0" "2025-Q2") store0 = (Return tt, st')
    ∧ length (tbl_trustScoreEvent st') = (length (tbl_trustScoreEvent store0) + 2)%nat
    ∧ storedScore st' ET_business "b0" = Some 21.
Proof.
  destruct penalties_lower_the_score as (_ & _ & H2).
  apply (H2 store0 "b0" "2025-Q1" "2025-Q2" 51). reflexivity.
Defined.

(** ** Manual adjustments *)

Section AdminAdjust.
Implicit Types (st : Store) (id : string).

Lemma calculate_spec st ty id raw :
  rawScore st ty id = Some raw →
  ∃ r st' l,
    (match ty with
     | ET_project => calculateProjectScore id
     | ET_business => calculateBusinessScore id
     end) st = (Return r, st')
    ∧ currentScore r = clampScore raw
    ∧ tbl_trustScoreEvent st' = tbl_trustScoreEvent st
    ∧ tbl_systemLog st' = (tbl_systemLog st ++ [l])%list
    ∧ isScoreCalculated l
    ∧ storedScore st' ty id = Some (clampScore raw)
    ∧ rawScore st' ty id = Some raw.
Proof.
  intros Hraw. apply rawScore_Some in Hraw.
  destruct ty; destruct Hraw as (row & Hrow & ->).
  - eexists (projectResult st id row), (projectScored st id row), _.
    split; [by apply calculateProjectScore_run|].
    split; [done|]. split; [done|]. split; [reflexivity|]. split; [done|].
    cbn [storedScore rawScore]. unfold storedProjectScore, projectScored;
      cbn [tbl_cryptoProject].
    by rewrite lookup_insert_eq.
  - eexists (businessResult st id row), (businessScored st id row), _.
    split; [by apply calculateBusinessScore_run|].
    split; [done|]. split; [done|]. split; [reflexivity|]. split; [done|].
    cbn [storedScore rawScore]. unfold storedBusinessScore, businessScored;
      cbn [tbl_business].
    by rewrite lookup_insert_eq.
Qed.

Lemma counted_nonneg pts : 0 ≤ pts → counted pts = 0.
Proof. unfold counted. destruct (Z.ltb_spec pts 0); [lia | done]. Qed.

End AdminAdjust.

Lemma map_Exists_overwrite {A} (P : string → A → Prop) (m : gmap string A) i x y :
  m !! i = Some x → (P i y ↔ P i x) →
  map_Exists P (<[i := y]> m) ↔ map_Exists P m.
Proof.
  intros Hi Hxy. split.
  - intros (k & z & Hk & Hz). destruct (decide (k = i)) as [->|Hne].
    + rewrite lookup_insert_eq in Hk. apply (inj Some) in Hk as <-.
      exists i, x. split; [done|]. by apply Hxy.
    + rewrite lookup_insert_ne in Hk by done. by exists k, z.
  - intros (k & z & Hk & Hz). destruct (decide (k = i)) as [->|Hne].
    + rewrite Hi in Hk. apply (inj Some) in Hk as <-.
      exists i, y. split; [apply lookup_insert_eq|]. by apply Hxy.
    + exists k, z. split; [|done]. by rewrite lookup_insert_ne.
Qed.

(** A calculation writes the score columns of a row and nothing of its
    owner: the User rows are the same afterwards. *)
Lemma userExists_projectScored st id row u :
  tbl_cryptoProject st !! id = Some row →
  userExists (projectScored st id row) u ↔ userExists st u.
Proof.
  intros Hrow. unfold userExists, projectScored;
    cbn [tbl_user tbl_cryptoProject tbl_business tbl_privateIdentityVerification].
  by rewrite (map_Exists_overwrite _ _ _ row).
Qed.

Lemma userExists_businessScored st id row u :
  tbl_business st !! id = Some row →
  userExists (businessScored st id row) u ↔ userExists st u.
Proof.
  intros Hrow. unfold userExists, businessScored;
    cbn [tbl_user tbl_cryptoProject tbl_business tbl_privateIdentityVerification].
  by rewrite (map_Exists_overwrite _ _ _ row).
Qed.

Lemma recordEvent_users st id ty ev pts why by_ meta u :
  userExists (recordEvent id ty ev pts why by_ meta st).2 u ↔ userExists st u.
Proof.
  destruct (prisma.int32 pts) eqn:Hrange;
    [|by rewrite recordEvent_out_of_range].
  destruct (rawScore st ty id) as [raw|] eqn:Hraw.
  - apply rawScore_Some in Hraw.
    destruct ty; destruct Hraw as (row & Hrow & _).
    + rewrite (recordEvent_project _ _ row) by done. cbn [snd].
      by rewrite userExists_projectScored.
    + rewrite (recordEvent_business _ _ row) by done. cbn [snd].
      by rewrite userExists_businessScored.
  - by destruct (recordEvent_missing st id ty ev pts why by_ meta Hraw) as [e ->].
Qed.

Lemma adminAdjust_found :
  ∀ st adjustment adminId raw,
      prisma.int32 (adj_points adjustment) = true →
      rawScore st (adj_entityType adjustment) (adj_entityId adjustment) = Some raw →
      ∃ r st' l1 admin l3,
        adminAdjust adjustment adminId st = (Return r, st')
        ∧ currentScore r = clampScore (raw + counted (adj_points adjustment))
        ∧ storedScore st' (adj_entityType adjustment) (adj_entityId adjustment)
          = Some (currentScore r)
        ∧ tbl_trustScoreEvent st'
          = (tbl_trustScoreEvent st
               ++ [newEvent st (adj_entityId adjustment) (adj_entityType adjustment)
                     MANUAL_ADJUSTMENT (adj_points adjustment) (adj_reason adjustment)
                     (Some adminId) (Some [("adminAdjustment", true)])])%list
        ∧ tbl_systemLog st' = (tbl_systemLog st ++ l1 :: admin ++ [l3])%list
        ∧ isScoreCalculated l1
        ∧ (userExists st adminId →
           ∃ l2, admin = [l2] ∧ level l2 = AUDIT ∧ action l2 = "ADMIN_ADJUSTMENT"
                 ∧ log_userId l2 = Some adminId)
        ∧ (¬ userExists st adminId → admin = [])
        ∧ isScoreCalculated l3.
Proof.
  intros st adjustment adminId raw Hrange Hraw. unfold adminAdjust.
  pose proof (recordEvent_users st (adj_entityId adjustment) (adj_entityType adjustment)
                MANUAL_ADJUSTMENT (adj_points adjustment) (adj_reason adjustment)
                (Some adminId) (Some [("adminAdjustment", true)]) adminId) as Husers.
  destruct (recordEvent_spec st _ _ MANUAL_ADJUSTMENT (adj_points adjustment)
              (adj_reason adjustment) (Some adminId)
              (Some [("adminAdjustment", true)]) raw Hrange Hraw)
    as (st1 & l1 & Hrun1 & Hev1 & Hlog1 & Hl1 & _ & Hraw1).
  rewrite Hrun1 in Husers; cbn [snd] in Husers.
  unfold bind at 1. rewrite Hrun1. unfold bind at 1.
  unfold logger.audit, logger.log, tryCatch, prisma.systemLog_create.
  match goal with
  | |- context [prisma.logForeignKeyHolds st1 ?l] => set (l2 := l)
  end.
  unfold prisma.logForeignKeyHolds; cbn [log_userId l2].
  destruct (decide (userExists st adminId)) as [Hu|Hu].
  - rewrite bool_decide_true by (by apply Husers).
    set (st2 := set_systemLog _ st1).
    assert (Hraw2 : rawScore st2 (adj_entityType adjustment) (adj_entityId adjustment)
                    = Some (raw + counted (adj_points adjustment))) by exact Hraw1.
    destruct (calculate_spec st2 _ _ _ Hraw2)
      as (r & st3 & l3 & Hrun3 & Hscore & Hev3 & Hlog3 & Hl3 & Hstored & _).
    exists r, st3, l1, [l2], l3.
    split; [exact Hrun3|]. split; [done|]. split; [by rewrite Hscore|].
    split; [by rewrite Hev3|].
    split.
    { rewrite Hlog3. unfold st2; cbn [tbl_systemLog set_systemLog].
      by rewrite Hlog1, <- !app_assoc. }
    split; [done|]. split; [by exists l2|]. split; [done|]. done.
  - rewrite bool_decide_false by (by rewrite Husers).
    unfold ret at 1.
    destruct (calculate_spec st1 _ _ _ Hraw1)
      as (r & st3 & l3 & Hrun3 & Hscore & Hev3 & Hlog3 & Hl3 & Hstored & _).
    exists r, st3, l1, [], l3.
    split; [exact Hrun3|]. split; [done|]. split; [by rewrite Hscore|].
    split; [by rewrite Hev3, Hev1|].
    split; [by rewrite Hlog3, Hlog1, <- !app_assoc|].
    split; [done|]. split; [done|]. split; [done|]. done.
Qed.

Lemma adminAdjust_out_of_range :
  ∀ st adjustment adminId,
      prisma.int32 (adj_points adjustment) = false →
      ∃ e, adminAdjust adjustment adminId st = (Throw e, st).
Proof.
  intros st adjustment adminId Hrange. unfold adminAdjust, bind.
  rewrite recordEvent_out_of_range by done. by eexists.
Qed.

Lemma adminAdjust_missing :
  ∀ st adjustment adminId,
      rawScore st (adj_entityType adjustment) (adj_entityId adjustment) = None →
      ∃ e, adminAdjust adjustment adminId st = (Throw e, st).
Proof.
  intros st adjustment adminId Hraw. unfold adminAdjust, bind.
  destruct (recordEvent_missing st _ _ MANUAL_ADJUSTMENT (adj_points adjustment)
              (adj_reason adjustment) (Some adminId)
              (Some [("adminAdjustment", true)]) Hraw) as [e ->].
  by exists e.
Qed.

(** X11: [adminAdjust] with integer points that fit the 32-bit
    [points] column, on an existing entity, recomputes twice: it
    appends one MANUAL_ADJUSTMENT ledger row with the admin as trigger,
    and returns and stores the clamped old total plus the points if
    they are negative.  An adjustment of zero or more points returns
    the very score a plain recomputation would have returned: it is
    recorded but never counted.  The audit log grows by the two
    SCORE_CALCULATED records of the recomputations and, between them,
    by the ADMIN_ADJUSTMENT record if the admin id is a User row; if it
    is not, the log's foreign key refuses that record, [logger.log]
    swallows the failure and the adjustment goes through with two
    records.  On an id that resolves to no entity, and with points
    outside the 32-bit range, it throws with the store as before. *)
Theorem adminAdjust_counts_negative_points_only :
  (∀ st adjustment adminId raw,
      -2147483648 ≤ adj_points adjustment ≤ 2147483647 →
      rawScore st (adj_entityType adjustment) (adj_entityId adjustment) = Some raw →
      ∃ r st' e l1 admin l3,
        adminAdjust adjustment adminId st = (Return r, st')
        ∧ currentScore r = clampScore (raw + counted (adj_points adjustment))
        ∧ storedScore st' (adj_entityType adjustment) (adj_entityId adjustment)
          = Some (currentScore r)
        ∧ (0 ≤ adj_points adjustment → currentScore r = clampScore raw)
        ∧ tbl_trustScoreEvent st' = (tbl_trustScoreEvent st ++ [e])%list
        ∧ eventType e = MANUAL_ADJUSTMENT
        ∧ points e = adj_points adjustment
        ∧ reason e = adj_reason adjustment
        ∧ triggeredBy e = Some adminId
        ∧ tbl_systemLog st' = (tbl_systemLog st ++ l1 :: admin ++ [l3])%list
        ∧ isScoreCalculated l1
        ∧ (userExists st adminId →
           ∃ l2, admin = [l2] ∧ level l2 = AUDIT ∧ action l2 = "ADMIN_ADJUSTMENT"
                 ∧ log_userId l2 = Some adminId)
        ∧ (¬ userExists st adminId → admin = [])
        ∧ isScoreCalculated l3)
  ∧ (∀ st adjustment adminId,
      rawScore st (adj_entityType adjustment) (adj_entityId adjustment) = None →
      ∃ e, adminAdjust adjustment adminId st = (Throw e, st))
  ∧ (∀ st adjustment adminId,
      ¬ -2147483648 ≤ adj_points adjustment ≤ 2147483647 →
      ∃ e, adminAdjust adjustment adminId st = (Throw e, st)).
Proof.
  split; [|split; [apply adminAdjust_missing|]]; cycle 1.
  { intros st adjustment adminId Hrange.
    by apply adminAdjust_out_of_range, int32_outside. }
  intros st adjustment adminId raw Hrange%int32_spec Hraw.
  destruct (adminAdjust_found st adjustment adminId raw Hrange Hraw)
    as (r & st' & l1 & admin & l3 & Hrun & Hscore & Hstored & Hev & Hlog & Hl1
        & Hyes & Hno & Hl3).
  exists r, st', (newEvent st (adj_entityId adjustment) (adj_entityType adjustment)
                    MANUAL_ADJUSTMENT (adj_points adjustment) (adj_reason adjustment)
                    (Some adminId) (Some [("adminAdjustment", true)])), l1, admin, l3.
  split; [exact Hrun|]. split; [exact Hscore|]. split; [exact Hstored|].
  split.
  { intros Hpos. by rewrite Hscore, counted_nonneg, Z.add_0_r. }
  do 5 (split; [done|]). done.
Qed.

Lemma adminAdjust_counts_negative_points_only_witness :
  (∃ r st',
      adminAdjust {| adj_entityId := "p0"; adj_entityType := ET_project;
                     adj_points := 25; adj_reason := "goodwill" |} "admin-1" store0
      = (Return r, st')
      ∧ currentScore r = 52
      ∧ length (tbl_trustScoreEvent st') = 1%nat
      ∧ length (tbl_systemLog st') = 3%nat)
  ∧ (∃ r st',
      adminAdjust {| adj_entityId := "p0"; adj_entityType := ET_project;
                     adj_points := -5; adj_reason := "test" |} "nobody" store0
      = (Return r, st')
      ∧ currentScore r = 47
      ∧ length (tbl_systemLog st') = 2%nat)
  ∧ (∃ e,
      adminAdjust {| adj_entityId := "nope"; adj_entityType := ET_business;
                     adj_points := -5; adj_reason := "test" |} "admin-1" store0
      = (Throw e, store0))
  ∧ ∃ e,
      adminAdjust {| adj_entityId := "p0"; adj_entityType := ET_project;
                     adj_points := -2147483649; adj_reason := "test" |} "admin-1" store0
      = (Throw e, store0).
Proof.
  destruct adminAdjust_counts_negative_points_only as (Hok & Hmiss & Hrange).
  split; [|split; [|split]].
  - destruct (Hok store0 {| adj_entityId := "p0"; adj_entityType := ET_project;
                            adj_points := 25; adj_reason := "goodwill" |} "admin-1" 52)
      as (r & st' & e & l1 & admin & l3 & Hrun & Hscore & _ & _ & Hev & _ & _ & _ & _
          & Hlog & _ & Hyes & _); [cbn; lia|reflexivity|].
    destruct Hyes as (l2 & -> & _); [left; by vm_compute|].
    exists r, st'. split; [exact Hrun|]. split; [by rewrite Hscore|].
    rewrite Hev, Hlog, !length_app. split; reflexivity.
  - destruct (Hok store0 {| adj_entityId := "p0"; adj_entityType := ET_project;
                            adj_points := -5; adj_reason := "test" |} "nobody" 52)
      as (r & st' & e & l1 & admin & l3 & Hrun & Hscore & _ & _ & _ & _ & _ & _ & _
          & Hlog & _ & _ & Hno & _); [cbn; lia|reflexivity|].
    rewrite Hno in Hlog by (apply (bool_decide_unpack _); by vm_compute).
    exists r, st'. split; [exact Hrun|]. split; [by rewrite Hscore|].
    rewrite Hlog, !length_app. reflexivity.
  - apply (Hmiss store0 {| adj_entityId := "nope"; adj_entityType := ET_business;
                           adj_points := -5; adj_reason := "test" |} "admin-1").
    reflexivity.
  - apply (Hrange store0 {| adj_entityId := "p0"; adj_entityType := ET_project;
                            adj_points := -2147483649; adj_reason := "test" |} "admin-1").
    cbn. lia.
Defined.

(** ** Triggers *)

(** X12: the points a trigger writes into the ledger are the points
    the rule table awards for the same attribute value: for a project
    whose lock (vesting) duration is the [months] passed and at least
    6 (12), [onLiquidityLocked] ([onVestingConfigured]) records what the
    liquidity (vesting) rules award; for a business whose KYB level is
    the level passed and not NONE, [onKYBVerified] records what the KYB
    rules award.  In each case one ledger row is appended and the
    stored score becomes the recomputed total, to which the row itself
    adds nothing. *)
Theorem triggers_record_what_rules_award :
  (∀ st id row months context,
      tbl_cryptoProject st !! id = Some row →
      CryptoProject.liquidityLockMonths row = Some months →
      6 ≤ months →
      ∃ st' e,
        onLiquidityLocked id months st = (Return tt, st')
        ∧ tbl_trustScoreEvent st' = (tbl_trustScoreEvent st ++ [e])%list
        ∧ eventType e = LIQUIDITY_LOCKED
        ∧ points e = liquidityPoints row context
        ∧ storedProjectScore st' id = Some (projectTotal st id row))
  ∧ (∀ st id row months context,
      tbl_cryptoProject st !! id = Some row →
      CryptoProject.teamVestingMonths row = Some months →
      12 ≤ months →
      ∃ st' e,
        onVestingConfigured id months st = (Return tt, st')
        ∧ tbl_trustScoreEvent st' = (tbl_trustScoreEvent st ++ [e])%list
        ∧ eventType e = VESTING_CONFIGURED
        ∧ points e = vestingPoints row context
        ∧ storedProjectScore st' id = Some (projectTotal st id row))
  ∧ (∀ st id row context,
      tbl_business st !! id = Some row →
      Business.kybLevel row ≠ KYB_NONE →
      ∃ st' e,
        onKYBVerified id (kybLevelName (Business.kybLevel row)) st = (Return tt, st')
        ∧ tbl_trustScoreEvent st' = (tbl_trustScoreEvent st ++ [e])%list
        ∧ eventType e = KYB_VERIFIED
        ∧ points e = kybPoints row context
        ∧ storedBusinessScore st' id = Some (businessTotal st id row)).
Proof.
  split; [|split].
  - intros st id row months context Hrow Hm Hge.
    assert (Hraw : rawScore st ET_project id = Some (projectRaw st id row))
      by (cbn [rawScore]; by rewrite Hrow).
    unfold onLiquidityLocked.
    set (pts := if 12 <=? months then _ else _).
    assert (Hpts : pts = liquidityPoints row context ∧ 0 < pts).
    { rewrite liquidityPoints_value, Hm. unfold pts.
      destruct (Z.leb_spec 12 months), (Z.leb_spec 6 months);
        first [lia | by vm_compute]. }
    destruct Hpts as [Hpts Hpos].
    assert (Hrange : prisma.int32 pts = true)
      by (unfold pts; repeat case_match; reflexivity).
    rewrite (proj2 (Z.ltb_lt 0 pts) Hpos).
    destruct (recordEvent_spec st id ET_project LIQUIDITY_LOCKED pts
                ("Liquidity locked for " +:+ pretty months +:+ " months")
                (Some "system") None _ Hrange Hraw)
      as (st' & l & Hrun & Hev & _ & _ & Hstored & _).
    eexists st', _. split; [exact Hrun|]. split; [exact Hev|].
    split; [done|]. split; [done|].
    cbn [storedScore] in Hstored. rewrite Hstored, counted_nonneg by lia.
    by rewrite Z.add_0_r.
  - intros st id row months context Hrow Hm Hge.
    assert (Hraw : rawScore st ET_project id = Some (projectRaw st id row))
      by (cbn [rawScore]; by rewrite Hrow).
    unfold onVestingConfigured.
    set (pts := if 24 <=? months then _ else _).
    assert (Hpts : pts = vestingPoints row context ∧ 0 < pts).
    { rewrite vestingPoints_value, Hm. unfold pts.
      destruct (Z.leb_spec 24 months), (Z.leb_spec 12 months);
        first [lia | by vm_compute]. }
    destruct Hpts as [Hpts Hpos].
    assert (Hrange : prisma.int32 pts = true)
      by (unfold pts; repeat case_match; reflexivity).
    rewrite (proj2 (Z.ltb_lt 0 pts) Hpos).
    destruct (recordEvent_spec st id ET_project VESTING_CONFIGURED pts
                ("Team vesting configured for " +:+ pretty months +:+ " months")
                (Some "system") None _ Hrange Hraw)
      as (st' & l & Hrun & Hev & _ & _ & Hstored & _).
    eexists st', _. split; [exact Hrun|]. split; [exact Hev|].
    split; [done|]. split; [done|].
    cbn [storedScore] in Hstored. rewrite Hstored, counted_nonneg by lia.
    by rewrite Z.add_0_r.
  - intros st id row context Hrow Hlvl.
    assert (Hraw : rawScore st ET_business id = Some (businessRaw st id row))
      by (cbn [rawScore]; by rewrite Hrow).
    unfold onKYBVerified.
    set (pts := if decide (_ = "ENHANCED") then _ else _).
    assert (Hpts : pts = kybPoints row context ∧ 0 < pts).
    { unfold pts, kybPoints; cbn.
      destruct (Business.kybLevel row); [done| | |]; by vm_compute. }
    destruct Hpts as [Hpts Hpos].
    assert (Hrange : prisma.int32 pts = true)
      by (unfold pts; repeat case_match; reflexivity).
    rewrite (proj2 (Z.ltb_lt 0 pts) Hpos).
    destruct (recordEvent_spec st id ET_business KYB_VERIFIED pts
                ("KYB " +:+ kybLevelName (Business.kybLevel row)
                   +:+ " verification completed")
                (Some "system") None _ Hrange Hraw)
      as (st' & l & Hrun & Hev & _ & _ & Hstored & _).
    eexists st', _. split; [exact Hrun|]. split; [exact Hev|].
    split; [done|]. split; [done|].
    cbn [storedScore] in Hstored. rewrite Hstored, counted_nonneg by lia.
    by rewrite Z.add_0_r.
Qed.

Lemma triggers_record_what_rules_award_witness :
  ∃ st' e,
    onLiquidityLocked "p0" 12 store_locked = (Return tt, st')
    ∧ tbl_trustScoreEvent st' = (tbl_trustScoreEvent store_locked ++ [e])%list
    ∧ eventType e = LIQUIDITY_LOCKED
    ∧ points e = 20
    ∧ storedProjectScore st' "p0" = Some 72.
Proof.
  destruct triggers_record_what_rules_award as (Hliq & _).
  apply (Hliq store_locked "p0" (sampleProject (Some 12)) 12 emptyContext);
    [reflexivity | reflexivity | lia].
Defined.

(** ** The scores after a fan-out *)

Section FanOutScores.
Implicit Types (st : Store) (id : string).

Lemma sameReads_refl st : sameReads st st.
Proof. by split. Qed.

Lemma sameReads_projectTotal st0 st id row :
  sameReads st0 st → projectTotal st id row = projectTotal st0 id row.
Proof.
  intros [Hi _ Hp _]. apply projectTotal_reads; [by rewrite Hi | apply Hp].
Qed.

Lemma sameReads_businessTotal st0 st id row :
  sameReads st0 st → businessTotal st id row = businessTotal st0 id row.
Proof.
  intros [_ Hd _ Hb]. apply businessTotal_reads; [by rewrite Hd | by rewrite Hd | apply Hb].
Qed.

Lemma sameReads_created st0 st e :
  0 ≤ points e → sameReads st0 st → sameReads st0 (created e st).
Proof.
  intros Hpos [Hi Hd Hp Hb]. split; [done | done | |].
  - intros id. rewrite <- Hp. apply (projectPenalties_withEvent st id e Hpos).
  - intros id. rewrite <- Hb. apply (businessPenalties_withEvent st id e Hpos).
Qed.

Lemma sameReads_projectScored st0 st id row :
  sameReads st0 st → sameReads st0 (projectScored st id row).
Proof. by intros [Hi Hd Hp Hb]. Qed.

Lemma sameReads_businessScored st0 st id row :
  sameReads st0 st → sameReads st0 (businessScored st id row).
Proof. by intros [Hi Hd Hp Hb]. Qed.

Lemma fanout_projects_scores (ps : list (string * CryptoProject.t)) st0 st :
  sameReads st0 st →
  NoDup ps.*1 →
  (∀ p, p ∈ ps → tbl_cryptoProject st !! p.1 = Some p.2) →
  ∃ st',
    forEach ps (λ p,
      recordEvent p.1 ET_project IDENTITY_VERIFIED
        config.trustScore.crypto.identityVerified
        "Team lead completed identity verification" (Some "system") None) st
    = (Return tt, st')
    ∧ sameReads st0 st'
    ∧ tbl_business st' = tbl_business st
    ∧ (∀ p, p ∈ ps →
         ∃ t, tbl_cryptoProject st' !! p.1
              = Some (CryptoProject.setScore (projectTotal st0 p.1 p.2) t p.2))
    ∧ (∀ id, id ∉ ps.*1 → tbl_cryptoProject st' !! id = tbl_cryptoProject st !! id).
Proof.
  revert st. induction ps as [|[id row] ps IH]; intros st Hreads Hnd Hex.
  - exists st. do 3 (split; [done|]). split; [|done].
    intros p Hp. by apply elem_of_nil in Hp.
  - rewrite fmap_cons in Hnd. apply NoDup_cons in Hnd as [Hid Hnd].
    assert (Hrow : tbl_cryptoProject st !! id = Some row) by (apply (Hex (id, row)); left).
    cbn [forEach fst]. unfold bind at 1.
    rewrite (recordEvent_project _ _ row) by done.
    set (e := newEvent st _ _ _ _ _ _ _).
    assert (Hpos : 0 ≤ points e) by (by vm_compute).
    set (st1 := projectScored _ _ _).
    assert (Hreads1 : sameReads st0 st1)
      by (by apply sameReads_projectScored, sameReads_created).
    destruct (IH st1 Hreads1 Hnd) as (st' & Hrun & Hreads' & Hbus & Hin & Hout).
    { intros q Hq. unfold st1, projectScored; cbn [tbl_cryptoProject].
      rewrite lookup_insert_ne; [apply Hex; by right|].
      intros ->. apply Hid. apply list_elem_of_fmap. by exists q. }
    exists st'. split; [done|]. split; [done|]. split; [by rewrite Hbus|]. split.
    + intros q [->|Hq]%elem_of_cons; [|by apply Hin].
      cbn [fst snd]. rewrite (Hout id Hid).
      unfold st1, projectScored; cbn [tbl_cryptoProject].
      rewrite lookup_insert_eq. eexists. do 2 f_equal.
      by apply sameReads_projectTotal, sameReads_created.
    + intros id' Hid'. rewrite fmap_cons in Hid'. apply not_elem_of_cons in Hid' as [? ?].
      rewrite Hout by done.
      unfold st1, projectScored; cbn [tbl_cryptoProject].
      by rewrite lookup_insert_ne.
Qed.

Lemma fanout_businesses_scores (bs : list (string * Business.t)) st0 st :
  sameReads st0 st →
  NoDup bs.*1 →
  (∀ b, b ∈ bs → tbl_business st !! b.1 = Some b.2) →
  ∃ st',
    forEach bs (λ b,
      recordEvent b.1 ET_business IDENTITY_VERIFIED
        config.trustScore.business.kybBasic
        "Business owner completed identity verification" (Some "system") None) st
    = (Return tt, st')
    ∧ sameReads st0 st'
    ∧ tbl_cryptoProject st' = tbl_cryptoProject st
    ∧ (∀ b, b ∈ bs →
         ∃ t, tbl_business st' !! b.1
              = Some (Business.setScore (businessTotal st0 b.1 b.2) t b.2))
    ∧ (∀ id, id ∉ bs.*1 → tbl_business st' !! id = tbl_business st !! id).
Proof.
  revert st. induction bs as [|[id row] bs IH]; intros st Hreads Hnd Hex.
  - exists st. do 3 (split; [done|]). split; [|done].
    intros b Hb. by apply elem_of_nil in Hb.
  - rewrite fmap_cons in Hnd. apply NoDup_cons in Hnd as [Hid Hnd].
    assert (Hrow : tbl_business st !! id = Some row) by (apply (Hex (id, row)); left).
    cbn [forEach fst]. unfold bind at 1.
    rewrite (recordEvent_business _ _ row) by done.
    set (e := newEvent st _ _ _ _ _ _ _).
    assert (Hpos : 0 ≤ points e) by (by vm_compute).
    set (st1 := businessScored _ _ _).
    assert (Hreads1 : sameReads st0 st1)
      by (by apply sameReads_businessScored, sameReads_created).
    destruct (IH st1 Hreads1 Hnd) as (st' & Hrun & Hreads' & Hprj & Hin & Hout).
    { intros q Hq. unfold st1, businessScored; cbn [tbl_business].
      rewrite lookup_insert_ne; [apply Hex; by right|].
      intros ->. apply Hid. apply list_elem_of_fmap. by exists q. }
    exists st'. split; [done|]. split; [done|]. split; [by rewrite Hprj|]. split.
    + intros q [->|Hq]%elem_of_cons; [|by apply Hin].
      cbn [fst snd]. rewrite (Hout id Hid).
      unfold st1, businessScored; cbn [tbl_business].
      rewrite lookup_insert_eq. eexists. do 2 f_equal.
      by apply sameReads_businessTotal, sameReads_created.
    + intros id' Hid'. rewrite fmap_cons in Hid'. apply not_elem_of_cons in Hid' as [? ?].
      rewrite Hout by done.
      unfold st1, businessScored; cbn [tbl_business].
      by rewrite lookup_insert_ne.
Qed.

End FanOutScores.

(** X13: after [onIdentityVerified userId] every project and business
    the user owns carries a freshly recomputed score: the score a
    recomputation in the store before the call would have given,
    because the rows the fan-out appends have positive points and are
    not counted.  Entities of other users keep their rows untouched, and
    for a user who owns nothing the call changes nothing at all. *)
Theorem onIdentityVerified_rescores_owned_only :
  ∀ st userId,
    ∃ st',
      onIdentityVerified userId st = (Return tt, st')
      ∧ (∀ id row, (id, row) ∈ projectsOf st userId →
           storedProjectScore st' id = Some (projectTotal st id row))
      ∧ (∀ id row, (id, row) ∈ businessesOf st userId →
           storedBusinessScore st' id = Some (businessTotal st id row))
      ∧ (∀ id row, tbl_cryptoProject st !! id = Some row →
           CryptoProject.userId row ≠ userId →
           tbl_cryptoProject st' !! id = Some row)
      ∧ (∀ id row, tbl_business st !! id = Some row →
           Business.userId row ≠ userId →
           tbl_business st' !! id = Some row)
      ∧ (projectsOf st userId = [] → businessesOf st userId = [] → st' = st).
Proof.
  intros st userId.
  assert (HinP : ∀ p, p ∈ projectsOf st userId →
                      tbl_cryptoProject st !! p.1 = Some p.2
                      ∧ CryptoProject.userId p.2 = userId).
  { intros [id row]. unfold projectsOf. rewrite list_elem_of_filter.
    intros [? Hin]. split; [by apply elem_of_map_to_list in Hin | done]. }
  assert (HinB : ∀ b, b ∈ businessesOf st userId →
                      tbl_business st !! b.1 = Some b.2
                      ∧ Business.userId b.2 = userId).
  { intros [id row]. unfold businessesOf. rewrite list_elem_of_filter.
    intros [? Hin]. split; [by apply elem_of_map_to_list in Hin | done]. }
  destruct (fanout_projects_scores (projectsOf st userId) st st)
    as (st1 & Hrun1 & Hreads1 & Hbus1 & HscoreP & HoutP).
  { apply sameReads_refl. }
  { apply NoDup_fst_filter, NoDup_fst_map_to_list. }
  { intros p Hp. by apply HinP. }
  destruct (fanout_businesses_scores (businessesOf st userId) st st1)
    as (st2 & Hrun2 & Hreads2 & Hprj2 & HscoreB & HoutB).
  { done. }
  { apply NoDup_fst_filter, NoDup_fst_map_to_list. }
  { intros b Hb. rewrite Hbus1. by apply HinB. }
  assert (Hrun : onIdentityVerified userId st = (Return tt, st2)).
  { unfold onIdentityVerified, bind, prisma.cryptoProject_findMany,
      prisma.business_findMany, gets.
    fold (projectsOf st userId) (businessesOf st userId).
    unfold bind in Hrun1, Hrun2. by rewrite Hrun1. }
  exists st2. split; [done|]. split; [|split; [|split; [|split]]].
  - intros id row Hin. destruct (HscoreP _ Hin) as [t Ht]. cbn [fst snd] in Ht.
    unfold storedProjectScore. by rewrite Hprj2, Ht.
  - intros id row Hin. destruct (HscoreB _ Hin) as [t Ht]. cbn [fst snd] in Ht.
    unfold storedBusinessScore. by rewrite Ht.
  - intros id row Hrow Hother. rewrite Hprj2, HoutP; [done|].
    intros ([id' row'] & -> & Hin)%list_elem_of_fmap.
    destruct (HinP _ Hin) as [Hrow' Howner]. cbn [fst snd] in *. congruence.
  - intros id row Hrow Hother. rewrite HoutB, Hbus1; [done|].
    intros ([id' row'] & -> & Hin)%list_elem_of_fmap.
    destruct (HinB _ Hin) as [Hrow' Howner]. cbn [fst snd] in *. congruence.
  - intros Hp Hb.
    destruct (onIdentityVerified_run st userId)
      as (st' & _ & _ & _ & _ & Hrun' & _ & _ & _ & _ & _ & _ & Hnil).
    rewrite Hrun in Hrun'. injection Hrun' as <-. by apply Hnil.
Qed.

Lemma onIdentityVerified_rescores_owned_only_witness :
  ∃ st',
    onIdentityVerified "user-1" store_fanout = (Return tt, st')
    ∧ storedProjectScore st' "p1" = Some 72
    ∧ tbl_cryptoProject st' !! "px" = tbl_cryptoProject store_fanout !! "px".
Proof.
  destruct (onIdentityVerified_rescores_owned_only store_fanout "user-1")
    as (st' & Hrun & HP & _ & Hother & _).
  exists st'. split; [exact Hrun|]. split.
  - rewrite (HP "p1" project_p0); [by vm_compute|].
    apply list_elem_of_In. vm_compute. repeat (first [left; reflexivity | right]).
  - rewrite (Hother "px" (CryptoProject.mk "user-2" "Other" None None None None None
                             None None None None None None None false 50 None));
      [reflexivity | reflexivity | by vm_compute].
Defined.

(** ** What a recomputation leaves alone *)

(** X14: a recomputation writes the two score columns of the one row
    it was asked for and nothing else of the data: every row keeps its
    attributes, the other rows of the table are the same, and the
    other entity table, the identity records, the documents, the
    founders and the ledger are as before, whether it returns or
    throws. *)
Theorem recompute_writes_score_columns_only :
  (∀ st id,
      let st' := (calculateProjectScore id st).2 in
      (∀ id', projectAttributes st' id' = projectAttributes st id')
      ∧ (∀ id', id' ≠ id → tbl_cryptoProject st' !! id' = tbl_cryptoProject st !! id')
      ∧ tbl_business st' = tbl_business st
      ∧ tbl_privateIdentityVerification st' = tbl_privateIdentityVerification st
      ∧ tbl_projectDocument st' = tbl_projectDocument st
      ∧ tbl_businessDocument st' = tbl_businessDocument st
      ∧ tbl_founder st' = tbl_founder st
      ∧ tbl_trustScoreEvent st' = tbl_trustScoreEvent st)
  ∧ (∀ st id,
      let st' := (calculateBusinessScore id st).2 in
      (∀ id', businessAttributes st' id' = businessAttributes st id')
      ∧ (∀ id', id' ≠ id → tbl_business st' !! id' = tbl_business st !! id')
      ∧ tbl_cryptoProject st' = tbl_cryptoProject st
      ∧ tbl_privateIdentityVerification st' = tbl_privateIdentityVerification st
      ∧ tbl_projectDocument st' = tbl_projectDocument st
      ∧ tbl_businessDocument st' = tbl_businessDocument st
      ∧ tbl_founder st' = tbl_founder st
      ∧ tbl_trustScoreEvent st' = tbl_trustScoreEvent st).
Proof.
  split.
  - intros st id st'. subst st'.
    destruct (tbl_cryptoProject st !! id) as [row|] eqn:Hrow.
    + rewrite (calculateProjectScore_run st id row Hrow); cbn [snd].
      split; [|split; [|by repeat split]].
      * intros id'. unfold projectAttributes, projectScored; cbn [tbl_cryptoProject].
        destruct (decide (id = id')) as [<-|Hne].
        -- by rewrite lookup_insert_eq, Hrow.
        -- by rewrite lookup_insert_ne.
      * intros id' Hne. unfold projectScored; cbn [tbl_cryptoProject].
        by rewrite lookup_insert_ne.
    + by rewrite (calculateProjectScore_missing st id Hrow).
  - intros st id st'. subst st'.
    destruct (tbl_business st !! id) as [row|] eqn:Hrow.
    + rewrite (calculateBusinessScore_run st id row Hrow); cbn [snd].
      split; [|split; [|by repeat split]].
      * intros id'. unfold businessAttributes, businessScored; cbn [tbl_business].
        destruct (decide (id = id')) as [<-|Hne].
        -- by rewrite lookup_insert_eq, Hrow.
        -- by rewrite lookup_insert_ne.
      * intros id' Hne. unfold businessScored; cbn [tbl_business].
        by rewrite lookup_insert_ne.
    + by rewrite (calculateBusinessScore_missing st id Hrow).
Qed.

Lemma recompute_writes_score_columns_only_witness :
  tbl_cryptoProject (calculateProjectScore "p1" store_fanout).2 !! "p2"
  = tbl_cryptoProject store_fanout !! "p2".
Proof.
  destruct recompute_writes_score_columns_only as (Hp & _).
  destruct (Hp store_fanout "p1") as (_ & Hother & _).
  apply Hother. discriminate.
Defined.

(** ** The published tier table *)

(** X15: the table GET /trust-score/tiers sends agrees with the
    classifier on every score from 0 to 100: each such score lies in
    the range of exactly one row, and that row names the tier [getTier]
    gives the score. *)
Theorem tiers_table_agrees_with_getTier :
  ∀ score : Z,
    0 ≤ score ≤ 100 →
    ∃ row,
      filter (λ r, row_minScore r ≤ score ≤ row_maxScore r) tiers = [row]
      ∧ row_tier row = getTier score.
Proof.
  intros score Hrange. unfold tiers.
  destruct (getTier_cases score) as [[? ->]|[[? ->]|[[? ->]|[[? ->]|[? ->]]]]];
    eexists;
    (split;
     [ rewrite !filter_cons, filter_nil; cbn [row_minScore row_maxScore];
       repeat case_decide; try lia; reflexivity
     | reflexivity ]).
Qed.

Lemma tiers_table_agrees_with_getTier_witness :
  ∃ row,
    filter (λ r, row_minScore r ≤ 84 ≤ row_maxScore r) tiers = [row]
    ∧ row_tier row = getTier 84.
Proof. apply (tiers_table_agrees_with_getTier 84). lia. Defined.

(** ** The adjustment route *)

Section AdjustRoute.
Implicit Types (st : Store) (body : AdjustBody).

Lemma truthy_string_true (s : string) : truthy s = true ↔ s ≠ "".
Proof. by destruct s. Qed.

Lemma postTrustScoreAdjust_incomplete body adminId st :
  (∀ id ty pts why, ¬ completeBody body id ty pts why) →
  postTrustScoreAdjust body adminId st = (Return badRequest, st).
Proof.
  intros Hinc. unfold postTrustScoreAdjust, tryCatch.
  destruct body as [[id|] [ty|] [pts|] [why|]]; cbn; try done.
  destruct (truthy id) eqn:Hid; [|done].
  destruct (truthy why) eqn:Hwhy; [|done].
  destruct (Hinc id ty pts why).
  apply truthy_string_true in Hid, Hwhy. by repeat split.
Qed.

Lemma postTrustScoreAdjust_complete body adminId st id ty pts why :
  completeBody body id ty pts why →
  postTrustScoreAdjust body adminId st
  = tryCatch
      (result <- adminAdjust {| adj_entityId := id; adj_entityType := ty;
                                adj_points := pts; adj_reason := why |} adminId ;;
       ret {| res_status := 200; res_success := true; res_error := None;
              res_data := Some result |})
      (λ error,
         logger_error LC_ADMIN "TRUST_SCORE_ADJUST_ERROR" "Failed to adjust trust score"
           error ;;;
         ret adjustFailed) st.
Proof.
  intros (Hid & Hty & Hpts & Hwhy & Hid' & Hwhy').
  unfold postTrustScoreAdjust. rewrite Hid, Hty, Hpts, Hwhy.
  apply truthy_string_true in Hid', Hwhy'. by rewrite Hid', Hwhy'.
Qed.

End AdjustRoute.

(** X16: the handler callback of POST /admin/trust-score/adjust, run on
    the body it receives and the id of the authenticated admin (the
    middleware around the callback left aside), never throws and
    answers in one of three ways.  A body that lacks a field, or whose
    entityId or reason is empty, gets 400 and the callback leaves the
    store untouched (points equal to 0 are not "missing").  A complete
    body for an existing entity, with points that fit the 32-bit
    [points] column, gets 200 with the result of [adminAdjust], whose
    score is the clamped old total plus the points if they are
    negative.  A complete body for an id that resolves to no entity, or
    with points outside the 32-bit range, gets 500, and the only trace
    the callback leaves is one ERROR record in the system log: no ledger
    row, no score written. *)
Theorem postTrustScoreAdjust_responses :
  (∀ body adminId st,
      (∀ id ty pts why, ¬ completeBody body id ty pts why) →
      postTrustScoreAdjust body adminId st = (Return badRequest, st))
  ∧ (∀ body adminId st id ty pts why raw,
      completeBody body id ty pts why →
      -2147483648 ≤ pts ≤ 2147483647 →
      rawScore st ty id = Some raw →
      ∃ r st',
        postTrustScoreAdjust body adminId st
        = (Return {| res_status := 200; res_success := true; res_error := None;
                     res_data := Some r |}, st')
        ∧ currentScore r = clampScore (raw + counted pts)
        ∧ storedScore st' ty id = Some (currentScore r)
        ∧ length (tbl_trustScoreEvent st') = S (length (tbl_trustScoreEvent st)))
  ∧ (∀ body adminId st id ty pts why,
      completeBody body id ty pts why →
      rawScore st ty id = None ∨ ¬ -2147483648 ≤ pts ≤ 2147483647 →
      ∃ l,
        postTrustScoreAdjust body adminId st
        = (Return adjustFailed, set_systemLog (tbl_systemLog st ++ [l])%list st)
        ∧ level l = ERROR ∧ category l = LC_ADMIN
        ∧ action l = "TRUST_SCORE_ADJUST_ERROR").
Proof.
  split; [apply postTrustScoreAdjust_incomplete|]. split.
  - intros body adminId st id ty pts why raw Hbody Hrange%int32_spec Hraw.
    rewrite (postTrustScoreAdjust_complete _ _ _ _ _ _ _ Hbody).
    destruct (adminAdjust_found st {| adj_entityId := id; adj_entityType := ty;
                                      adj_points := pts; adj_reason := why |}
                adminId raw Hrange Hraw)
      as (r & st' & l1 & admin & l3 & Hrun & Hscore & Hstored & Hev & _).
    exists r, st'. unfold tryCatch, bind. rewrite Hrun.
    split; [done|]. split; [done|]. split; [done|].
    rewrite Hev, length_app; cbn [length]. lia.
  - intros body adminId st id ty pts why Hbody Hfail.
    rewrite (postTrustScoreAdjust_complete _ _ _ _ _ _ _ Hbody).
    assert (∃ e, adminAdjust {| adj_entityId := id; adj_entityType := ty;
                                adj_points := pts; adj_reason := why |} adminId st
                 = (Throw e, st)) as [e Hrun].
    { destruct Hfail as [Hraw|Hrange].
      - by apply adminAdjust_missing.
      - by apply adminAdjust_out_of_range, int32_outside. }
    eexists. unfold tryCatch at 1, bind at 1. rewrite Hrun.
    split; [reflexivity|]. done.
Qed.

Lemma postTrustScoreAdjust_responses_witness :
  postTrustScoreAdjust
    {| body_entityId := Some "p0"; body_entityType := Some ET_project;
       body_points := None; body_reason := Some "goodwill" |} "admin-1" store0
  = (Return badRequest, store0)
  ∧ (∃ r st',
      postTrustScoreAdjust
        {| body_entityId := Some "p0"; body_entityType := Some ET_project;
           body_points := Some 0; body_reason := Some "goodwill" |} "admin-1" store0
      = (Return {| res_status := 200; res_success := true; res_error := None;
                   res_data := Some r |}, st')
      ∧ currentScore r = 52)
  ∧ ∃ l,
      postTrustScoreAdjust
        {| body_entityId := Some "p0"; body_entityType := Some ET_project;
           body_points := Some 3000000000; body_reason := Some "goodwill" |}
        "admin-1" store0
      = (Return adjustFailed, set_systemLog (tbl_systemLog store0 ++ [l])%list store0)
      ∧ level l = ERROR.
Proof.
  destruct postTrustScoreAdjust_responses as (Hbad & Hok & Hfail).
  split; [|split].
  - apply Hbad. intros id ty pts why (_ & _ & Hpts & _). discriminate Hpts.
  - destruct (Hok {| body_entityId := Some "p0"; body_entityType := Some ET_project;
                     body_points := Some 0; body_reason := Some "goodwill" |}
                "admin-1" store0 "p0" ET_project 0 "goodwill" 52)
      as (r & st' & Hrun & Hscore & _).
    + repeat split; discriminate.
    + lia.
    + reflexivity.
    + exists r, st'. split; [exact Hrun|]. by rewrite Hscore.
  - destruct (Hfail {| body_entityId := Some "p0"; body_entityType := Some ET_project;
                       body_points := Some 3000000000; body_reason := Some "goodwill" |}
                "admin-1" store0 "p0" ET_project 3000000000 "goodwill")
      as (l & Hrun & Hl & _).
    + repeat split; discriminate.
    + right. lia.
    + exists l. by split.
Defined.

(** ** Profile completeness *)

(** X17: the profile rule pays its full 10 points exactly when every
    required field is filled: name, description, category, total
    supply and a team allocation for a project; legal name, entity
    type, jurisdiction, description, industry, business e-mail and
    website for a business.  With any field missing it pays less. *)
Theorem profile_rule_full_iff_complete :
  (∀ (p : CryptoProject.t) context,
      (evaluate projectProfileRule p context = maxPoints projectProfileRule
       ↔ truthy (CryptoProject.name p) = true
         ∧ truthy (CryptoProject.description p) = true
         ∧ truthy (CryptoProject.category p) = true
         ∧ truthy (CryptoProject.totalSupply p) = true
         ∧ CryptoProject.teamAllocationPercent p ≠ None)
      ∧ evaluate projectProfileRule p context ≤ maxPoints projectProfileRule)
  ∧ (∀ (b : Business.t) context,
      (evaluate businessProfileRule b context = maxPoints businessProfileRule
       ↔ truthy (Business.legalName b) = true
         ∧ truthy (Business.entityType b) = true
         ∧ truthy (Business.jurisdiction b) = true
         ∧ truthy (Business.description b) = true
         ∧ truthy (Business.industry b) = true
         ∧ truthy (Business.businessEmail b) = true
         ∧ truthy (Business.website b) = true)
      ∧ evaluate businessProfileRule b context ≤ maxPoints businessProfileRule).
Proof.
  split.
  - intros p context. cbn [evaluate maxPoints projectProfileRule].
    destruct (truthy (CryptoProject.name p)), (truthy (CryptoProject.description p)),
      (truthy (CryptoProject.category p)), (truthy (CryptoProject.totalSupply p)),
      (CryptoProject.teamAllocationPercent p);
      vm_compute; intuition congruence.
  - intros b context. cbn [evaluate maxPoints businessProfileRule].
    destruct (truthy (Business.legalName b)), (truthy (Business.entityType b)),
      (truthy (Business.jurisdiction b)), (truthy (Business.description b)),
      (truthy (Business.industry b)), (truthy (Business.businessEmail b)),
      (truthy (Business.website b));
      vm_compute; intuition congruence.
Qed.

(** ** Uploaded documents *)

(** X18: [onDocumentsUploaded] for a financial document of an existing
    business records a DOCS_UPLOADED row of 15 points, which is what
    the financial-documents rule awards once the business has such a
    document.  For an audit document of an existing project it records
    a DOCS_UPLOADED row of 10 points, the external-audit value, although
    the external-audit rule does not look at documents: for a project
    without an audit provider that rule still awards 0.  In both cases
    the stored score afterwards is the recomputed total, to which the
    row adds nothing. *)
Theorem onDocumentsUploaded_records_but_rules_decide :
  (∀ st id row,
      tbl_business st !! id = Some row →
      ∃ st' e,
        onDocumentsUploaded id ET_business "financial" st = (Return tt, st')
        ∧ tbl_trustScoreEvent st' = (tbl_trustScoreEvent st ++ [e])%list
        ∧ eventType e = DOCS_UPLOADED ∧ points e = 15
        ∧ reason e = "Financial documents uploaded"
        ∧ storedBusinessScore st' id = Some (businessTotal st id row)
        ∧ (∀ context, hasFinancialDocs context = Some true →
             evaluate financialDocsRule row context = points e))
  ∧ (∀ st id row,
      tbl_cryptoProject st !! id = Some row →
      ∃ st' e,
        onDocumentsUploaded id ET_project "audit" st = (Return tt, st')
        ∧ tbl_trustScoreEvent st' = (tbl_trustScoreEvent st ++ [e])%list
        ∧ eventType e = DOCS_UPLOADED ∧ points e = 10
        ∧ reason e = "Audit report uploaded"
        ∧ storedProjectScore st' id = Some (projectTotal st id row)
        ∧ (∀ context, CryptoProject.auditProvider row = None →
             evaluate externalAuditRule row context = 0)).
Proof.
  split.
  - intros st id row Hrow.
    assert (Hraw : rawScore st ET_business id = Some (businessRaw st id row))
      by (cbn [rawScore]; by rewrite Hrow).
    destruct (recordEvent_spec st id ET_business DOCS_UPLOADED
                config.trustScore.business.financialDocs
                "Financial documents uploaded" (Some "system") None _ eq_refl Hraw)
      as (st' & l & Hrun & Hev & _ & _ & Hstored & _).
    eexists st', _. split; [exact Hrun|]. split; [exact Hev|].
    do 3 (split; [done|]). split.
    + cbn [storedScore] in Hstored. rewrite Hstored. f_equal.
      unfold businessTotal. f_equal. fold (businessRaw st id row).
      change (counted config.trustScore.business.financialDocs) with 0. lia.
    + intros context Hdocs. cbn. by rewrite Hdocs.
  - intros st id row Hrow.
    assert (Hraw : rawScore st ET_project id = Some (projectRaw st id row))
      by (cbn [rawScore]; by rewrite Hrow).
    destruct (recordEvent_spec st id ET_project DOCS_UPLOADED
                config.trustScore.crypto.externalAudit
                "Audit report uploaded" (Some "system") None _ eq_refl Hraw)
      as (st' & l & Hrun & Hev & _ & _ & Hstored & _).
    eexists st', _. split; [exact Hrun|]. split; [exact Hev|].
    do 3 (split; [done|]). split.
    + cbn [storedScore] in Hstored. rewrite Hstored. f_equal.
      unfold projectTotal. f_equal. fold (projectRaw st id row).
      change (counted config.trustScore.crypto.externalAudit) with 0. lia.
    + intros context Hnone. cbn. by rewrite Hnone.
Qed.

Lemma onDocumentsUploaded_records_but_rules_decide_witness :
  ∃ st' e,
    onDocumentsUploaded "p0" ET_project "audit" store0_documents = (Return tt, st')
    ∧ tbl_trustScoreEvent st' = (tbl_trustScoreEvent store0_documents ++ [e])%list
    ∧ points e = 10
    ∧ storedProjectScore st' "p0" = Some 52.
Proof.
  destruct onDocumentsUploaded_records_but_rules_decide as (_ & Hp).
  destruct (Hp store0_documents "p0" project_p0) as
    (st' & e & Hrun & Hev & _ & Hpts & _ & Hstored & _); [reflexivity|].
  exists st', e. split; [exact Hrun|]. split; [exact Hev|]. split; [exact Hpts|].
  rewrite Hstored. reflexivity.
Defined.

Lemma profile_rule_full_iff_complete_witness :
  evaluate projectProfileRule
    (CryptoProject.mk "user-1" "Token" (Some "A token") (Some "defi") None None None
       None (Some "1000000") (Some 10) None None None None false 50 None)
    emptyContext
  = maxPoints projectProfileRule.
Proof.
  destruct profile_rule_full_iff_complete as (Hp & _).
  apply Hp. by repeat split.
Defined.
